(** * Student record management console application

    A shallow embedding of [Student_Record_Management_Console_App.py]:
    the [Student] record class with its dictionary conversions, and the
    [StudentManager] operations (load, save, find, add, update, delete)
    as computations over an explicit world made of the in-memory list
    of students, the console and the backing file. *)

From Stdlib Require Import ZArith Lia Ascii String.
From Stdlib Require Import Floats.SpecFloat.
From stdpp Require Import base list strings.
From stdpp Require Import pretty.

Local Open Scope Z_scope.
Local Open Scope string_scope.
Local Open Scope list_scope.

(** ** Python values

    The fields of a student hold whatever the program stored there:
    strings, an [int] and a [float] when the record comes from
    [add_student], any JSON value when it comes from the file. *)

#[warnings="-register-all"]
Inductive pyval : Type :=
  | PyNone
  | PyBool (b : bool)
  | PyInt (n : Z)
  | PyFloat (x : spec_float)
  | PyStr (s : string)
  | PyList (items : list pyval)
  | PyDict (items : list (string * pyval)).

Global Instance spec_float_eq_dec : EqDecision spec_float.
Proof. solve_decision. Defined.

Global Instance pyval_eq_dec : EqDecision pyval.
Proof.
  refine (fix go (x y : pyval) {struct x} : Decision (x = y) :=
    match x, y with
    | PyNone, PyNone => left _
    | PyBool a, PyBool b => cast_if (decide (a = b))
    | PyInt a, PyInt b => cast_if (decide (a = b))
    | PyFloat a, PyFloat b => cast_if (decide (a = b))
    | PyStr a, PyStr b => cast_if (decide (a = b))
    | PyList a, PyList b => cast_if (@list_eq_dec _ go a b)
    | PyDict a, PyDict b => cast_if (@list_eq_dec _ (@prod_eq_dec _ _ _ go) a b)
    | _, _ => right _
    end); clear go; congruence.
Defined.

(** The exceptions the program can meet. *)
Inductive PyExc : Type :=
  | EOFError
  | ValueError
  | JSONDecodeError
  | UnicodeDecodeError
  | KeyError
  | TypeError
  | OSError
  | RecursionError.

(** [JSONDecodeError] and [UnicodeDecodeError] derive from [ValueError];
    every class above derives from [Exception]. *)
Definition isinstance (e cls : PyExc) : bool :=
  match cls, e with
  | ValueError, (ValueError | JSONDecodeError | UnicodeDecodeError) => true
  | EOFError, EOFError | JSONDecodeError, JSONDecodeError
  | UnicodeDecodeError, UnicodeDecodeError | KeyError, KeyError
  | TypeError, TypeError | OSError, OSError
  | RecursionError, RecursionError => true
  | _, _ => false
  end.

Inductive Result (A : Type) : Type :=
  | Ok (a : A)
  | Raise (e : PyExc).
Arguments Ok {A} a.
Arguments Raise {A} e.

Definition is_ok {A} (r : Result A) : bool :=
  match r with Ok _ => true | Raise _ => false end.

(** ** Operations of the language on values *)

(** Lookup in a dictionary, given as the list of its pairs in the order
    they were bound: as in Python, a key bound again holds the value
    bound last. *)
Fixpoint dict_get (items : list (string * pyval)) (key : string) : option pyval :=
  match items with
  | [] => None
  | (k, v) :: rest =>
      match dict_get rest key with
      | Some v' => Some v'
      | None => if String.eqb k key then Some v else None
      end
  end.

(** [data[key]] for a string key: a dictionary is looked up (a missing
    key is a [KeyError]); a string or a list wants integer indices and
    every other value is not subscriptable. *)
Definition py_getitem (data : pyval) (key : string) : Result pyval :=
  match data with
  | PyDict items =>
      match dict_get items key with
      | Some v => Ok v
      | None => Raise KeyError
      end
  | _ => Raise TypeError
  end.

(** The one-character strings a string is iterated as. *)
Fixpoint str_chars (s : string) : list pyval :=
  match s with
  | EmptyString => []
  | String c rest => PyStr (String c EmptyString) :: str_chars rest
  end.

(** [for d in data]: a list yields its items, a dictionary its keys, a
    string its characters; the other values are not iterable. *)
Definition py_iter (data : pyval) : Result (list pyval) :=
  match data with
  | PyList items => Ok items
  | PyDict items => Ok (map (fun kv => PyStr (fst kv)) items)
  | PyStr s => Ok (str_chars s)
  | _ => Raise TypeError
  end.

(** [v == s] for a string [s]: true exactly for the same string. *)
Definition py_eq_str (v : pyval) (s : string) : bool :=
  match v with
  | PyStr t => String.eqb t s
  | _ => false
  end.

(** Truth value of a string: non-empty. *)
Definition str_truthy (s : string) : bool :=
  match s with
  | EmptyString => false
  | String _ _ => true
  end.

(** The binary64 float an [int] converts to in a comparison. *)
Definition float_of_int (n : Z) : spec_float :=
  binary_normalize 53 1024 n 0 false.

(** [0 <= marks <= 100] on a float: a chained comparison, both halves
    false on NaN. *)
Definition marks_in_range (marks : spec_float) : bool :=
  SFleb (float_of_int 0) marks && SFleb marks (float_of_int 100).

(** ** The Student class *)

Module Student.

Record t : Type := mk {
  student_id : pyval;
  name : pyval;
  branch : pyval;
  year : pyval;
  marks : pyval
}.

Definition to_dict (self : t) : pyval :=
  PyDict [ ("Student_id", student_id self);
           ("Name", name self);
           ("Branch", branch self);
           ("Year", year self);
           ("Marks", marks self) ].

Definition from_dict (data : pyval) : Result t :=
  match py_getitem data "Student_id" with
  | Raise e => Raise e
  | Ok i =>
  match py_getitem data "Name" with
  | Raise e => Raise e
  | Ok n =>
  match py_getitem data "Branch" with
  | Raise e => Raise e
  | Ok b =>
  match py_getitem data "Year" with
  | Raise e => Raise e
  | Ok y =>
  match py_getitem data "Marks" with
  | Raise e => Raise e
  | Ok m => Ok (mk i n b y m)
  end end end end end.

Global Instance eq_dec : EqDecision t.
Proof. solve_decision. Defined.

(** Attribute assignments [self.name = v] and the like. *)
Definition set_name (v : pyval) (self : t) : t :=
  mk (student_id self) v (branch self) (year self) (marks self).
Definition set_branch (v : pyval) (self : t) : t :=
  mk (student_id self) (name self) v (year self) (marks self).
Definition set_year (v : pyval) (self : t) : t :=
  mk (student_id self) (name self) (branch self) v (marks self).
Definition set_marks (v : pyval) (self : t) : t :=
  mk (student_id self) (name self) (branch self) (year self) v.

End Student.

(** [[Student.from_dict(d) for d in data]]: the comprehension stops at
    the first element that raises. *)
Fixpoint from_dict_all (ds : list pyval) : Result (list Student.t) :=
  match ds with
  | [] => Ok []
  | d :: rest =>
      match Student.from_dict d with
      | Raise e => Raise e
      | Ok s =>
          match from_dict_all rest with
          | Raise e => Raise e
          | Ok ss => Ok (s :: ss)
          end
      end
  end.

(** ** The runtime the program runs on

    The library functions the program calls are not part of it: the
    JSON encoder and decoder on the bytes of a file, the parsers behind
    [int(...)] and [float(...)] ([None] is their [ValueError]) and
    [str.strip]. *)

Class Runtime : Type := {
  FileData : Type;
  json_dump : pyval -> FileData;
  json_load : FileData -> Result pyval;
  py_int : string -> option Z;
  py_float : string -> option spec_float;
  str_strip : string -> string
}.

(** What [json.load] does with what [json.dump] wrote. *)
Definition json_round_trip (RT : Runtime) : Prop :=
  forall v : pyval, json_load (json_dump v) = Ok v.

(** ** Console output

    One constructor per [print] call and per prompt of [input], with
    the values its f-string interpolates. *)

Inductive Msg : Type :=
  (* _load_data *)
  | MsgLoaded (file_name : string)
  | MsgDecodeError (file_name : string)
  | MsgLoadError (e : PyExc)
  | MsgNoFile (file_name : string)
  (* _save_data *)
  | MsgSaved (file_name : string)
  | MsgSaveError (file_name : string) (e : PyExc)
  (* add_student *)
  | MsgAddHeader
  | PromptStudentId
  | MsgIdEmpty
  | MsgIdExists (student_id : string)
  | PromptName
  | PromptBranch
  | PromptYear
  | PromptMarks
  | MsgAdded (name : string)
  (* shared by add_student and update_student *)
  | MsgYearNotPositive
  | MsgYearInvalid
  | MsgMarksOutOfRange
  | MsgMarksInvalid
  (* update_student *)
  | MsgUpdateHeader
  | PromptUpdateId
  | MsgFound (student : Student.t)
  | MsgEnterNewDetails
  | PromptNewName (current : pyval)
  | PromptNewBranch (current : pyval)
  | PromptNewYear (current : pyval)
  | PromptNewMarks (current : pyval)
  | MsgUpdated (student_id : string)
  | MsgNotFound (student_id : string)
  (* delete_student *)
  | MsgDeleteHeader
  | PromptDeleteId
  | MsgDeleted (student_id : string).

(** The validation messages of [add_student] and [update_student]. *)
Definition is_validation_msg (m : Msg) : bool :=
  match m with
  | MsgIdEmpty | MsgIdExists _ | MsgYearNotPositive | MsgYearInvalid
  | MsgMarksOutOfRange | MsgMarksInvalid => true
  | _ => false
  end.

Module StudentManager.
Section WithRuntime.
Context `{RT : Runtime}.

(** *** The world

    The manager object ([file_name], [students]), the lines still to
    be read on standard input, what has been written to standard
    output, and the backing file: its bytes when it exists, and
    whether opening it for reading or for writing succeeds. *)
Record World : Type := mkWorld {
  file_name : string;
  students : list Student.t;
  stdin : list string;
  stdout : list Msg;
  file : option FileData;
  readable : bool;
  writable : bool
}.

Definition with_students (l : list Student.t) (w : World) : World :=
  mkWorld (file_name w) l (stdin w) (stdout w) (file w) (readable w) (writable w).
Definition with_stdin (l : list string) (w : World) : World :=
  mkWorld (file_name w) (students w) l (stdout w) (file w) (readable w) (writable w).
Definition with_stdout (l : list Msg) (w : World) : World :=
  mkWorld (file_name w) (students w) (stdin w) l (file w) (readable w) (writable w).
Definition with_file (f : option FileData) (w : World) : World :=
  mkWorld (file_name w) (students w) (stdin w) (stdout w) f (readable w) (writable w).

(** *** Computations: state and exceptions *)
Definition M (A : Type) : Type := World -> Result A * World.

Definition ret {A} (a : A) : M A := fun w => (Ok a, w).
Definition raise {A} (e : PyExc) : M A := fun w => (Raise e, w).
Definition bind {A B} (m : M A) (k : A -> M B) : M B :=
  fun w =>
    match m w with
    | (Ok a, w') => k a w'
    | (Raise e, w') => (Raise e, w')
    end.

Notation "x <- m ;; k" := (bind m (fun x => k))
  (at level 100, m at next level, right associativity).
Notation "m ;; k" := (bind m (fun _ => k))
  (at level 100, right associativity).

(** [try: body except cls: handler]: [handler e] is [None] when no
    clause matches [e], which then propagates. *)
Definition try_except {A} (body : M A) (handler : PyExc -> option (M A)) : M A :=
  fun w =>
    match body w with
    | (Ok a, w') => (Ok a, w')
    | (Raise e, w') =>
        match handler e with
        | Some h => h w'
        | None => (Raise e, w')
        end
    end.

(** The outcome and the final world of a computation. *)
Definition outcome {A} (m : M A) (w : World) : Result A := fst (m w).
Definition exec {A} (m : M A) (w : World) : World := snd (m w).

Definition lift {A} (r : Result A) : M A := fun w => (r, w).

Definition get_students : M (list Student.t) := fun w => (Ok (students w), w).
Definition set_students (l : list Student.t) : M unit :=
  fun w => (Ok tt, with_students l w).
Definition get_file_name : M string := fun w => (Ok (file_name w), w).

(** [print(...)]: the message goes to the console, which is taken to
    accept every text. *)
Definition print (m : Msg) : M unit :=
  fun w => (Ok tt, with_stdout (stdout w ++ [m]) w).

(** [input(prompt)]: writes the prompt, then returns the next line;
    [EOFError] at the end of the input. *)
Definition input (prompt : Msg) : M string :=
  fun w =>
    let w' := with_stdout (stdout w ++ [prompt]) w in
    match stdin w' with
    | [] => (Raise EOFError, w')
    | line :: rest => (Ok line, with_stdin rest w')
    end.

(** [os.path.exists(self.file_name)] *)
Definition os_path_exists : M bool :=
  fun w => (Ok (match file w with Some _ => true | None => false end), w).

(** [with open(self.file_name,'r') as f: json.load(f)] *)
Definition open_and_load : M pyval :=
  fun w =>
    match file w with
    | None => (Raise OSError, w)
    | Some bytes =>
        if readable w then (json_load bytes, w) else (Raise OSError, w)
    end.

(** [with open(self.file_name,'w') as f: json.dump(obj, f, indent=4)]:
    a save that fails is one whose [open] fails. *)
Definition open_and_dump (obj : pyval) : M unit :=
  fun w =>
    if writable w then (Ok tt, with_file (Some (json_dump obj)) w)
    else (Raise OSError, w).

(** [int(s)] and [float(s)] on a string. *)
Definition int_of_str (s : string) : M Z :=
  match py_int s with Some n => ret n | None => raise ValueError end.
Definition float_of_str (s : string) : M spec_float :=
  match py_float s with Some x => ret x | None => raise ValueError end.

(** [while True:] with a body that starts by reading a line with
    [input(prompt)]. [body line] is the rest of the body: [Some a] at
    a [break] (with the values the loop leaves behind), [None] when
    the loop goes round again. Each round takes one line, so the loop
    is by recursion on the lines still to be read; past the last one
    [input] raises [EOFError], which no handler of the program
    catches. *)
Fixpoint while_input_from {A} (prompt : Msg) (body : string -> M (option A))
    (lines : list string) : M A :=
  fun w =>
    let w1 := with_stdout (stdout w ++ [prompt]) w in
    match lines with
    | [] => (Raise EOFError, with_stdin [] w1)
    | line :: rest =>
        match body line (with_stdin rest w1) with
        | (Ok (Some a), w2) => (Ok a, w2)
        | (Ok None, w2) => while_input_from prompt body rest w2
        | (Raise e, w2) => (Raise e, w2)
        end
    end.

Definition while_input {A} (prompt : Msg) (body : string -> M (option A)) : M A :=
  fun w => while_input_from prompt body (stdin w) w.

(** *** StudentManager *)

Definition _load_data : M unit :=
  fname <- get_file_name ;;
  found <- os_path_exists ;;
  if found : bool then
    try_except
      (data <- open_and_load ;;
       items <- lift (py_iter data) ;;
       loaded <- lift (from_dict_all items) ;;
       set_students loaded ;;
       print (MsgLoaded fname))
      (fun e =>
         if isinstance e JSONDecodeError then
           Some (print (MsgDecodeError fname) ;; set_students [])
         else
           Some (print (MsgLoadError e) ;; set_students []))
  else
    print (MsgNoFile fname).

(** [StudentManager(file_name)] *)
Definition __init__ (fname : string) : M unit :=
  fun w =>
    _load_data
      (mkWorld fname [] (stdin w) (stdout w) (file w) (readable w) (writable w)).

Definition _save_data : M unit :=
  fname <- get_file_name ;;
  try_except
    (ss <- get_students ;;
     open_and_dump (PyList (map Student.to_dict ss)) ;;
     print (MsgSaved fname))
    (fun e => Some (print (MsgSaveError fname e))).

(** The [for] loop of [_find_student] over a list: the first student
    whose id equals [student_id]. The object returned is the one in
    the list, not a copy: it comes with its position, through which
    [update_student] assigns to it. *)
Fixpoint find_student_in (l : list Student.t) (student_id : string)
    : option (nat * Student.t) :=
  match l with
  | [] => None
  | student :: rest =>
      if py_eq_str (Student.student_id student) student_id
      then Some (0%nat, student)
      else
        match find_student_in rest student_id with
        | Some (i, s) => Some (S i, s)
        | None => None
        end
  end.

Definition _find_student (student_id : string) : M (option (nat * Student.t)) :=
  ss <- get_students ;;
  ret (find_student_in ss student_id).

(** The rounds of the three [while True] loops of [add_student], from
    the line read on. *)
Definition add_id_round (line : string) : M (option string) :=
  let student_id := str_strip line in
  if negb (str_truthy student_id) then
    print MsgIdEmpty ;; ret None
  else
    found <- _find_student student_id ;;
    match found with
    | Some _ => print (MsgIdExists student_id) ;; ret None
    | None => ret (Some student_id)
    end.

Definition add_year_round (line : string) : M (option Z) :=
  try_except
    (year <- int_of_str line ;;
     if (year <=? 0)%Z then print MsgYearNotPositive ;; ret None
     else ret (Some year))
    (fun e =>
       if isinstance e ValueError
       then Some (print MsgYearInvalid ;; ret None)
       else None).

Definition add_marks_round (line : string) : M (option spec_float) :=
  try_except
    (marks <- float_of_str line ;;
     if negb (marks_in_range marks) then print MsgMarksOutOfRange ;; ret None
     else ret (Some marks))
    (fun e =>
       if isinstance e ValueError
       then Some (print MsgMarksInvalid ;; ret None)
       else None).

Definition add_student : M unit :=
  print MsgAddHeader ;;
  student_id <- while_input PromptStudentId add_id_round ;;
  name_line <- input PromptName ;;
  let name := str_strip name_line in
  branch_line <- input PromptBranch ;;
  let branch := str_strip branch_line in
  year <- while_input PromptYear add_year_round ;;
  marks <- while_input PromptMarks add_marks_round ;;
  let new_student :=
    Student.mk (PyStr student_id) (PyStr name) (PyStr branch)
               (PyInt year) (PyFloat marks) in
  ss <- get_students ;;
  set_students (ss ++ [new_student]) ;;
  _save_data ;;
  print (MsgAdded name).

(** [student.attr = v] on the object at position [ref] of the list. *)
Definition assign (ref : nat) (f : Student.t -> Student.t) : M unit :=
  ss <- get_students ;;
  set_students (alter f ref ss).

(** The rounds of the two [while True] loops of [update_student], from
    the line read on, for the student at position [ref]. *)
Definition update_year_round (ref : nat) (line : string) : M (option unit) :=
  let new_year_str := str_strip line in
  if negb (str_truthy new_year_str) then ret (Some tt)
  else
    try_except
      (new_year <- int_of_str new_year_str ;;
       if (new_year <=? 0)%Z then print MsgYearNotPositive ;; ret None
       else assign ref (Student.set_year (PyInt new_year)) ;; ret (Some tt))
      (fun e =>
         if isinstance e ValueError
         then Some (print MsgYearInvalid ;; ret None)
         else None).

Definition update_marks_round (ref : nat) (line : string) : M (option unit) :=
  let new_marks_str := str_strip line in
  if negb (str_truthy new_marks_str) then ret (Some tt)
  else
    try_except
      (new_marks <- float_of_str new_marks_str ;;
       if negb (marks_in_range new_marks)
       then print MsgMarksOutOfRange ;; ret None
       else assign ref (Student.set_marks (PyFloat new_marks)) ;; ret (Some tt))
      (fun e =>
         if isinstance e ValueError
         then Some (print MsgMarksInvalid ;; ret None)
         else None).

(** In the prompts, [student.name], [student.branch], [student.year]
    and [student.marks] are read before the first assignment to that
    attribute: they are the values of the object as found. *)
Definition update_student : M unit :=
  print MsgUpdateHeader ;;
  id_line <- input PromptUpdateId ;;
  let student_id := str_strip id_line in
  found <- _find_student student_id ;;
  match found with
  | Some (ref, student) =>
      print (MsgFound student) ;;
      print MsgEnterNewDetails ;;
      name_line <- input (PromptNewName (Student.name student)) ;;
      let new_name := str_strip name_line in
      (if str_truthy new_name
       then assign ref (Student.set_name (PyStr new_name))
       else ret tt) ;;
      branch_line <- input (PromptNewBranch (Student.branch student)) ;;
      let new_branch := str_strip branch_line in
      (if str_truthy new_branch
       then assign ref (Student.set_branch (PyStr new_branch))
       else ret tt) ;;
      while_input (PromptNewYear (Student.year student)) (update_year_round ref) ;;
      while_input (PromptNewMarks (Student.marks student)) (update_marks_round ref) ;;
      _save_data ;;
      print (MsgUpdated student_id)
  | None =>
      print (MsgNotFound student_id)
  end.

Definition delete_student : M unit :=
  print MsgDeleteHeader ;;
  id_line <- input PromptDeleteId ;;
  let student_id := str_strip id_line in
  ss <- get_students ;;
  let initial_len := length ss in
  set_students
    (List.filter (fun s => negb (py_eq_str (Student.student_id s) student_id)) ss) ;;
  ss' <- get_students ;;
  if (length ss' <? initial_len)%nat then
    _save_data ;;
    print (MsgDeleted student_id)
  else
    print (MsgNotFound student_id).

End WithRuntime.
End StudentManager.

(** ** A reference runtime

    A concrete runtime on which the program can be evaluated. A file
    holds either a JSON document, identified with the value it denotes,
    or text that is not JSON. [int] and [float] read plain decimal
    integer literals with an optional sign, between optional blanks;
    [strip] removes the ASCII white space at both ends. *)

Module RefRuntime.

Inductive bytes : Type :=
  | Document (v : pyval)
  | Garbage (text : string).

Definition is_space (c : ascii) : bool :=
  let n := nat_of_ascii c in
  ((9 <=? n) && (n <=? 13) || (28 <=? n) && (n <=? 32))%nat.

Fixpoint lstrip (s : string) : string :=
  match s with
  | EmptyString => EmptyString
  | String c rest => if is_space c then lstrip rest else s
  end.

Fixpoint rstrip (s : string) : string :=
  match s with
  | EmptyString => EmptyString
  | String c rest =>
      match rstrip rest with
      | EmptyString => if is_space c then EmptyString else String c EmptyString
      | rest' => String c rest'
      end
  end.

Definition strip (s : string) : string := rstrip (lstrip s).

Fixpoint digits (s : string) (acc : Z) : option Z :=
  match s with
  | EmptyString => Some acc
  | String c rest =>
      let n := nat_of_ascii c in
      if ((48 <=? n) && (n <=? 57))%nat
      then digits rest (10 * acc + Z.of_nat (n - 48))
      else None
  end.

(** Sign and magnitude of a decimal literal. *)
Definition signed_digits (s : string) : option (bool * Z) :=
  match strip s with
  | EmptyString => None
  | String "-" (String c rest) => pair true <$> digits (String c rest) 0
  | String "+" (String c rest) => pair false <$> digits (String c rest) 0
  | String "-" EmptyString | String "+" EmptyString => None
  | t => pair false <$> digits t 0
  end.

Definition parse_int (s : string) : option Z :=
  match signed_digits s with
  | Some (neg, n) => Some (if neg : bool then - n else n)
  | None => None
  end.

Definition parse_float (s : string) : option spec_float :=
  match signed_digits s with
  | Some (neg, n) => Some (if neg : bool then SFopp (float_of_int n) else float_of_int n)
  | None => None
  end.

Definition load (b : bytes) : Result pyval :=
  match b with
  | Document v => Ok v
  | Garbage _ => Raise JSONDecodeError
  end.

#[export] Instance runtime : Runtime := {|
  FileData := bytes;
  json_dump := Document;
  json_load := load;
  py_int := parse_int;
  py_float := parse_float;
  str_strip := strip
|}.

End RefRuntime.

(** ** Sample data on the reference runtime *)

Module Sample.

Definition alice : Student.t :=
  Student.mk (PyStr "S1") (PyStr "Alice") (PyStr "CS") (PyInt 2)
    (PyFloat (float_of_int 88)).

Definition bob : Student.t :=
  Student.mk (PyStr "S2") (PyStr "Bob") (PyStr "EE") (PyInt 1)
    (PyFloat (float_of_int 70)).

(** A second record with the id of [alice]. *)
Definition twin : Student.t :=
  Student.mk (PyStr "S1") (PyStr "Alicia") (PyStr "ME") (PyInt 3)
    (PyFloat (float_of_int 55)).

Definition World : Type := @StudentManager.World RefRuntime.runtime.

(** A manager holding [ss], [lines] waiting on the console, no backing
    file yet and a directory that can be written. *)
Definition world (ss : list Student.t) (lines : list string) : World :=
  @StudentManager.mkWorld RefRuntime.runtime
    "students.json" ss lines [] None true true.

(** The process before the manager is constructed, on a backing file
    that holds the records [ss]. *)
Definition start_on (ss : list Student.t) (lines : list string) : World :=
  @StudentManager.mkWorld RefRuntime.runtime "" [] lines []
    (Some (RefRuntime.Document (PyList (map Student.to_dict ss)))) true true.

End Sample.

(** ** Properties of a store *)

(** No two records of the store have the same id. *)
Definition unique_ids (l : list Student.t) : Prop :=
  NoDup (map Student.student_id l).

Global Instance unique_ids_dec l : Decision (unique_ids l).
Proof. unfold unique_ids. apply _. Defined.

(** A record as [add_student] writes it: a non-empty string for id, a
    positive integer for year, a number within 0 and 100 for marks. *)
Definition well_formed (s : Student.t) : bool :=
  match Student.student_id s, Student.year s with
  | PyStr i, PyInt y =>
      str_truthy i && (0 <? y)%Z &&
      match Student.marks s with
      | PyFloat m => marks_in_range m
      | PyInt m => (0 <=? m)%Z && (m <=? 100)%Z
      | _ => false
      end
  | _, _ => false
  end.

Definition well_formed_store (l : list Student.t) : bool :=
  forallb well_formed l.

(** [s.student_id != student_id], the test of the comprehension of
    [delete_student]. *)
Definition other_id (id : string) (s : Student.t) : bool :=
  negb (py_eq_str (Student.student_id s) id).


(** What [update_student] may turn a record into: the id stays, and each
    other field either stays or becomes a value that passed the checks
    (a non-empty string for name and branch, a positive integer for
    year, a float within 0 and 100 for marks). *)
Definition validated_update (s s' : Student.t) : Prop :=
  Student.student_id s' = Student.student_id s /\
  (Student.name s' = Student.name s \/
   exists n, n <> "" /\ Student.name s' = PyStr n) /\
  (Student.branch s' = Student.branch s \/
   exists b, b <> "" /\ Student.branch s' = PyStr b) /\
  (Student.year s' = Student.year s \/
   exists y, 0 < y /\ Student.year s' = PyInt y) /\
  (Student.marks s' = Student.marks s \/
   exists m, marks_in_range m = true /\ Student.marks s' = PyFloat m).


Section Reachability.
Context `{RT : Runtime}.
Import StudentManager.

(** The worlds a session goes through from the world [w0] the process
    starts in: the manager is constructed, which loads the file, then
    add, update and delete run in any order, each on whatever lines
    the console holds by then. *)
Inductive reachable (w0 : World) : World -> Prop :=
  | reach_start fname :
      reachable w0 (exec (__init__ fname) w0)
  | reach_add w lines :
      reachable w0 w ->
      reachable w0 (exec add_student (with_stdin lines w))
  | reach_update w lines :
      reachable w0 w ->
      reachable w0 (exec update_student (with_stdin lines w))
  | reach_delete w lines :
      reachable w0 w ->
      reachable w0 (exec delete_student (with_stdin lines w)).

(** The records the backing file of [w] holds, as [_load_data] reads
    them: [None] stands for no file. *)
Definition records_on_file (w : World) : option (Result (list Student.t)) :=
  match file w with
  | None => None
  | Some data =>
      Some (if readable w then
              match json_load data with
              | Raise e => Raise e
              | Ok v =>
                  match py_iter v with
                  | Raise e => Raise e
                  | Ok items => from_dict_all items
                  end
              end
            else Raise OSError)
  end.

(** What [_save_data] leaves behind: the encoded list when the file can
    be written, the old file and an error message when it cannot. *)
Definition saved (w : World) : World :=
  if writable w then
    with_stdout (stdout w ++ [MsgSaved (file_name w)])
      (with_file (Some (json_dump (PyList (map Student.to_dict (students w))))) w)
  else
    with_stdout (stdout w ++ [MsgSaveError (file_name w) OSError]) w.

(** ** The prompt loops as scans of the input

    A [while True] loop around [input] goes through the lines until the
    first one it accepts. [choice line] is what the loop accepts of a
    line ([None] when it asks again) and [msgs line] what it prints
    about it. The scan returns what was accepted ([None] when the input
    ends first), the lines left and the prompts and messages written. *)
Fixpoint scan {B} (prompt : Msg) (choice : string -> option B)
    (msgs : string -> list Msg) (lines : list string)
    : option B * list string * list Msg :=
  match lines with
  | [] => (None, [], [prompt])
  | line :: rest =>
      match choice line with
      | Some b => (Some b, rest, prompt :: msgs line)
      | None =>
          let '(r, rest', out) := scan prompt choice msgs rest in
          (r, rest', prompt :: msgs line ++ out)
      end
  end.

(** The world after some console traffic: [rest] is left to read and
    [out] has been written. *)
Definition console (rest : list string) (out : list Msg) (w : World) : World :=
  with_stdin rest (with_stdout (stdout w ++ out) w).

(** The id prompt of [add_student] against the store [ss]. *)
Definition id_choice (ss : list Student.t) (line : string) : option string :=
  let id := str_strip line in
  if str_truthy id then
    match find_student_in ss id with
    | Some _ => None
    | None => Some id
    end
  else None.

Definition id_msgs (ss : list Student.t) (line : string) : list Msg :=
  let id := str_strip line in
  if str_truthy id then
    match find_student_in ss id with
    | Some _ => [MsgIdExists id]
    | None => []
    end
  else [MsgIdEmpty].

(** The year and marks prompts of [add_student]. *)
Definition year_choice (line : string) : option Z :=
  match py_int line with
  | Some y => if (y <=? 0)%Z then None else Some y
  | None => None
  end.

Definition year_msgs (line : string) : list Msg :=
  match py_int line with
  | Some y => if (y <=? 0)%Z then [MsgYearNotPositive] else []
  | None => [MsgYearInvalid]
  end.

Definition marks_choice (line : string) : option spec_float :=
  match py_float line with
  | Some m => if marks_in_range m then Some m else None
  | None => None
  end.

Definition marks_msgs (line : string) : list Msg :=
  match py_float line with
  | Some m => if marks_in_range m then [] else [MsgMarksOutOfRange]
  | None => [MsgMarksInvalid]
  end.

(** The prompts of [update_student]: a blank line is accepted and keeps
    the value ([Some None]), another line is read as by [add_student]. *)
Definition keep_or {B} (choice : string -> option B) (line : string)
    : option (option B) :=
  let s := str_strip line in
  if str_truthy s then
    match choice s with
    | Some b => Some (Some b)
    | None => None
    end
  else Some None.

Definition keep_or_msgs (msgs : string -> list Msg) (line : string) : list Msg :=
  let s := str_strip line in
  if str_truthy s then msgs s else [].

(** A text field of [update_student]: assigned unless the line is blank. *)
Definition assign_text (set : pyval -> Student.t -> Student.t) (ref : nat)
    (line : string) (ss : list Student.t) : list Student.t :=
  let s := str_strip line in
  if str_truthy s then alter (set (PyStr s)) ref ss else ss.

(** A field of [update_student] after its loop: assigned when a value
    was accepted, kept when the line was blank. *)
Definition assign_opt {B} (set : B -> Student.t -> Student.t) (ref : nat)
    (ob : option B) (ss : list Student.t) : list Student.t :=
  match ob with
  | Some b => alter (set b) ref ss
  | None => ss
  end.

(** The whole of [add_student], read off the input. *)
Definition add_outcome (w : World) : Result unit * World :=
  let ss := students w in
  match scan PromptStudentId (id_choice ss) (id_msgs ss) (stdin w) with
  | (None, rest, out1) =>
      (Raise EOFError, console rest (MsgAddHeader :: out1) w)
  | (Some id, [], out1) =>
      (Raise EOFError, console [] (MsgAddHeader :: out1 ++ [PromptName]) w)
  | (Some id, [name_line], out1) =>
      (Raise EOFError,
       console [] (MsgAddHeader :: out1 ++ [PromptName; PromptBranch]) w)
  | (Some id, name_line :: branch_line :: rest2, out1) =>
      match scan PromptYear year_choice year_msgs rest2 with
      | (None, rest, out2) =>
          (Raise EOFError,
           console rest
             (MsgAddHeader :: out1 ++ [PromptName; PromptBranch] ++ out2) w)
      | (Some y, rest3, out2) =>
          match scan PromptMarks marks_choice marks_msgs rest3 with
          | (None, rest, out3) =>
              (Raise EOFError,
               console rest
                 (MsgAddHeader :: out1 ++ [PromptName; PromptBranch]
                    ++ out2 ++ out3) w)
          | (Some m, rest4, out3) =>
              let new_student :=
                Student.mk (PyStr id) (PyStr (str_strip name_line))
                  (PyStr (str_strip branch_line)) (PyInt y) (PyFloat m) in
              let w1 :=
                saved
                  (with_students (ss ++ [new_student])
                     (console rest4
                        (MsgAddHeader :: out1 ++ [PromptName; PromptBranch]
                           ++ out2 ++ out3) w)) in
              (Ok tt,
               with_stdout (stdout w1 ++ [MsgAdded (str_strip name_line)]) w1)
          end
      end
  end.


(** The whole of [update_student], read off the input. *)
Definition update_outcome (w : World) : Result unit * World :=
  let ss := students w in
  match stdin w with
  | [] => (Raise EOFError, console [] [MsgUpdateHeader; PromptUpdateId] w)
  | id_line :: rest0 =>
      let id := str_strip id_line in
      match find_student_in ss id with
      | None =>
          (Ok tt,
           console rest0 [MsgUpdateHeader; PromptUpdateId; MsgNotFound id] w)
      | Some (ref, student) =>
          let out0 :=
            [MsgUpdateHeader; PromptUpdateId; MsgFound student;
             MsgEnterNewDetails; PromptNewName (Student.name student)] in
          match rest0 with
          | [] => (Raise EOFError, console [] out0 w)
          | name_line :: rest1 =>
              let ss1 := assign_text Student.set_name ref name_line ss in
              let out1 := out0 ++ [PromptNewBranch (Student.branch student)] in
              match rest1 with
              | [] =>
                  (Raise EOFError, with_students ss1 (console [] out1 w))
              | branch_line :: rest2 =>
                  let ss2 := assign_text Student.set_branch ref branch_line ss1 in
                  match scan (PromptNewYear (Student.year student))
                          (keep_or year_choice) (keep_or_msgs year_msgs) rest2 with
                  | (None, rest, out2) =>
                      (Raise EOFError,
                       with_students ss2 (console rest (out1 ++ out2) w))
                  | (Some oy, rest3, out2) =>
                      let ss3 :=
                        assign_opt (fun y => Student.set_year (PyInt y)) ref oy ss2 in
                      match scan (PromptNewMarks (Student.marks student))
                              (keep_or marks_choice) (keep_or_msgs marks_msgs)
                              rest3 with
                      | (None, rest, out3) =>
                          (Raise EOFError,
                           with_students ss3
                             (console rest (out1 ++ out2 ++ out3) w))
                      | (Some om, rest4, out3) =>
                          let ss4 :=
                            assign_opt (fun m => Student.set_marks (PyFloat m))
                              ref om ss3 in
                          let w1 :=
                            saved
                              (with_students ss4
                                 (console rest4 (out1 ++ out2 ++ out3) w)) in
                          (Ok tt,
                           with_stdout (stdout w1 ++ [MsgUpdated id]) w1)
                      end
                  end
              end
          end
      end
  end.


(** What a line typed at a prompt of [update_student] supplies, given
    the parser and the check of the field: nothing when it is blank, a
    value when it reads as one that passes the check. *)
Inductive supplied {B} (parse : string -> option B) (valid : B -> bool)
    (line : string) : option B -> Prop :=
  | supplied_blank :
      str_strip line = "" ->
      supplied parse valid line None
  | supplied_value b :
      str_strip line <> "" ->
      parse (str_strip line) = Some b ->
      valid b = true ->
      supplied parse valid line (Some b).

(** A line that prompt refuses: not blank, and either not a number or a
    number that fails the check. *)
Definition refused {B} (parse : string -> option B) (valid : B -> bool)
    (line : string) : Prop :=
  str_strip line <> "" /\
  forall b, parse (str_strip line) = Some b -> valid b = false.

(** The value of a text field after its prompt. *)
Definition text_after (line : string) (old : pyval) : pyval :=
  if str_truthy (str_strip line) then PyStr (str_strip line) else old.

(** The value of a numeric field after its loop. *)
Definition value_after {B} (inj : B -> pyval) (ob : option B) (old : pyval) : pyval :=
  match ob with
  | Some b => inj b
  | None => old
  end.


(** The world after an operation that ended by saving the list [l]:
    [rest] is left to read, [out] has been written, and the file holds
    [l] when it can be written. *)
Definition committed (l : list Student.t) (rest : list string) (out : list Msg)
    (w : World) : World :=
  mkWorld (file_name w) l rest (stdout w ++ out)
    (if writable w
     then Some (json_dump (PyList (map Student.to_dict l)))
     else file w)
    (readable w) (writable w).

(** Memory and file agree: a manager constructed now on the backing
    file would hold the store the running manager holds. *)
Definition in_sync (w : World) : Prop :=
  forall fname, students (exec (__init__ fname) w) = students w.

(** A value that is not a string: [_find_student] and the filter of
    [delete_student] compare ids with a string typed at the console. *)
Definition not_a_string (v : pyval) : Prop :=
  forall s, v <> PyStr s.


(** What the main loop needs to know of an operation of the manager: it
    returns or raises [EOFError], it reads the console from the front,
    and the permissions of the file stay. *)
Definition tame (op : M unit) : Prop :=
  forall w,
    (outcome op w = Ok tt \/ outcome op w = Raise EOFError) /\
    (exists used, stdin w = used ++ stdin (exec op w)) /\
    readable (exec op w) = readable w /\
    writable (exec op w) = writable w.
End Reachability.

(** ** The table, the menu and the main loop

    [view_students], [display_menu] and [main] print text of their own.
    A session is the world of the manager together with the screen: the
    texts printed by these three, each stamped with the number of
    messages the manager had written before it, which is its place in
    the one stream the terminal shows. *)

(** What the program needs of [str] and [format] on values that are not
    strings: [str(v)], and [format(v, '<n')] for a number. *)
Class Display : Type := {
  py_str : pyval -> string;
  format_number_left : pyval -> nat -> string
}.

Definition newline : string := String "010"%char EmptyString.

Fixpoint repeat_char (c : ascii) (n : nat) : string :=
  match n with
  | O => EmptyString
  | S n' => String c (repeat_char c n')
  end.

(** [format(s, '<width')] for a string: padded on the right with spaces,
    never cut. *)
Definition ljust (s : string) (width : nat) : string :=
  (s ++ repeat_char " "%char (width - String.length s))%string.

(** [len(v)] *)
Definition py_len (v : pyval) : Result nat :=
  match v with
  | PyStr s => Ok (String.length s)
  | PyList items => Ok (length items)
  | PyDict items => Ok (length items)
  | _ => Raise TypeError
  end.

(** [max(ns)] of a sequence of lengths. *)
Definition py_max (ns : list nat) : Result nat :=
  match ns with
  | [] => Raise ValueError
  | _ => Ok (max_list ns)
  end.

Module App.
Section WithRuntime.
Context `{RT : Runtime} `{DS : Display}.
Import StudentManager.

Record Session : Type := mkSession {
  core : World;
  screen : list (nat * string)
}.

Definition AppM (A : Type) : Type := Session -> Result A * Session.

Definition ret {A} (a : A) : AppM A := fun s => (Ok a, s).
Definition bind {A B} (m : AppM A) (k : A -> AppM B) : AppM B :=
  fun s =>
    match m s with
    | (Ok a, s') => k a s'
    | (Raise e, s') => (Raise e, s')
    end.

Notation "x <- m ;; k" := (bind m (fun x => k))
  (at level 100, m at next level, right associativity).
Notation "m ;; k" := (bind m (fun _ => k))
  (at level 100, right associativity).

Definition outcome {A} (m : AppM A) (s : Session) : Result A := fst (m s).
Definition exec {A} (m : AppM A) (s : Session) : Session := snd (m s).

(** A method of the manager, run on the world of the session. *)
Definition call {A} (m : M A) : AppM A :=
  fun s =>
    match m (core s) with
    | (r, w') => (r, mkSession w' (screen s))
    end.

Definition lift {A} (r : Result A) : AppM A := fun s => (r, s).

(** [print(text)], on a console that accepts every text. *)
Definition say (text : string) : AppM unit :=
  fun s =>
    (Ok tt,
     mkSession (core s) (screen s ++ [(length (stdout (core s)), text)])).

(** [input(prompt)] *)
Definition ask (prompt : string) : AppM string :=
  fun s =>
    let shown := screen s ++ [(length (stdout (core s)), prompt)] in
    match stdin (core s) with
    | [] => (Raise EOFError, mkSession (core s) shown)
    | line :: rest => (Ok line, mkSession (with_stdin rest (core s)) shown)
    end.

(** *** view_students *)

(** [f(s) for s in l], as far as [max] consumes it: up to the first
    element on which [f] raises. *)
Fixpoint lengths (f : Student.t -> Result nat) (l : list Student.t)
    : Result (list nat) :=
  match l with
  | [] => Ok []
  | s :: rest =>
      match f s with
      | Raise e => Raise e
      | Ok n =>
          match lengths f rest with
          | Raise e => Raise e
          | Ok ns => Ok (n :: ns)
          end
      end
  end.

(** [max(f(s) for s in l)] *)
Definition widest (f : Student.t -> Result nat) (l : list Student.t) : Result nat :=
  match lengths f l with
  | Raise e => Raise e
  | Ok ns => py_max ns
  end.

(** [f"{v:<{width}}"]: a string is padded, a number is formatted by its
    own rules, and [None], lists and dictionaries take no format. *)
Definition format_left (v : pyval) (width : nat) : Result string :=
  match v with
  | PyStr s => Ok (ljust s width)
  | PyBool _ | PyInt _ | PyFloat _ => Ok (format_number_left v width)
  | PyNone | PyList _ | PyDict _ => Raise TypeError
  end.

Record Widths : Type := mkWidths {
  w_id : nat; w_name : nat; w_branch : nat; w_year : nat; w_marks : nat
}.

(** The dictionary [col_widths], with the adjustment to the headers. *)
Definition col_widths (ss : list Student.t) : Result Widths :=
  let sentinel i n b := Student.mk (PyStr i) (PyStr n) (PyStr b) (PyInt 0) (PyInt 0) in
  match widest (fun s => py_len (Student.student_id s)) (ss ++ [sentinel "ID" "" ""]) with
  | Raise e => Raise e
  | Ok wi =>
  match widest (fun s => py_len (Student.name s)) (ss ++ [sentinel "" "Name" ""]) with
  | Raise e => Raise e
  | Ok wn =>
  match widest (fun s => py_len (Student.branch s)) (ss ++ [sentinel "" "" "Branch"]) with
  | Raise e => Raise e
  | Ok wb =>
  match widest (fun s => Ok (String.length (py_str (Student.year s))))
          (ss ++ [sentinel "" "" ""]) with
  | Raise e => Raise e
  | Ok wy =>
  match widest (fun s => Ok (String.length (py_str (Student.marks s))))
          (ss ++ [sentinel "" "" ""]) with
  | Raise e => Raise e
  | Ok wm =>
      Ok (mkWidths (Nat.max wi (String.length "ID"))
                   (Nat.max wn (String.length "Name"))
                   (Nat.max wb (String.length "Branch"))
                   (Nat.max wy (String.length "Year"))
                   (Nat.max wm (String.length "Marks")))
  end end end end end.

Definition header_line (cw : Widths) : string :=
  (ljust "ID" (w_id cw) ++ " | " ++ ljust "Name" (w_name cw) ++ " | " ++
   ljust "Branch" (w_branch cw) ++ " | " ++ ljust "Year" (w_year cw) ++ " | " ++
   ljust "Marks" (w_marks cw))%string.

(** The f-string of a row: the fields are formatted from left to right. *)
Definition row_line (cw : Widths) (student : Student.t) : Result string :=
  match format_left (Student.student_id student) (w_id cw) with
  | Raise e => Raise e
  | Ok c1 =>
  match format_left (Student.name student) (w_name cw) with
  | Raise e => Raise e
  | Ok c2 =>
  match format_left (Student.branch student) (w_branch cw) with
  | Raise e => Raise e
  | Ok c3 =>
      Ok (c1 ++ " | " ++ c2 ++ " | " ++ c3 ++ " | " ++
          ljust (py_str (Student.year student)) (w_year cw) ++ " | " ++
          ljust (py_str (Student.marks student)) (w_marks cw))%string
  end end end.

(** [for student in self.students: print(...)] *)
Fixpoint print_rows (cw : Widths) (rows : list Student.t) : AppM unit :=
  match rows with
  | [] => ret tt
  | student :: rest =>
      line <- lift (row_line cw student) ;;
      say line ;;
      print_rows cw rest
  end.

Definition view_students : AppM unit :=
  say (newline ++ "--- All Student Records ---")%string ;;
  ss <- call get_students ;;
  match ss with
  | [] => say "No student records found."
  | _ :: _ =>
      cw <- lift (col_widths ss) ;;
      say (header_line cw) ;;
      say (repeat_char "-"%char (String.length (header_line cw))) ;;
      print_rows cw ss ;;
      say (repeat_char "-"%char (String.length (header_line cw)))
  end.

(** *** display_menu and main *)

Definition display_menu : AppM unit :=
  say (newline ++ "--- Student Record Management System ---")%string ;;
  say "1. Add New Student" ;;
  say "2. View All Students" ;;
  say "3. Update Student Record" ;;
  say "4. Delete Student Record" ;;
  say "5. Exit" ;;
  say "----------------------------------------".

(** The [while True] loop of [main]. Each round reads at least the line
    of the choice, so the rounds are counted down from [fuel]: more
    rounds than lines are never needed. [None] is the loop cut by
    [fuel], [Some tt] the [break] on choice 5. *)
Fixpoint main_loop (fuel : nat) : AppM (option unit) :=
  match fuel with
  | O => ret None
  | S fuel' =>
      display_menu ;;
      line <- ask "Enter your choice (1-5): " ;;
      let choice := str_strip line in
      if String.eqb choice "1" then
        call add_student ;; main_loop fuel'
      else if String.eqb choice "2" then
        view_students ;; main_loop fuel'
      else if String.eqb choice "3" then
        call update_student ;; main_loop fuel'
      else if String.eqb choice "4" then
        call delete_student ;; main_loop fuel'
      else if String.eqb choice "5" then
        say "Exiting Student Record Management System. Goodbye!" ;;
        ret (Some tt)
      else
        say "Invalid choice. Please enter a number between 1 and 5." ;;
        main_loop fuel'
  end.

Definition main (fuel : nat) : AppM (option unit) :=
  call (__init__ "students.json") ;;
  main_loop fuel.

(** The process at its start: nothing on the screen yet. *)
Definition start (w : World) : Session := mkSession w [].

(** The texts on the screen, in order. *)
Definition texts (s : Session) : list string := map snd (screen s).

End WithRuntime.
End App.

(** A field that has a length: a string, a list or a dictionary. *)
Definition sized (v : pyval) : Prop := exists n, py_len v = Ok n.

(** What a round of the main loop prints before it reads the choice:
    the menu and the prompt. *)
Definition menu_texts : list string :=
  [(newline ++ "--- Student Record Management System ---")%string;
   "1. Add New Student"; "2. View All Students"; "3. Update Student Record";
   "4. Delete Student Record"; "5. Exit";
   "----------------------------------------";
   "Enter your choice (1-5): "].

(** A line that is one of the five choices of the menu. *)
Definition is_choice (line : string) : bool :=
  String.eqb line "1" || String.eqb line "2" || String.eqb line "3" ||
  String.eqb line "4" || String.eqb line "5".

(** The first line [view_students] prints. *)
Definition view_title : string := (newline ++ "--- All Student Records ---")%string.

(** A field that [view_students] can lay out: a string. *)
Definition is_str (v : pyval) : bool :=
  match v with
  | PyStr _ => true
  | _ => false
  end.

Definition printable (s : Student.t) : bool :=
  is_str (Student.student_id s) && is_str (Student.name s) &&
  is_str (Student.branch s).

(** ** A reference display

    [str] and [format] as Python has them on strings, integers, [None],
    booleans, and on floats that are infinite, NaN or have an integer
    value below 10^16 (the floats the reference parser yields from short
    literals). The other floats, lists and dictionaries print as a
    question mark, which is not what Python prints. *)

Module RefDisplay.

Definition float_str (x : spec_float) : string :=
  match x with
  | S754_zero false => "0.0"
  | S754_zero true => "-0.0"
  | S754_infinity false => "inf"
  | S754_infinity true => "-inf"
  | S754_nan => "nan"
  | S754_finite neg m e =>
      let whole :=
        if (0 <=? e)%Z then Some (Z.pos m * 2 ^ e)%Z
        else if (Z.pos m mod 2 ^ (- e) =? 0)%Z then Some (Z.pos m / 2 ^ (- e))%Z
        else None in
      match whole with
      | Some n =>
          if (n <? 10 ^ 16)%Z
          then ((if neg then "-" else "") ++ pretty n ++ ".0")%string
          else "?"
      | None => "?"
      end
  end.

Definition str (v : pyval) : string :=
  match v with
  | PyNone => "None"
  | PyBool true => "True"
  | PyBool false => "False"
  | PyInt n => pretty n
  | PyFloat x => float_str x
  | PyStr s => s
  | PyList _ | PyDict _ => "?"
  end.

Definition number_left (v : pyval) (width : nat) : string :=
  match v with
  | PyBool true => ljust "1" width
  | PyBool false => ljust "0" width
  | _ => ljust (str v) width
  end.

#[export] Instance display : Display := {|
  py_str := str;
  format_number_left := number_left
|}.

End RefDisplay.

(** * Verification *)

Section Verification.
Context `{RT : Runtime}.
Import StudentManager.

(** ** Values and lookups *)

Lemma py_eq_str_true (v : pyval) (s : string) :
  py_eq_str v s = true <-> v = PyStr s.
Proof.
  destruct v; simpl; try (split; [discriminate | congruence]).
  rewrite String.eqb_eq. split; congruence.
Qed.

Lemma py_eq_str_false (v : pyval) (s : string) :
  py_eq_str v s = false <-> v <> PyStr s.
Proof.
  rewrite <- py_eq_str_true. destruct (py_eq_str v s); split; congruence.
Qed.

Lemma str_truthy_false (s : string) : str_truthy s = false <-> s = "".
Proof. destruct s; simpl; split; congruence. Qed.

Lemma str_truthy_true (s : string) : str_truthy s = true <-> s <> "".
Proof. destruct s; simpl; split; congruence. Qed.

Lemma find_student_in_Some (l : list Student.t) (id : string) i s :
  find_student_in l id = Some (i, s) <->
  l !! i = Some s /\ Student.student_id s = PyStr id /\
  forall j s', (j < i)%nat -> l !! j = Some s' -> Student.student_id s' <> PyStr id.
Proof.
  revert i. induction l as [|x l IH]; intros i; simpl.
  - split; [discriminate | intros [H _]; discriminate].
  - destruct (py_eq_str (Student.student_id x) id) eqn:E.
    + apply py_eq_str_true in E. split.
      * intros [= <- <-]. repeat split; auto. intros j s' Hj; lia.
      * intros (Hi & Hs & Hmin). destruct i as [|i].
        -- simpl in Hi. congruence.
        -- exfalso. apply (Hmin 0%nat x); [lia | reflexivity | exact E].
    + apply py_eq_str_false in E. split.
      * intros H.
        destruct (find_student_in l id) as [[k y]|] eqn:F; [|discriminate].
        injection H as <- <-.
        destruct (IH k) as [IH1 _]. destruct (IH1 eq_refl) as (Hk & Hy & Hmin).
        repeat split; auto. intros [|j] s' Hj Hs'; simpl in Hs'.
        -- congruence.
        -- apply (Hmin j); [lia | exact Hs'].
      * intros (Hi & Hs & Hmin). destruct i as [|i]; simpl in Hi.
        -- congruence.
        -- assert (find_student_in l id = Some (i, s)) as F'.
           { apply IH. repeat split; auto. intros j s' Hj Hs'.
             apply (Hmin (S j)); [lia | exact Hs']. }
           rewrite F'. reflexivity.
Qed.

Lemma find_student_in_None (l : list Student.t) (id : string) :
  find_student_in l id = None <->
  forall s, s ∈ l -> Student.student_id s <> PyStr id.
Proof.
  induction l as [|x l IH]; simpl.
  - split; [intros _ s Hs; inversion Hs | reflexivity].
  - destruct (py_eq_str (Student.student_id x) id) eqn:E.
    + apply py_eq_str_true in E. split; [discriminate|].
      intros H. exfalso. apply (H x); [left | exact E].
    + apply py_eq_str_false in E. split.
      * intros H s Hs.
        apply list_elem_of_In in Hs. destruct Hs as [<-|Hs]; [exact E|].
        destruct (find_student_in l id) as [[k y]|]; [discriminate|].
        apply IH; [reflexivity | by apply list_elem_of_In].
      * intros H.
        assert (find_student_in l id = None) as F.
        { apply IH. intros s Hs. apply H. by right. }
        rewrite F. reflexivity.
Qed.

(** ** C6: _find_student *)

(** C6. [_find_student] scans the store in order and returns the first
    record whose id equals the given id, together with its position: the
    record is in the store at that position, it has the id, and no
    record before it has. It returns [None] exactly when no record of
    the store has the id. The scan changes nothing and raises nothing. *)
Theorem find_student_first_match (w : World) (id : string) :
  exists r : option (nat * Student.t),
    _find_student id w = (Ok r, w) /\
    (forall i s, r = Some (i, s) <->
       students w !! i = Some s /\ Student.student_id s = PyStr id /\
       forall j s', (j < i)%nat -> students w !! j = Some s' ->
                    Student.student_id s' <> PyStr id) /\
    (r = None <->
       forall s, s ∈ students w -> Student.student_id s <> PyStr id).
Proof.
  exists (find_student_in (students w) id). split; [reflexivity|]. split.
  - intros i s. apply find_student_in_Some.
  - apply find_student_in_None.
Qed.

(** ** C7: loading *)

Lemma load_data_outcome (w : World) :
  outcome _load_data w = Ok tt /\
  file (exec _load_data w) = file w /\
  stdin (exec _load_data w) = stdin w /\
  match records_on_file w with
  | None =>
      students (exec _load_data w) = students w /\
      stdout (exec _load_data w) = stdout w ++ [MsgNoFile (file_name w)]
  | Some (Ok l) =>
      students (exec _load_data w) = l /\
      stdout (exec _load_data w) = stdout w ++ [MsgLoaded (file_name w)]
  | Some (Raise e) =>
      students (exec _load_data w) = [] /\
      stdout (exec _load_data w) =
        stdout w ++ [if isinstance e JSONDecodeError
                     then MsgDecodeError (file_name w) else MsgLoadError e]
  end.
Proof.
  unfold outcome, exec, records_on_file, _load_data, bind, get_file_name,
    os_path_exists, try_except, open_and_load, lift, set_students, print.
  destruct w as [fn ss i o f r wr]; simpl.
  destruct f as [data|]; simpl; [|by repeat split].
  destruct r; simpl; [|by repeat split].
  destruct (json_load data) as [v|e]; simpl.
  - destruct (py_iter v) as [items|e]; simpl.
    + destruct (from_dict_all items) as [l|e]; simpl; [by repeat split|].
      destruct e; by repeat split.
    + destruct e; by repeat split.
  - destruct e; by repeat split.
Qed.

(** C7. Loading never raises: [_load_data] returns normally in every
    world, and so does the constructor that calls it. When the backing
    file is absent the store starts empty; when the file exists but
    cannot be read as a sequence of records (it cannot be opened, is not
    JSON, or its elements are not record objects) the error is reported
    and the store is the empty sequence; otherwise the store is exactly
    the sequence of records read. The file itself is left as it is. *)
Theorem load_never_crashes (fname : string) (w : World) :
  (forall w1, outcome _load_data w1 = Ok tt) /\
  outcome (__init__ fname) w = Ok tt /\
  file (exec (__init__ fname) w) = file w /\
  match records_on_file w with
  | None =>
      students (exec (__init__ fname) w) = [] /\
      stdout (exec (__init__ fname) w) = stdout w ++ [MsgNoFile fname]
  | Some (Ok l) =>
      students (exec (__init__ fname) w) = l /\
      stdout (exec (__init__ fname) w) = stdout w ++ [MsgLoaded fname]
  | Some (Raise e) =>
      students (exec (__init__ fname) w) = [] /\
      stdout (exec (__init__ fname) w) =
        stdout w ++ [if isinstance e JSONDecodeError
                     then MsgDecodeError fname else MsgLoadError e]
  end.
Proof.
  split; [intros w1; apply load_data_outcome|].
  pose (w0 := mkWorld fname [] (stdin w) (stdout w) (file w) (readable w) (writable w)).
  destruct (load_data_outcome w0) as (Ho & Hf & _ & Hr).
  change (outcome (__init__ fname) w) with (outcome _load_data w0).
  change (exec (__init__ fname) w) with (exec _load_data w0).
  change (records_on_file w) with (records_on_file w0).
  repeat split; auto.
Qed.

(** ** Saving *)

Lemma save_data_run (w : World) : _save_data w = (Ok tt, saved w).
Proof.
  unfold _save_data, saved, bind, get_file_name, try_except, get_students,
    open_and_dump, print.
  destruct w as [fn ss i o f r wr]; simpl. by destruct wr.
Qed.

Lemma saved_students (w : World) : students (saved w) = students w.
Proof. unfold saved. by destruct (writable w). Qed.

Lemma saved_stdin (w : World) : stdin (saved w) = stdin w.
Proof. unfold saved. by destruct (writable w). Qed.

Lemma saved_file (w : World) :
  file (saved w) =
  if writable w
  then Some (json_dump (PyList (map Student.to_dict (students w))))
  else file w.
Proof. unfold saved. by destruct (writable w). Qed.

(** ** C8, C2: deleting *)

Lemma other_id_true id s : other_id id s = true <-> Student.student_id s <> PyStr id.
Proof.
  unfold other_id. rewrite negb_true_iff. apply py_eq_str_false.
Qed.

Lemma filter_keeps_all {A} (f : A -> bool) (l : list A) :
  (forall x, x ∈ l -> f x = true) -> List.filter f l = l.
Proof.
  induction l as [|a l IH]; intros H; simpl; [reflexivity|].
  rewrite (H a) by left. f_equal. apply IH. intros x Hx. apply H. by right.
Qed.

Lemma filter_length_le {A} (f : A -> bool) (l : list A) :
  (length (List.filter f l) <= length l)%nat.
Proof.
  induction l as [|a l IH]; simpl; [lia|]. destruct (f a); simpl; lia.
Qed.

Lemma filter_drops_one {A} (f : A -> bool) (l : list A) (x : A) :
  x ∈ l -> f x = false -> (length (List.filter f l) < length l)%nat.
Proof.
  induction l as [|a l IH]; intros Hx Hf; [inversion Hx|].
  apply list_elem_of_In in Hx. simpl. destruct Hx as [->|Hx].
  - rewrite Hf. pose proof (filter_length_le f l). lia.
  - apply list_elem_of_In in Hx. specialize (IH Hx Hf).
    destruct (f a); simpl; lia.
Qed.

Lemma filter_sublist {A} (f : A -> bool) (l : list A) :
  sublist (List.filter f l) l.
Proof.
  induction l as [|a l IH]; simpl; [constructor|].
  destruct (f a); by constructor.
Qed.

Lemma filter_elem_of {A} (f : A -> bool) (l : list A) (x : A) :
  x ∈ List.filter f l <-> x ∈ l /\ f x = true.
Proof. rewrite !list_elem_of_In. apply filter_In. Qed.

(** The run of [delete_student] on a console that still has a line. *)
Lemma delete_student_run (w : World) (line : string) (rest : list string) :
  stdin w = line :: rest ->
  let id := str_strip line in
  let kept := List.filter (other_id id) (students w) in
  let w1 := with_students kept
              (with_stdin rest
                 (with_stdout (stdout w ++ [MsgDeleteHeader; PromptDeleteId]) w)) in
  delete_student w =
    if (length kept <? length (students w))%nat
    then (Ok tt, with_stdout (stdout (saved w1) ++ [MsgDeleted id]) (saved w1))
    else (Ok tt, with_stdout (stdout w1 ++ [MsgNotFound id]) w1).
Proof.
  intros Hin. simpl.
  unfold delete_student, bind, print, input, get_students, set_students.
  destruct w as [fn ss i o f r wr]; simpl in *. subst i. simpl.
  rewrite <- app_assoc. simpl. fold (other_id (str_strip line)).
  destruct (_ <? _)%nat; [|reflexivity].
  rewrite save_data_run. reflexivity.
Qed.

(** C8. After [delete_student] has read the id, no record with that id
    remains in the store, whatever the number of records that had it:
    the store is the old one filtered, so the records that remain are a
    subsequence of the old store, in their old order, and every record
    with another id remains. *)
Theorem delete_removes_all_matches (w : World) (line : string) (rest : list string) :
  stdin w = line :: rest ->
  let id := str_strip line in
  let w' := exec delete_student w in
  outcome delete_student w = Ok tt /\
  students w' = List.filter (other_id id) (students w) /\
  (forall s, s ∈ students w' -> Student.student_id s <> PyStr id) /\
  sublist (students w') (students w) /\
  (forall s, s ∈ students w -> Student.student_id s <> PyStr id -> s ∈ students w').
Proof.
  intros Hin id w'.
  assert (outcome delete_student w = Ok tt /\
          students w' = List.filter (other_id id) (students w)) as [Ho Hs].
  { unfold w', outcome, exec. rewrite (delete_student_run w line rest Hin).
    fold id. destruct (_ <? _)%nat; simpl; [|done].
    by rewrite saved_students. }
  split; [exact Ho|]. split; [exact Hs|]. rewrite Hs. split; [|split].
  - intros s Hs'. apply filter_elem_of in Hs' as [_ Hs']. by apply other_id_true.
  - apply filter_sublist.
  - intros s Hs' Hid. apply filter_elem_of. split; [done|]. by apply other_id_true.
Qed.

Lemma find_student_in_lookup (l : list Student.t) (id : string) i s :
  find_student_in l id = Some (i, s) -> l !! i = Some s.
Proof. intros H. by apply find_student_in_Some in H as (? & _). Qed.





(** ** The prompt loops *)

Lemma console_console (r1 r2 : list string) (o1 o2 : list Msg) (w : World) :
  console r2 o2 (console r1 o1 w) = console r2 (o1 ++ o2) w.
Proof.
  destruct w. unfold console, with_stdin, with_stdout; simpl.
  by rewrite app_assoc.
Qed.

Lemma with_stdout_console (r : list string) (o o2 : list Msg) (w : World) :
  with_stdout (stdout (console r o w) ++ o2) (console r o w) = console r (o ++ o2) w.
Proof.
  destruct w. unfold console, with_stdin, with_stdout; simpl.
  by rewrite app_assoc.
Qed.

Lemma console_nil (w : World) : console (stdin w) [] w = w.
Proof.
  destruct w. unfold console, with_stdin, with_stdout; simpl.
  by rewrite app_nil_r.
Qed.

Lemma with_stdout_nil (w : World) : with_stdout (stdout w ++ []) w = w.
Proof. destruct w. unfold with_stdout; simpl. by rewrite app_nil_r. Qed.

(** A loop whose rounds only write to the console, and finish with
    [fin] on what they accept, runs as the scan of the lines says. *)
Lemma while_input_from_scan {A B} (prompt : Msg) (body : string -> M (option A))
    (P : World -> Prop) (choice : string -> option B) (msgs : string -> list Msg)
    (val : B -> A) (fin : B -> World -> World) :
  (forall w rest out, P w -> P (console rest out w)) ->
  (forall line w, P w ->
     body line w =
       match choice line with
       | None => (Ok None, with_stdout (stdout w ++ msgs line) w)
       | Some b =>
           (Ok (Some (val b)), fin b (with_stdout (stdout w ++ msgs line) w))
       end) ->
  forall lines w, P w ->
    while_input_from prompt body lines w =
      match scan prompt choice msgs lines with
      | (Some b, rest, out) => (Ok (val b), fin b (console rest out w))
      | (None, rest, out) => (Raise EOFError, console rest out w)
      end.
Proof.
  intros HP Hbody. induction lines as [|line rest IH]; intros w Hw; simpl.
  - reflexivity.
  - change (with_stdin rest (with_stdout (stdout w ++ [prompt]) w))
      with (console rest [prompt] w).
    rewrite Hbody by (by apply HP). rewrite with_stdout_console.
    destruct (choice line) as [b|]; [reflexivity|].
    rewrite IH by (by apply HP).
    destruct (scan prompt choice msgs rest) as [[r rest'] out].
    rewrite console_console. simpl. reflexivity.
Qed.

Lemma add_id_round_run (line : string) (w : World) :
  add_id_round line w =
    match id_choice (students w) line with
    | None => (Ok None, with_stdout (stdout w ++ id_msgs (students w) line) w)
    | Some id =>
        (Ok (Some id), with_stdout (stdout w ++ id_msgs (students w) line) w)
    end.
Proof.
  unfold add_id_round, id_choice, id_msgs, bind, print, ret, _find_student,
    get_students.
  destruct (str_truthy (str_strip line)); simpl; [|reflexivity].
  destruct (find_student_in (students w) (str_strip line)) as [[i s]|]; simpl.
  - reflexivity.
  - by rewrite with_stdout_nil.
Qed.

Lemma add_year_round_run (line : string) (w : World) :
  add_year_round line w =
    match year_choice line with
    | None => (Ok None, with_stdout (stdout w ++ year_msgs line) w)
    | Some y => (Ok (Some y), with_stdout (stdout w ++ year_msgs line) w)
    end.
Proof.
  unfold add_year_round, year_choice, year_msgs, try_except, bind, print, ret,
    int_of_str, raise.
  destruct (py_int line) as [y|]; simpl; [|reflexivity].
  destruct (y <=? 0)%Z; simpl; [reflexivity|]. by rewrite with_stdout_nil.
Qed.

Lemma add_marks_round_run (line : string) (w : World) :
  add_marks_round line w =
    match marks_choice line with
    | None => (Ok None, with_stdout (stdout w ++ marks_msgs line) w)
    | Some m => (Ok (Some m), with_stdout (stdout w ++ marks_msgs line) w)
    end.
Proof.
  unfold add_marks_round, marks_choice, marks_msgs, try_except, bind, print, ret,
    float_of_str, raise.
  destruct (py_float line) as [m|]; simpl; [|reflexivity].
  destruct (marks_in_range m); simpl; [|reflexivity]. by rewrite with_stdout_nil.
Qed.

Lemma input_run (prompt : Msg) (w : World) :
  input prompt w =
    match stdin w with
    | [] => (Raise EOFError, console [] [prompt] w)
    | line :: rest => (Ok line, console rest [prompt] w)
    end.
Proof.
  unfold input. destruct w as [fn ss i o f r wr]; simpl.
  by destruct i.
Qed.

Lemma print_run (m : Msg) (w : World) :
  print m w = (Ok tt, console (stdin w) [m] w).
Proof. by destruct w. Qed.

Lemma students_console r o w : students (console r o w) = students w.
Proof. done. Qed.
Lemma stdin_console r o w : stdin (console r o w) = r.
Proof. done. Qed.
Lemma file_console r o w : file (console r o w) = file w.
Proof. done. Qed.
Lemma stdout_console r o w : stdout (console r o w) = stdout w ++ o.
Proof. done. Qed.

Ltac console_norm :=
  rewrite ?stdin_console, ?console_console, ?with_stdout_console;
  simpl app; rewrite <- ?app_assoc; simpl app.

(** [add_student] runs as [add_outcome] says. *)
Lemma add_student_run (w : World) : add_student w = add_outcome w.
Proof.
  unfold add_student, add_outcome, while_input.
  unfold bind at 1. rewrite print_run.
  unfold bind at 1.
  rewrite (while_input_from_scan PromptStudentId add_id_round
             (fun w' => students w' = students w)
             (id_choice (students w)) (id_msgs (students w))
             (fun id => id) (fun _ w' => w')); try done.
  2:{ intros line w' Hw'. rewrite add_id_round_run, Hw'.
      by destruct (id_choice (students w) line). }
  rewrite stdin_console.
  destruct (scan PromptStudentId _ _ (stdin w)) as [[[id|] rest1] out1];
    console_norm; [|reflexivity].
  unfold bind at 1. rewrite input_run, stdin_console.
  destruct rest1 as [|name_line rest1]; console_norm; [reflexivity|].
  unfold bind at 1. rewrite input_run, stdin_console.
  destruct rest1 as [|branch_line rest2]; console_norm; [reflexivity|].
  unfold bind at 1.
  rewrite (while_input_from_scan PromptYear add_year_round
             (fun _ => True) year_choice year_msgs
             (fun y => y) (fun _ w' => w')); try done.
  2:{ intros line w' _. rewrite add_year_round_run.
      by destruct (year_choice line). }
  rewrite stdin_console.
  destruct (scan PromptYear _ _ rest2) as [[[y|] rest3] out2];
    console_norm; [|reflexivity].
  unfold bind at 1.
  rewrite (while_input_from_scan PromptMarks add_marks_round
             (fun _ => True) marks_choice marks_msgs
             (fun m => m) (fun _ w' => w')); try done.
  2:{ intros line w' _. rewrite add_marks_round_run.
      by destruct (marks_choice line). }
  rewrite stdin_console.
  destruct (scan PromptMarks _ _ rest3) as [[[m|] rest4] out3];
    console_norm; [|reflexivity].
  unfold bind, get_students, set_students. rewrite save_data_run.
  reflexivity.
Qed.

(** ** Scans *)

Lemma scan_accepted {B} (p : Msg) (c : string -> option B) (msgs : string -> list Msg)
    (lines : list string) b rest out :
  scan p c msgs lines = (Some b, rest, out) ->
  exists bad line,
    lines = bad ++ line :: rest /\
    Forall (fun l => c l = None) bad /\
    c line = Some b.
Proof.
  revert out. induction lines as [|l lines IH]; intros out; simpl; [discriminate|].
  destruct (c l) as [b'|] eqn:E.
  - intros [= <- <- <-]. by exists [], l.
  - destruct (scan p c msgs lines) as [[r rest'] out'] eqn:S.
    intros [= -> -> <-]. destruct (IH _ eq_refl) as (bad & line & -> & Hbad & Hc).
    exists (l :: bad), line. repeat split; [|done]. by constructor.
Qed.

Lemma scan_skips {B} (p : Msg) (c : string -> option B) (msgs : string -> list Msg)
    (bad : list string) line rest b :
  Forall (fun l => c l = None) bad ->
  c line = Some b ->
  exists out, scan p c msgs (bad ++ line :: rest) = (Some b, rest, out).
Proof.
  intros Hbad Hc. induction Hbad as [|l bad Hl _ IH]; simpl.
  - rewrite Hc. eauto.
  - rewrite Hl. destruct IH as [out ->]. eauto.
Qed.

(** ** C3: adding *)

Lemma id_choice_Some (ss : list Student.t) (line id : string) :
  id_choice ss line = Some id <->
  id = str_strip line /\ id <> "" /\
  forall s, s ∈ ss -> Student.student_id s <> PyStr id.
Proof.
  unfold id_choice. destruct (str_truthy (str_strip line)) eqn:T.
  - apply str_truthy_true in T.
    destruct (find_student_in ss (str_strip line)) as [[i s]|] eqn:F.
    + split; [discriminate|]. intros (-> & _ & H). exfalso.
      apply find_student_in_Some in F as (Hi & Hs & _).
      apply (H s); [|done]. by eapply list_elem_of_lookup_2.
    + split.
      * intros [= <-]. repeat split; [done|]. by apply find_student_in_None.
      * by intros (-> & _ & _).
  - apply str_truthy_false in T. split; [discriminate|].
    intros (-> & H & _). done.
Qed.

Lemma year_choice_Some (line : string) (y : Z) :
  year_choice line = Some y <-> py_int line = Some y /\ 0 < y.
Proof.
  unfold year_choice. destruct (py_int line) as [y'|].
  - destruct (Z.leb_spec y' 0); split.
    + discriminate.
    + intros [[= ->] ?]. lia.
    + intros [= ->]. split; [done|lia].
    + by intros [[= ->] _].
  - split; [discriminate | by intros [? _]].
Qed.

Lemma marks_choice_Some (line : string) (m : spec_float) :
  marks_choice line = Some m <-> py_float line = Some m /\ marks_in_range m = true.
Proof.
  unfold marks_choice. destruct (py_float line) as [m'|].
  - destruct (marks_in_range m') eqn:E; split.
    + by intros [= ->].
    + by intros [[= ->] _].
    + discriminate.
    + intros [[= ->] ?]. congruence.
  - split; [discriminate | by intros [? _]].
Qed.

Lemma id_msgs_rejected (ss : list Student.t) (line : string) :
  id_choice ss line = None ->
  Exists (fun msg => is_validation_msg msg = true) (id_msgs ss line).
Proof.
  unfold id_choice, id_msgs. destruct (str_truthy (str_strip line)).
  - destruct (find_student_in ss (str_strip line)); [|discriminate].
    intros _. by constructor.
  - intros _. by constructor.
Qed.

Lemma year_msgs_rejected (line : string) :
  year_choice line = None ->
  Exists (fun msg => is_validation_msg msg = true) (year_msgs line).
Proof.
  unfold year_choice, year_msgs. destruct (py_int line) as [y|].
  - destruct (y <=? 0)%Z; [|discriminate]. intros _. by constructor.
  - intros _. by constructor.
Qed.

Lemma marks_msgs_rejected (line : string) :
  marks_choice line = None ->
  Exists (fun msg => is_validation_msg msg = true) (marks_msgs line).
Proof.
  unfold marks_choice, marks_msgs. destruct (py_float line) as [m|].
  - destruct (marks_in_range m); [discriminate|]. intros _. by constructor.
  - intros _. by constructor.
Qed.

(** A candidate that passes every check is appended and saved. *)
Lemma add_accepts (w : World) (idl nl bl yl ml : string) (rest : list string)
    (id : string) (y : Z) (m : spec_float) :
  id_choice (students w) idl = Some id ->
  year_choice yl = Some y ->
  marks_choice ml = Some m ->
  let new_student :=
    Student.mk (PyStr id) (PyStr (str_strip nl)) (PyStr (str_strip bl))
      (PyInt y) (PyFloat m) in
  exists out,
    add_student (with_stdin ([idl; nl; bl; yl; ml] ++ rest) w) =
      (Ok tt,
       mkWorld (file_name w) (students w ++ [new_student]) rest
         (stdout w ++ out ++ [MsgAdded (str_strip nl)])
         (if writable w
          then Some (json_dump
                       (PyList (map Student.to_dict (students w ++ [new_student]))))
          else file w)
         (readable w) (writable w)) /\
    Forall (fun msg => is_validation_msg msg = false) out.
Proof.
  intros Hid Hy Hm.
  assert (id_msgs (students w) idl = []) as Hid'.
  { unfold id_choice in Hid. unfold id_msgs.
    destruct (str_truthy (str_strip idl)); [|discriminate].
    by destruct (find_student_in (students w) (str_strip idl)). }
  assert (year_msgs yl = []) as Hy'.
  { unfold year_choice in Hy. unfold year_msgs.
    destruct (py_int yl) as [y'|]; [|discriminate]. by destruct (y' <=? 0)%Z. }
  assert (marks_msgs ml = []) as Hm'.
  { unfold marks_choice in Hm. unfold marks_msgs.
    destruct (py_float ml) as [m'|]; [|discriminate]. by destruct (marks_in_range m'). }
  rewrite add_student_run. unfold add_outcome.
  cbn [stdin with_stdin students app scan].
  rewrite Hid, Hid'. cbn [scan]. rewrite Hy, Hy'. cbn [scan]. rewrite Hm, Hm'.
  destruct w as [fn ss i o f r wr]. unfold saved, console, with_students,
    with_stdin, with_stdout, with_file; simpl.
  destruct wr; simpl.
  - exists [MsgAddHeader; PromptStudentId; PromptName; PromptBranch;
            PromptYear; PromptMarks; MsgSaved fn].
    split; [|by repeat constructor]. rewrite <- !app_assoc. reflexivity.
  - exists [MsgAddHeader; PromptStudentId; PromptName; PromptBranch;
            PromptYear; PromptMarks; MsgSaveError fn OSError].
    split; [|by repeat constructor]. rewrite <- !app_assoc. reflexivity.
Qed.

Ltac split_choices :=
  repeat (cbn [scan];
    match goal with
    | H : ?c = _ |- context [match ?c with _ => _ end] => rewrite H
    | |- context [match id_choice ?ss ?l with _ => _ end] =>
        destruct (id_choice ss l) eqn:?
    | |- context [match year_choice ?l with _ => _ end] =>
        destruct (year_choice l) eqn:?
    | |- context [match marks_choice ?l with _ => _ end] =>
        destruct (marks_choice l) eqn:?
    end);
  cbn [scan].

Ltac find_exists H :=
  first [ exact H
        | apply Exists_cons_tl; find_exists H
        | apply Exists_app; left; find_exists H
        | apply Exists_app; right; find_exists H ].

Ltac validation_printed :=
  repeat match goal with
  | H : id_choice _ _ = None |- _ => apply id_msgs_rejected in H
  | H : year_choice _ = None |- _ => apply year_msgs_rejected in H
  | H : marks_choice _ = None |- _ => apply marks_msgs_rejected in H
  end;
  match goal with H : Exists _ _ |- _ => find_exists H end.

(** A candidate that fails a check is turned down with a validation
    message; on a console that holds the candidate and nothing else the
    prompt finds no further line, and neither store nor file change. *)
Lemma add_turns_down (w : World) (idl nl bl yl ml : string) :
  id_choice (students w) idl = None \/ year_choice yl = None \/
    marks_choice ml = None ->
  exists out,
    add_student (with_stdin [idl; nl; bl; yl; ml] w) =
      (Raise EOFError, console [] out w) /\
    Exists (fun msg => is_validation_msg msg = true) out.
Proof.
  intros H. rewrite add_student_run. unfold add_outcome.
  cbn [stdin with_stdin students].
  destruct H as [H|[H|H]]; split_choices;
    (eexists; split; [reflexivity | validation_printed]).
Qed.

(** C3. A candidate record typed at the prompts of [add_student], one
    line a field, with a year and marks that read as numbers, is turned
    down exactly when its id is empty, its id is already in the store,
    its year is not positive or its marks are not within 0 and 100: a
    validation message is printed, the prompt asks again and, the
    console holding no other line, the operation ends there with the
    store and the file as they were. Otherwise the record is appended
    at the end of the store and the store is saved: the file holds the
    new list when it can be written. Marks of 0 and of 100 are within
    the range. *)
Theorem add_student_validates (w : World)
    (id_line name_line branch_line year_line marks_line : string)
    (y : Z) (m : spec_float) :
  py_int year_line = Some y ->
  py_float marks_line = Some m ->
  let id := str_strip id_line in
  let candidate := [id_line; name_line; branch_line; year_line; marks_line] in
  let rejected :=
    id = "" \/
    (exists s, s ∈ students w /\ Student.student_id s = PyStr id) \/
    y <= 0 \/
    marks_in_range m = false in
  let new_student :=
    Student.mk (PyStr id) (PyStr (str_strip name_line))
      (PyStr (str_strip branch_line)) (PyInt y) (PyFloat m) in
  (outcome add_student (with_stdin candidate w) = Raise EOFError <-> rejected) /\
  (rejected ->
     let w' := exec add_student (with_stdin candidate w) in
     students w' = students w /\
     file w' = file w /\
     exists out, stdout w' = stdout w ++ out /\
                 Exists (fun msg => is_validation_msg msg = true) out) /\
  (~ rejected -> forall rest,
     let w' := exec add_student (with_stdin (candidate ++ rest) w) in
     outcome add_student (with_stdin (candidate ++ rest) w) = Ok tt /\
     students w' = students w ++ [new_student] /\
     stdin w' = rest /\
     file w' =
       (if writable w
        then Some (json_dump
                     (PyList (map Student.to_dict (students w ++ [new_student]))))
        else file w) /\
     exists out, stdout w' = stdout w ++ out ++ [MsgAdded (str_strip name_line)] /\
                 Forall (fun msg => is_validation_msg msg = false) out) /\
  marks_in_range (float_of_int 0) = true /\
  marks_in_range (float_of_int 100) = true.
Proof.
  intros Hy Hm id candidate rejected new_student.
  assert (rejected <->
          (id_choice (students w) id_line = None \/ year_choice year_line = None \/
           marks_choice marks_line = None)) as Hrej.
  { unfold rejected. split.
    - intros [H|[(s & Hs & Hid)|[H|H]]].
      + left. destruct (id_choice _ _) as [id'|] eqn:E; [|done].
        apply id_choice_Some in E as (-> & E & _). done.
      + left. destruct (id_choice _ _) as [id'|] eqn:E; [|done].
        apply id_choice_Some in E as (-> & _ & E). by destruct (E s Hs).
      + right; left. destruct (year_choice _) as [y'|] eqn:E; [|done].
        apply year_choice_Some in E as [E ?]. rewrite Hy in E.
        injection E as <-. lia.
      + right; right. destruct (marks_choice _) as [m'|] eqn:E; [|done].
        apply marks_choice_Some in E as [E ?]. rewrite Hm in E.
        injection E as <-. congruence.
    - intros [H|[H|H]].
      + unfold id_choice in H. fold id in H.
        destruct (str_truthy id) eqn:T.
        * destruct (find_student_in (students w) id) as [[i s]|] eqn:F;
            [|discriminate].
          right; left. exists s. apply find_student_in_Some in F as (Hi & Hs & _).
          split; [by eapply list_elem_of_lookup_2 | done].
        * left. by apply str_truthy_false.
      + unfold year_choice in H. rewrite Hy in H.
        destruct (Z.leb_spec y 0); [|discriminate]. right; right; left. lia.
      + unfold marks_choice in H. rewrite Hm in H.
        destruct (marks_in_range m); [discriminate|]. by repeat right. }
  assert (rejected \/ ~ rejected) as Hdec.
  { rewrite Hrej.
    destruct (id_choice (students w) id_line); [|tauto].
    destruct (year_choice year_line); [|tauto].
    destruct (marks_choice marks_line); [|tauto].
    right. intros [?|[?|?]]; discriminate. }
  assert (~ rejected -> forall rest,
     exists out,
       add_student (with_stdin (candidate ++ rest) w) =
       (Ok tt,
        mkWorld (file_name w) (students w ++ [new_student]) rest
          (stdout w ++ out ++ [MsgAdded (str_strip name_line)])
          (if writable w
           then Some (json_dump
                        (PyList (map Student.to_dict (students w ++ [new_student]))))
           else file w)
          (readable w) (writable w)) /\
       Forall (fun msg => is_validation_msg msg = false) out) as Hacc.
  { intros Hn rest. rewrite Hrej in Hn.
    destruct (id_choice (students w) id_line) as [id'|] eqn:Eid; [|tauto].
    destruct (year_choice year_line) as [y'|] eqn:Ey; [|tauto].
    destruct (marks_choice marks_line) as [m'|] eqn:Em; [|tauto].
    pose proof Eid as Eid'. apply id_choice_Some in Eid' as (-> & _).
    pose proof Ey as Ey'. apply year_choice_Some in Ey' as [Ey' _].
    pose proof Em as Em'. apply marks_choice_Some in Em' as [Em' _].
    assert (y' = y) as -> by congruence. assert (m' = m) as -> by congruence.
    apply (add_accepts w id_line name_line branch_line year_line marks_line rest);
      done. }
  split; [|split; [|split]].
  - split.
    + intros Hraise. destruct Hdec as [?|Hn]; [done|]. exfalso.
      destruct (Hacc Hn []) as (out & Hrun & _).
      unfold outcome in Hraise. rewrite app_nil_r in Hrun.
      rewrite Hrun in Hraise. discriminate.
    + intros Hr. apply Hrej in Hr.
      destruct (add_turns_down w _ name_line branch_line _ _ Hr) as (out & Hrun & _).
      unfold outcome. fold candidate in Hrun. by rewrite Hrun.
  - intros Hr. apply Hrej in Hr.
    destruct (add_turns_down w _ name_line branch_line _ _ Hr) as (out & Hrun & Hex).
    fold candidate in Hrun. unfold exec. rewrite Hrun. simpl.
    repeat split; try done. by exists out.
  - intros Hn rest. destruct (Hacc Hn rest) as (out & Hrun & Hout).
    unfold outcome, exec. rewrite Hrun. simpl. repeat split; try done.
    by exists out.
  - by vm_compute.
Qed.

(** ** C4: saving, then loading *)

Lemma from_dict_to_dict (s : Student.t) :
  Student.from_dict (Student.to_dict s) = Ok s.
Proof. by destruct s. Qed.

Lemma from_dict_all_to_dict (l : list Student.t) :
  from_dict_all (map Student.to_dict l) = Ok l.
Proof.
  induction l as [|s l IH]; cbn [map from_dict_all]; [reflexivity|].
  by rewrite from_dict_to_dict, IH.
Qed.

Lemma records_on_saved_file (w : World) :
  json_round_trip RT ->
  writable w = true ->
  readable w = true ->
  records_on_file (saved w) = Some (Ok (students w)).
Proof.
  intros Hrt Hw Hr. unfold records_on_file, saved. rewrite Hw. simpl.
  rewrite Hr, Hrt. simpl. by rewrite from_dict_all_to_dict.
Qed.

(** C4. With a JSON library that reads back what it writes, and a file
    that can be written and read: after [_save_data], loading gives
    back the list of records that was saved, same records in the same
    order with the same field values, whether [_load_data] runs on the
    same manager or a new manager is constructed on the file. Record by
    record, [from_dict] after [to_dict] is the identity. *)
Theorem save_load_round_trip (w : World) :
  json_round_trip RT ->
  writable w = true ->
  readable w = true ->
  (forall s, Student.from_dict (Student.to_dict s) = Ok s) /\
  (forall l, from_dict_all (map Student.to_dict l) = Ok l) /\
  outcome _save_data w = Ok tt /\
  outcome _load_data (exec _save_data w) = Ok tt /\
  students (exec _load_data (exec _save_data w)) = students w /\
  (forall fname,
     students (exec (__init__ fname) (exec _save_data w)) = students w).
Proof.
  intros Hrt Hw Hr.
  split; [apply from_dict_to_dict|]. split; [apply from_dict_all_to_dict|].
  unfold outcome at 1, exec at 2 3 5. rewrite save_data_run. simpl.
  pose proof (records_on_saved_file w Hrt Hw Hr) as Hrec.
  split; [done|]. split; [apply load_data_outcome|]. split.
  - destruct (load_data_outcome (saved w)) as (_ & _ & _ & H).
    rewrite Hrec in H. apply H.
  - intros fname.
    pose (w0 := mkWorld fname [] (stdin (saved w)) (stdout (saved w))
                  (file (saved w)) (readable (saved w)) (writable (saved w))).
    change (exec (__init__ fname) (saved w)) with (exec _load_data w0).
    destruct (load_data_outcome w0) as (_ & _ & _ & H).
    change (records_on_file w0) with (records_on_file (saved w)) in H.
    rewrite Hrec in H. apply H.
Qed.

(** ** Updating *)

Lemma console_with_students r o l w :
  console r o (with_students l w) = with_students l (console r o w).
Proof. done. Qed.

Lemma with_students_twice l1 l2 w :
  with_students l1 (with_students l2 w) = with_students l1 w.
Proof. done. Qed.

Lemma with_students_same w : with_students (students w) w = w.
Proof. by destruct w. Qed.

Lemma find_student_run (id : string) (w : World) :
  _find_student id w = (Ok (find_student_in (students w) id), w).
Proof. done. Qed.

Lemma assign_run (ref : nat) (f : Student.t -> Student.t) (w : World) :
  assign ref f w = (Ok tt, with_students (alter f ref (students w)) w).
Proof. done. Qed.

Lemma update_year_round_run (ref : nat) (line : string) (w : World) :
  update_year_round ref line w =
    match keep_or year_choice line with
    | None => (Ok None, with_stdout (stdout w ++ keep_or_msgs year_msgs line) w)
    | Some oy =>
        (Ok (Some tt),
         (fun w' =>
            with_students
              (assign_opt (fun y => Student.set_year (PyInt y)) ref oy (students w'))
              w')
           (with_stdout (stdout w ++ keep_or_msgs year_msgs line) w))
    end.
Proof.
  unfold update_year_round, keep_or, keep_or_msgs, year_choice, year_msgs,
    try_except, bind, print, ret, int_of_str, raise.
  destruct (str_truthy (str_strip line)); simpl.
  2:{ by rewrite with_stdout_nil, with_students_same. }
  destruct (py_int (str_strip line)) as [y|]; simpl; [|reflexivity].
  destruct (y <=? 0)%Z; simpl; [reflexivity|].
  by rewrite with_stdout_nil.
Qed.

Lemma update_marks_round_run (ref : nat) (line : string) (w : World) :
  update_marks_round ref line w =
    match keep_or marks_choice line with
    | None => (Ok None, with_stdout (stdout w ++ keep_or_msgs marks_msgs line) w)
    | Some om =>
        (Ok (Some tt),
         (fun w' =>
            with_students
              (assign_opt (fun m => Student.set_marks (PyFloat m)) ref om (students w'))
              w')
           (with_stdout (stdout w ++ keep_or_msgs marks_msgs line) w))
    end.
Proof.
  unfold update_marks_round, keep_or, keep_or_msgs, marks_choice, marks_msgs,
    try_except, bind, print, ret, float_of_str, raise.
  destruct (str_truthy (str_strip line)); simpl.
  2:{ by rewrite with_stdout_nil, with_students_same. }
  destruct (py_float (str_strip line)) as [m|]; simpl; [|reflexivity].
  destruct (marks_in_range m); simpl; [|reflexivity].
  by rewrite with_stdout_nil.
Qed.

Lemma stdin_with_students l w : stdin (with_students l w) = stdin w.
Proof. done. Qed.

Ltac world_norm :=
  rewrite ?console_with_students, ?with_students_twice, ?students_console,
    ?stdin_with_students, ?stdin_console, ?console_console,
    ?with_stdout_console;
  cbn [app students with_students]; rewrite <- ?app_assoc; cbn [app].

(** [update_student] runs as [update_outcome] says. *)
Lemma update_student_run (w : World) : update_student w = update_outcome w.
Proof.
  unfold update_student, update_outcome, while_input. cbv zeta.
  unfold bind at 1. rewrite print_run.
  unfold bind at 1. rewrite input_run, stdin_console.
  destruct (stdin w) as [|id_line rest0]; world_norm; [reflexivity|].
  unfold bind at 1. rewrite find_student_run, students_console.
  destruct (find_student_in (students w) (str_strip id_line)) as [[ref student]|].
  2:{ rewrite print_run. by world_norm. }
  unfold bind at 1. rewrite print_run. world_norm.
  unfold bind at 1. rewrite print_run. world_norm.
  unfold bind at 1. rewrite input_run. world_norm.
  destruct rest0 as [|name_line rest1]; world_norm; [reflexivity|].
  unfold bind at 1.
  assert (forall (set : pyval -> Student.t -> Student.t) line w',
            (if str_truthy (str_strip line) return M unit
             then assign ref (set (PyStr (str_strip line)))
             else ret tt) w' =
            (Ok tt, with_students (assign_text set ref line (students w')) w'))
    as Htext.
  { intros set line w'. unfold assign_text.
    destruct (str_truthy (str_strip line)); [done|].
    unfold ret. by rewrite with_students_same. }
  rewrite (Htext Student.set_name). world_norm.
  unfold bind at 1. rewrite input_run. world_norm.
  destruct rest1 as [|branch_line rest2]; world_norm; [reflexivity|].
  unfold bind at 1. rewrite (Htext Student.set_branch). world_norm.
  unfold bind at 1.
  rewrite (while_input_from_scan _ (update_year_round ref) (fun _ => True)
             (keep_or year_choice) (keep_or_msgs year_msgs) (fun _ => tt)
             (fun oy w' =>
                with_students
                  (assign_opt (fun y => Student.set_year (PyInt y)) ref oy
                     (students w')) w')); try done.
  2:{ intros line w' _. apply update_year_round_run. }
  world_norm.
  destruct (scan _ (keep_or year_choice) _ rest2) as [[[oy|] rest3] out2];
    world_norm; [|reflexivity].
  unfold bind at 1.
  rewrite (while_input_from_scan _ (update_marks_round ref) (fun _ => True)
             (keep_or marks_choice) (keep_or_msgs marks_msgs) (fun _ => tt)
             (fun om w' =>
                with_students
                  (assign_opt (fun m => Student.set_marks (PyFloat m)) ref om
                     (students w')) w')); try done.
  2:{ intros line w' _. apply update_marks_round_run. }
  world_norm.
  destruct (scan _ (keep_or marks_choice) _ rest3) as [[[om|] rest4] out3];
    world_norm; [|reflexivity].
  unfold bind. rewrite save_data_run. reflexivity.
Qed.

Lemma keep_or_year_Some (line : string) (oy : option Z) :
  keep_or year_choice line = Some oy <->
  supplied py_int (Z.ltb 0) line oy.
Proof.
  unfold keep_or. destruct (str_truthy (str_strip line)) eqn:T.
  - apply str_truthy_true in T.
    destruct (year_choice (str_strip line)) as [y|] eqn:E.
    + apply year_choice_Some in E as [E Hy]. split.
      * intros [= <-]. constructor; [done..|]. by apply Z.ltb_lt.
      * intros H. inversion H; subst; [done|]. congruence.
    + split; [discriminate|]. intros H. inversion H as [|y ? Hp Hv]; subst; [done|].
      assert (year_choice (str_strip line) = Some y) as E'.
      { apply year_choice_Some. split; [done|]. by apply Z.ltb_lt. }
      congruence.
  - apply str_truthy_false in T. split.
    + intros [= <-]. by constructor.
    + intros H. inversion H; subst; [done|]. done.
Qed.

Lemma keep_or_marks_Some (line : string) (om : option spec_float) :
  keep_or marks_choice line = Some om <->
  supplied py_float marks_in_range line om.
Proof.
  unfold keep_or. destruct (str_truthy (str_strip line)) eqn:T.
  - apply str_truthy_true in T.
    destruct (marks_choice (str_strip line)) as [m|] eqn:E.
    + apply marks_choice_Some in E as [E Hm]. split.
      * intros [= <-]. by constructor.
      * intros H. inversion H; subst; [done|]. congruence.
    + split; [discriminate|]. intros H. inversion H as [|m ? Hp Hv]; subst; [done|].
      assert (marks_choice (str_strip line) = Some m) as E'.
      { by apply marks_choice_Some. }
      congruence.
  - apply str_truthy_false in T. split.
    + intros [= <-]. by constructor.
    + intros H. inversion H; subst; [done|]. done.
Qed.

Lemma keep_or_year_None (line : string) :
  refused py_int (Z.ltb 0) line -> keep_or year_choice line = None.
Proof.
  intros [Hb Hr]. destruct (keep_or year_choice line) as [oy|] eqn:E; [|done].
  apply keep_or_year_Some in E. inversion E as [|y ? Hp Hv]; subst; [done|].
  rewrite (Hr y Hp) in Hv. discriminate.
Qed.

Lemma keep_or_marks_None (line : string) :
  refused py_float marks_in_range line -> keep_or marks_choice line = None.
Proof.
  intros [Hb Hr]. destruct (keep_or marks_choice line) as [om|] eqn:E; [|done].
  apply keep_or_marks_Some in E. inversion E as [|m ? Hp Hv]; subst; [done|].
  rewrite (Hr m Hp) in Hv. discriminate.
Qed.

Lemma assign_text_alter (set : pyval -> Student.t -> Student.t) ref line ss :
  assign_text set ref line ss =
  alter (fun s => if str_truthy (str_strip line)
                  then set (PyStr (str_strip line)) s else s) ref ss.
Proof.
  unfold assign_text. destruct (str_truthy (str_strip line)); [done|].
  symmetry. by apply list_alter_id.
Qed.

Lemma assign_opt_alter {B} (set : B -> Student.t -> Student.t) ref ob ss :
  assign_opt set ref ob ss =
  alter (fun s => match ob with Some b => set b s | None => s end) ref ss.
Proof.
  destruct ob; [done|]. symmetry. by apply list_alter_id.
Qed.

Lemma alter_is_insert {A} (f : A -> A) (i : nat) (l : list A) (x : A) :
  l !! i = Some x -> alter f i l = <[i := f x]> l.
Proof.
  intros H. rewrite list_insert_alter. apply list_alter_ext; [|done].
  intros y Hy. congruence.
Qed.

Lemma validated_update_refl (s : Student.t) : validated_update s s.
Proof. unfold validated_update. tauto. Qed.

Lemma validated_update_trans (s1 s2 s3 : Student.t) :
  validated_update s1 s2 -> validated_update s2 s3 -> validated_update s1 s3.
Proof.
  unfold validated_update.
  intros (Hi & Hn & Hb & Hy & Hm) (Hi' & Hn' & Hb' & Hy' & Hm').
  split; [congruence|]. split; [|split; [|split]].
  - destruct Hn' as [->|?]; [done | by right].
  - destruct Hb' as [->|?]; [done | by right].
  - destruct Hy' as [->|?]; [done | by right].
  - destruct Hm' as [->|?]; [done | by right].
Qed.

Lemma validated_text_name (line : string) (s : Student.t) :
  validated_update s
    (if str_truthy (str_strip line)
     then Student.set_name (PyStr (str_strip line)) s else s).
Proof.
  destruct (str_truthy (str_strip line)) eqn:T; [|apply validated_update_refl].
  apply str_truthy_true in T. unfold validated_update; simpl.
  split; [done|]. split; [right; eauto|]. tauto.
Qed.

Lemma validated_text_branch (line : string) (s : Student.t) :
  validated_update s
    (if str_truthy (str_strip line)
     then Student.set_branch (PyStr (str_strip line)) s else s).
Proof.
  destruct (str_truthy (str_strip line)) eqn:T; [|apply validated_update_refl].
  apply str_truthy_true in T. unfold validated_update; simpl.
  split; [done|]. split; [tauto|]. split; [right; eauto|]. tauto.
Qed.

Lemma validated_year (oy : option Z) (s : Student.t) :
  (forall y, oy = Some y -> 0 < y) ->
  validated_update s
    (match oy with Some y => Student.set_year (PyInt y) s | None => s end).
Proof.
  intros H. destruct oy as [y|]; [|apply validated_update_refl].
  unfold validated_update; simpl. repeat split; try tauto.
  right. exists y. split; [by apply H | done].
Qed.

Lemma validated_marks (om : option spec_float) (s : Student.t) :
  (forall m, om = Some m -> marks_in_range m = true) ->
  validated_update s
    (match om with Some m => Student.set_marks (PyFloat m) s | None => s end).
Proof.
  intros H. destruct om as [m|]; [|apply validated_update_refl].
  unfold validated_update; simpl. repeat split; try tauto.
  right. exists m. split; [by apply H | done].
Qed.

Lemma scan_year_accepted p msgs lines oy rest out :
  scan p (keep_or year_choice) msgs lines = (Some oy, rest, out) ->
  forall y, oy = Some y -> 0 < y.
Proof.
  intros H y ->. apply scan_accepted in H as (bad & line & _ & _ & H).
  apply keep_or_year_Some in H. inversion H; subst. by apply Z.ltb_lt.
Qed.

Lemma scan_marks_accepted p msgs lines om rest out :
  scan p (keep_or marks_choice) msgs lines = (Some om, rest, out) ->
  forall m, om = Some m -> marks_in_range m = true.
Proof.
  intros H m ->. apply scan_accepted in H as (bad & line & _ & _ & H).
  apply keep_or_marks_Some in H. by inversion H; subst.
Qed.

(** Whatever is typed, [update_student] leaves the store as it was but
    for the record found, which it alters within [validated_update]. *)
Lemma update_store_shape (w : World) :
  exists f : Student.t -> Student.t,
    (forall s, validated_update s (f s)) /\
    students (exec update_student w) =
      match stdin w with
      | [] => students w
      | id_line :: _ =>
          match find_student_in (students w) (str_strip id_line) with
          | Some (ref, _) => alter f ref (students w)
          | None => students w
          end
      end.
Proof.
  unfold exec. rewrite update_student_run. unfold update_outcome.
  destruct (stdin w) as [|id_line rest0].
  { exists id. split; [apply validated_update_refl|done]. }
  destruct (find_student_in (students w) (str_strip id_line)) as [[ref student]|].
  2:{ exists id. split; [apply validated_update_refl|done]. }
  set (f1 := fun s => if str_truthy (str_strip (hd "" rest0))
                      then Student.set_name (PyStr (str_strip (hd "" rest0))) s
                      else s).
  destruct rest0 as [|name_line rest1].
  { exists id. split; [apply validated_update_refl|]. simpl.
    symmetry. by apply list_alter_id. }
  simpl in f1. rewrite assign_text_alter. fold f1.
  assert (forall s, validated_update s (f1 s)) as V1
    by (intros s; apply validated_text_name).
  destruct rest1 as [|branch_line rest2]; [by exists f1|].
  rewrite assign_text_alter, list_alter_alter_eq.
  set (f2 := fun s => if str_truthy (str_strip branch_line)
                      then Student.set_branch (PyStr (str_strip branch_line)) s
                      else s).
  assert (forall s, validated_update s ((f2 ∘ f1) s)) as V2.
  { intros s. eapply validated_update_trans; [apply V1|].
    apply validated_text_branch. }
  destruct (scan _ (keep_or year_choice) _ rest2) as [[[oy|] rest3] out2] eqn:S2;
    [|by exists (f2 ∘ f1)].
  rewrite assign_opt_alter, list_alter_alter_eq.
  set (f3 := fun s => match oy with
                      | Some y => Student.set_year (PyInt y) s
                      | None => s
                      end).
  assert (forall s, validated_update s ((f3 ∘ (f2 ∘ f1)) s)) as V3.
  { intros s. eapply validated_update_trans; [apply V2|].
    apply validated_year. eapply scan_year_accepted, S2. }
  destruct (scan _ (keep_or marks_choice) _ rest3) as [[[om|] rest4] out3] eqn:S3;
    [|by exists (f3 ∘ (f2 ∘ f1))].
  rewrite assign_opt_alter, list_alter_alter_eq.
  set (f4 := fun s => match om with
                      | Some m => Student.set_marks (PyFloat m) s
                      | None => s
                      end).
  exists (f4 ∘ (f3 ∘ (f2 ∘ f1))). split.
  - intros s. eapply validated_update_trans; [apply V3|].
    apply validated_marks. eapply scan_marks_accepted, S3.
  - simpl. by rewrite saved_students.
Qed.

(** ** C9: the frame of an update *)

(** C9. Whatever is typed and however it ends, [update_student] keeps
    the number of records, their order and the id of each of them, and
    a position of the store whose record changes is the position of the
    first record with the id that was read. *)
Theorem update_frame (w : World) :
  let w' := exec update_student w in
  length (students w') = length (students w) /\
  map Student.student_id (students w') = map Student.student_id (students w) /\
  forall j, students w' !! j <> students w !! j ->
    exists id_line rest s,
      stdin w = id_line :: rest /\
      find_student_in (students w) (str_strip id_line) = Some (j, s).
Proof.
  intros w'. destruct (update_store_shape w) as (f & Vf & Hs).
  fold w' in Hs. rewrite Hs. clear Hs.
  destruct (stdin w) as [|id_line rest]; [done|].
  destruct (find_student_in (students w) (str_strip id_line)) as [[ref s]|] eqn:F;
    [|done].
  split; [apply length_alter|]. split.
  - change (Student.student_id <$> alter f ref (students w) =
            Student.student_id <$> students w).
    rewrite (list_fmap_alter _ f id).
    + by apply list_alter_id.
    + apply Forall_forall. intros x _. apply Vf.
  - intros j Hj. destruct (decide (ref = j)) as [<-|Hne].
    + by exists id_line, rest, s.
    + by rewrite list_lookup_alter_ne in Hj.
Qed.

(** ** C5: the fields of an update *)

Lemma update_script (w : World) (id_line name_line branch_line : string)
    (bad_years : list string) (year_line : string)
    (bad_marks : list string) (marks_line : string) (rest : list string)
    (ref : nat) (s : Student.t) (oy : option Z) (om : option spec_float) :
  stdin w = id_line :: name_line :: branch_line ::
            bad_years ++ year_line :: bad_marks ++ marks_line :: rest ->
  find_student_in (students w) (str_strip id_line) = Some (ref, s) ->
  Forall (refused py_int (Z.ltb 0)) bad_years ->
  supplied py_int (Z.ltb 0) year_line oy ->
  Forall (refused py_float marks_in_range) bad_marks ->
  supplied py_float marks_in_range marks_line om ->
  let s' :=
    Student.mk (Student.student_id s)
      (text_after name_line (Student.name s))
      (text_after branch_line (Student.branch s))
      (value_after PyInt oy (Student.year s))
      (value_after PyFloat om (Student.marks s)) in
  let ss' := <[ref := s']> (students w) in
  exists out,
    update_student w =
      (Ok tt,
       mkWorld (file_name w) ss' rest
         (stdout w ++ out ++ [MsgUpdated (str_strip id_line)])
         (if writable w
          then Some (json_dump (PyList (map Student.to_dict ss')))
          else file w)
         (readable w) (writable w)).
Proof.
  intros Hin F Hby Hy Hbm Hm s' ss'.
  rewrite update_student_run. unfold update_outcome. rewrite Hin, F.
  apply keep_or_year_Some in Hy. apply keep_or_marks_Some in Hm.
  destruct (scan_skips (PromptNewYear (Student.year s)) (keep_or year_choice)
              (keep_or_msgs year_msgs) bad_years year_line
              (bad_marks ++ marks_line :: rest) oy) as [out2 S2]; [|done|].
  { eapply Forall_impl; [exact Hby|]. intros l. apply keep_or_year_None. }
  destruct (scan_skips (PromptNewMarks (Student.marks s)) (keep_or marks_choice)
              (keep_or_msgs marks_msgs) bad_marks marks_line rest om)
    as [out3 S3]; [|done|].
  { eapply Forall_impl; [exact Hbm|]. intros l. apply keep_or_marks_None. }
  rewrite S2, S3.
  assert (assign_opt (fun m => Student.set_marks (PyFloat m)) ref om
            (assign_opt (fun y => Student.set_year (PyInt y)) ref oy
               (assign_text Student.set_branch ref branch_line
                  (assign_text Student.set_name ref name_line (students w))))
          = ss') as ->.
  { rewrite !assign_opt_alter, !assign_text_alter, !list_alter_alter_eq.
    rewrite (alter_is_insert _ _ _ s) by (by eapply find_student_in_lookup).
    unfold ss'. f_equal. unfold s', text_after, value_after. simpl.
    destruct s as [i n b y m]; simpl.
    by destruct (str_truthy (str_strip name_line)),
         (str_truthy (str_strip branch_line)), oy, om. }
  exists ([MsgUpdateHeader; PromptUpdateId; MsgFound s; MsgEnterNewDetails;
           PromptNewName (Student.name s); PromptNewBranch (Student.branch s)]
          ++ out2 ++ out3
          ++ [if writable w then MsgSaved (file_name w)
              else MsgSaveError (file_name w) OSError]).
  clear. destruct w as [fn ss i o f r wr].
  unfold saved, console, with_students, with_stdin, with_stdout, with_file.
  cbn [writable file_name students stdin stdout file readable].
  destruct wr;
    cbn [writable file_name students stdin stdout file readable app];
    repeat (progress (cbn [app]; rewrite <- ?app_assoc)); reflexivity.
Qed.

(** C5. [update_student], once it has read an id. When no record has
    the id, not-found is reported and nothing changes. When the record
    [s] at position [ref] is the first with the id: whatever is typed
    next, only that record changes, and each field of it either keeps
    its value or takes a value that passed the check of [add_student]
    (year above 0, marks within 0 and 100). When the lines typed are a
    name, a branch, any number of years that are refused and one that is
    blank or valid, then any number of marks that are refused and one
    that is blank or valid: every field answered by a blank line keeps
    its prior value, every other field takes the value supplied, the
    refused lines change no field, and the store is saved. *)
Theorem update_student_fields (w : World) (id_line : string) (rest : list string) :
  stdin w = id_line :: rest ->
  let id := str_strip id_line in
  let w' := exec update_student w in
  match find_student_in (students w) id with
  | None =>
      outcome update_student w = Ok tt /\
      students w' = students w /\
      file w' = file w /\
      stdin w' = rest /\
      stdout w' = stdout w ++ [MsgUpdateHeader; PromptUpdateId; MsgNotFound id]
  | Some (ref, s) =>
      (exists s', students w' = <[ref := s']> (students w) /\
                  validated_update s s') /\
      (forall name_line branch_line bad_years year_line bad_marks marks_line
              rest' oy om,
         rest = name_line :: branch_line ::
                bad_years ++ year_line :: bad_marks ++ marks_line :: rest' ->
         Forall (refused py_int (Z.ltb 0)) bad_years ->
         supplied py_int (Z.ltb 0) year_line oy ->
         Forall (refused py_float marks_in_range) bad_marks ->
         supplied py_float marks_in_range marks_line om ->
         let s' :=
           Student.mk (Student.student_id s)
             (text_after name_line (Student.name s))
             (text_after branch_line (Student.branch s))
             (value_after PyInt oy (Student.year s))
             (value_after PyFloat om (Student.marks s)) in
         outcome update_student w = Ok tt /\
         students w' = <[ref := s']> (students w) /\
         stdin w' = rest' /\
         file w' =
           (if writable w
            then Some (json_dump
                         (PyList (map Student.to_dict
                                    (<[ref := s']> (students w)))))
            else file w) /\
         MsgUpdated id ∈ stdout w')
  end.
Proof.
  intros Hin id w'.
  destruct (find_student_in (students w) id) as [[ref s]|] eqn:F.
  - split.
    + destruct (update_store_shape w) as (f & Vf & Hs). fold w' in Hs.
      rewrite Hin in Hs. fold id in Hs. rewrite F in Hs.
      exists (f s). split; [|apply Vf].
      rewrite Hs. apply alter_is_insert. by eapply find_student_in_lookup.
    + intros name_line branch_line bad_years year_line bad_marks marks_line
        rest' oy om -> Hby Hy Hbm Hm s'.
      destruct (update_script w id_line name_line branch_line bad_years year_line
                  bad_marks marks_line rest' ref s oy om Hin F Hby Hy Hbm Hm)
        as [out Hrun].
      unfold w', outcome, exec. rewrite Hrun. simpl. repeat split; try done.
      rewrite !elem_of_app. right; right. by left.
  - unfold w', outcome, exec. rewrite update_student_run. unfold update_outcome.
    rewrite Hin. fold id. rewrite F. simpl. done.
Qed.

(** ** C1, C10: what the operations keep *)

(** [add_student] leaves the store as it was, or appends one record that
    passed every check. *)
Lemma add_store_shape (w : World) :
  students (exec add_student w) = students w \/
  exists id n b y m,
    id <> "" /\
    (forall s, s ∈ students w -> Student.student_id s <> PyStr id) /\
    0 < y /\
    marks_in_range m = true /\
    students (exec add_student w) =
      students w ++ [Student.mk (PyStr id) (PyStr n) (PyStr b) (PyInt y) (PyFloat m)].
Proof.
  unfold exec. rewrite add_student_run. unfold add_outcome.
  destruct (scan PromptStudentId _ _ (stdin w)) as [[[id|] rest1] out1] eqn:S1;
    [|by left].
  destruct rest1 as [|name_line [|branch_line rest2]]; [by left..|].
  destruct (scan PromptYear _ _ rest2) as [[[y|] rest3] out2] eqn:S2; [|by left].
  destruct (scan PromptMarks _ _ rest3) as [[[m|] rest4] out3] eqn:S3; [|by left].
  right. exists id, (str_strip name_line), (str_strip branch_line), y, m.
  apply scan_accepted in S1 as (_ & l1 & _ & _ & H1).
  apply scan_accepted in S2 as (_ & l2 & _ & _ & H2).
  apply scan_accepted in S3 as (_ & l3 & _ & _ & H3).
  apply id_choice_Some in H1 as (_ & Hne & Hfresh).
  apply year_choice_Some in H2 as [_ Hy].
  apply marks_choice_Some in H3 as [_ Hm].
  repeat split; try done. simpl. by rewrite saved_students.
Qed.

(** [delete_student] leaves the store as it was or filters it. *)
Lemma delete_store_shape (w : World) :
  students (exec delete_student w) = students w \/
  exists id, students (exec delete_student w) = List.filter (other_id id) (students w).
Proof.
  destruct (stdin w) as [|line rest] eqn:Hin.
  - left. unfold exec, delete_student, bind, print, input.
    destruct w as [fn ss i o f r wr]; simpl in *. by subst i.
  - right. exists (str_strip line). unfold exec.
    rewrite (delete_student_run w line rest Hin).
    destruct (_ <? _)%nat; simpl; [|done]. by rewrite saved_students.
Qed.

Lemma add_keeps_unique (w : World) :
  unique_ids (students w) -> unique_ids (students (exec add_student w)).
Proof.
  intros Hu. destruct (add_store_shape w) as [->|(id & n & b & y & m & _ & Hf & _ & _ & ->)];
    [done|].
  unfold unique_ids in *. rewrite map_app. apply NoDup_app. split; [done|]. split.
  - intros x Hx. simpl. rewrite list_elem_of_singleton. intros ->.
    apply list_elem_of_fmap in Hx as (s & Hs & Hin). by apply (Hf s).
  - simpl. apply NoDup_singleton.
Qed.

Lemma update_keeps_unique (w : World) :
  unique_ids (students w) -> unique_ids (students (exec update_student w)).
Proof.
  intros Hu. destruct (update_store_shape w) as (f & Vf & Hs).
  assert (map Student.student_id (students (exec update_student w)) =
          map Student.student_id (students w)) as Hmap.
  { rewrite Hs. destruct (stdin w) as [|id_line rest]; [done|].
    destruct (find_student_in _ _) as [[ref s]|]; [|done].
    change (Student.student_id <$> alter f ref (students w) =
            Student.student_id <$> students w).
    rewrite (list_fmap_alter _ f id).
    - by apply list_alter_id.
    - apply Forall_forall. intros x _. apply Vf. }
  unfold unique_ids. by rewrite Hmap.
Qed.

Lemma delete_keeps_unique (w : World) :
  unique_ids (students w) -> unique_ids (students (exec delete_student w)).
Proof.
  intros Hu. destruct (delete_store_shape w) as [->|[id ->]]; [done|].
  unfold unique_ids in *. eapply sublist_NoDup; [exact Hu|].
  apply fmap_sublist, filter_sublist.
Qed.

Lemma init_students (fname : string) (w0 : World) :
  students (exec (__init__ fname) w0) =
    match records_on_file w0 with
    | Some (Ok l) => l
    | _ => []
    end.
Proof.
  pose (w1 := mkWorld fname [] (stdin w0) (stdout w0) (file w0)
                (readable w0) (writable w0)).
  destruct (load_data_outcome w1) as (_ & _ & _ & H).
  change (exec (__init__ fname) w0) with (exec _load_data w1).
  change (records_on_file w0) with (records_on_file w1).
  destruct (records_on_file w1) as [[l|e]|]; by destruct H.
Qed.

Lemma init_keeps_unique (fname : string) (w0 : World) :
  (forall l, records_on_file w0 = Some (Ok l) -> unique_ids l) ->
  unique_ids (students (exec (__init__ fname) w0)).
Proof.
  intros H. rewrite init_students.
  destruct (records_on_file w0) as [[l|e]|]; [by apply H | constructor..].
Qed.

(** C1 (amended). Adding, updating and deleting keep the ids of the
    store unique. Loading takes the records of the file as they are: the
    store it builds has unique ids when the file is absent or cannot be
    read as records (the store is then empty) or when the records on
    file have unique ids. So in a session that starts on such a file,
    every store reached has unique ids. *)
Theorem unique_ids_kept :
  (forall w, unique_ids (students w) ->
     unique_ids (students (exec add_student w)) /\
     unique_ids (students (exec update_student w)) /\
     unique_ids (students (exec delete_student w))) /\
  (forall w0 fname,
     (forall l, records_on_file w0 = Some (Ok l) -> unique_ids l) ->
     unique_ids (students (exec (__init__ fname) w0))) /\
  (forall w0 w,
     (forall l, records_on_file w0 = Some (Ok l) -> unique_ids l) ->
     reachable w0 w ->
     unique_ids (students w)).
Proof.
  split; [|split].
  - intros w Hu. split; [|split].
    + by apply add_keeps_unique.
    + by apply update_keeps_unique.
    + by apply delete_keeps_unique.
  - intros w0 fname. apply init_keeps_unique.
  - intros w0 w Hfile Hreach. induction Hreach as [fname|w lines _ IH|w lines _ IH|w lines _ IH].
    + by apply init_keeps_unique.
    + by apply add_keeps_unique.
    + by apply update_keeps_unique.
    + by apply delete_keeps_unique.
Qed.

Lemma well_formed_store_Forall (l : list Student.t) :
  well_formed_store l = true <-> Forall (fun s => well_formed s = true) l.
Proof.
  unfold well_formed_store. rewrite forallb_forall, Forall_forall.
  split; intros H x Hx; apply H; by apply list_elem_of_In.
Qed.

Lemma validated_update_well_formed (s s' : Student.t) :
  validated_update s s' -> well_formed s = true -> well_formed s' = true.
Proof.
  intros (Hi & _ & _ & Hy & Hm) Hw. unfold well_formed in *. rewrite Hi.
  destruct (Student.student_id s) as [| | | |i| |]; try discriminate Hw.
  destruct (Student.year s) as [| |y0| | | |]; try discriminate Hw.
  apply andb_true_iff in Hw as [Hw Hmk]. apply andb_true_iff in Hw as [Ht Hy0].
  assert (exists y', Student.year s' = PyInt y' /\ (0 <? y')%Z = true)
    as (y' & -> & Hy').
  { destruct Hy as [->|(y & Hy & ->)]; [by exists y0|].
    exists y. split; [done|]. by apply Z.ltb_lt. }
  rewrite Ht, Hy'. simpl.
  destruct Hm as [->|(m & Hm & ->)]; done.
Qed.

Lemma add_keeps_well_formed (w : World) :
  well_formed_store (students w) = true ->
  well_formed_store (students (exec add_student w)) = true.
Proof.
  intros Hw.
  destruct (add_store_shape w) as [->|(id & n & b & y & m & Hne & _ & Hy & Hm & ->)];
    [done|].
  unfold well_formed_store in *. rewrite forallb_app, Hw. simpl.
  unfold well_formed; simpl. rewrite Hm.
  apply str_truthy_true in Hne. rewrite Hne.
  apply Z.ltb_lt in Hy. by rewrite Hy.
Qed.

Lemma update_keeps_well_formed (w : World) :
  well_formed_store (students w) = true ->
  well_formed_store (students (exec update_student w)) = true.
Proof.
  intros Hw. destruct (update_store_shape w) as (f & Vf & ->).
  destruct (stdin w) as [|id_line rest]; [done|].
  destruct (find_student_in _ _) as [[ref s]|]; [|done].
  apply well_formed_store_Forall. apply well_formed_store_Forall in Hw.
  apply Forall_alter; [done|]. intros x _. by apply validated_update_well_formed.
Qed.

Lemma delete_keeps_well_formed (w : World) :
  well_formed_store (students w) = true ->
  well_formed_store (students (exec delete_student w)) = true.
Proof.
  intros Hw. destruct (delete_store_shape w) as [->|[id ->]]; [done|].
  apply well_formed_store_Forall. apply well_formed_store_Forall in Hw.
  rewrite Forall_forall in *. intros x Hx. apply Hw.
  by apply filter_elem_of in Hx as [? _].
Qed.

(** C10. [add_student], [update_student] and [delete_student] keep a
    well-formed store well-formed (non-empty string ids, positive years,
    marks within 0 and 100): the first two only write values that passed
    the checks. Loading checks nothing: the store is the list of records
    on file whatever their fields, so with a JSON library that reads
    back what it writes there is a file from which a store that is not
    well-formed is loaded. *)
Theorem well_formed_kept :
  (forall w, well_formed_store (students w) = true ->
     well_formed_store (students (exec add_student w)) = true /\
     well_formed_store (students (exec update_student w)) = true /\
     well_formed_store (students (exec delete_student w)) = true) /\
  (forall w0 fname l,
     records_on_file w0 = Some (Ok l) ->
     students (exec (__init__ fname) w0) = l) /\
  (json_round_trip RT ->
   forall w fname, exists w0,
     stdin w0 = stdin w /\ stdout w0 = stdout w /\
     well_formed_store (students (exec (__init__ fname) w0)) = false).
Proof.
  split; [|split].
  - intros w Hw. split; [|split].
    + by apply add_keeps_well_formed.
    + by apply update_keeps_well_formed.
    + by apply delete_keeps_well_formed.
  - intros w0 fname l H. by rewrite init_students, H.
  - intros Hrt w fname.
    pose (bad := Student.mk (PyStr "") (PyStr "") (PyStr "") (PyInt 0)
                   (PyFloat (float_of_int 101))).
    exists (mkWorld fname [] (stdin w) (stdout w)
              (Some (json_dump (PyList [Student.to_dict bad]))) true true).
    split; [done|]. split; [done|].
    rewrite init_students. unfold records_on_file. simpl.
    rewrite Hrt. simpl. reflexivity.
Qed.

(** * Further properties of the operations *)

(** ** How the runs end *)

Lemma scan_leaves_suffix {B} (p : Msg) (c : string -> option B)
    (msgs : string -> list Msg) (lines : list string) r rest out :
  scan p c msgs lines = (r, rest, out) ->
  exists used, lines = used ++ rest.
Proof.
  revert r rest out. induction lines as [|l lines IH]; intros r rest out; simpl.
  - intros [= <- <- <-]. by exists [].
  - destruct (c l) as [b|].
    + intros [= <- <- <-]. by exists [l].
    + destruct (scan p c msgs lines) as [[r' rest'] out'].
      intros [= <- <- <-]. destruct (IH _ _ _ eq_refl) as [used ->].
      by exists (l :: used).
Qed.

Lemma saved_committed (l : list Student.t) (rest : list string) (out last : list Msg)
    (w : World) :
  let w1 := saved (with_students l (console rest out w)) in
  with_stdout (stdout w1 ++ last) w1 =
  committed l rest
    (out ++ (if writable w then MsgSaved (file_name w)
             else MsgSaveError (file_name w) OSError) :: last) w.
Proof.
  destruct w as [fn ss i o f r wr].
  unfold committed, saved, console, with_students, with_stdin, with_stdout,
    with_file.
  cbn [writable file_name students stdin stdout file readable].
  destruct wr; cbn [writable file_name students stdin stdout file readable];
    repeat (progress (cbn [app]; rewrite <- ?app_assoc)); reflexivity.
Qed.

(** [add_student] ends in one of two ways: at the end of the input, with
    nothing but the console changed; or normally, with one checked
    record appended and the list saved. *)
Lemma add_run_cases (w : World) :
  (exists used rest out,
     stdin w = used ++ rest /\
     add_student w = (Raise EOFError, console rest out w)) \/
  (exists used rest out id n b y m,
     stdin w = used ++ rest /\
     id <> "" /\
     (forall s, s ∈ students w -> Student.student_id s <> PyStr id) /\
     0 < y /\
     marks_in_range m = true /\
     add_student w =
       (Ok tt,
        committed
          (students w ++
           [Student.mk (PyStr id) (PyStr n) (PyStr b) (PyInt y) (PyFloat m)])
          rest out w)).
Proof.
  rewrite add_student_run. unfold add_outcome.
  destruct (scan PromptStudentId _ _ (stdin w)) as [[r1 rest1] out1] eqn:S1.
  destruct (scan_leaves_suffix _ _ _ _ _ _ _ S1) as [u1 Hu1].
  destruct r1 as [id|]; [|left; by eauto].
  destruct rest1 as [|name_line rest1].
  { left. exists u1, [], (MsgAddHeader :: out1 ++ [PromptName]). by split. }
  destruct rest1 as [|branch_line rest2].
  { left. exists (u1 ++ [name_line]), [],
      (MsgAddHeader :: out1 ++ [PromptName; PromptBranch]).
    split; [|done]. by rewrite Hu1, <- app_assoc, app_nil_r. }
  destruct (scan PromptYear _ _ rest2) as [[r2 rest3] out2] eqn:S2.
  destruct (scan_leaves_suffix _ _ _ _ _ _ _ S2) as [u2 Hu2].
  assert (stdin w = (u1 ++ name_line :: branch_line :: u2) ++ rest3) as Hin3.
  { rewrite Hu1, Hu2, <- app_assoc. reflexivity. }
  destruct r2 as [y|]; [|left; by eauto].
  destruct (scan PromptMarks _ _ rest3) as [[r3 rest4] out3] eqn:S3.
  destruct (scan_leaves_suffix _ _ _ _ _ _ _ S3) as [u3 Hu3].
  assert (stdin w = ((u1 ++ name_line :: branch_line :: u2) ++ u3) ++ rest4)
    as Hin4.
  { rewrite Hin3, Hu3, <- !app_assoc. reflexivity. }
  destruct r3 as [m|]; [|left; by eauto].
  right.
  apply scan_accepted in S1 as (_ & l1 & _ & _ & H1).
  apply scan_accepted in S2 as (_ & l2 & _ & _ & H2).
  apply scan_accepted in S3 as (_ & l3 & _ & _ & H3).
  apply id_choice_Some in H1 as (_ & Hne & Hfresh).
  apply year_choice_Some in H2 as [_ Hy].
  apply marks_choice_Some in H3 as [_ Hm].
  eexists _, rest4, _, id, (str_strip name_line), (str_strip branch_line), y, m.
  split; [exact Hin4|]. repeat split; try done.
  cbv zeta. rewrite saved_committed. reflexivity.
Qed.

(** [update_student] ends at the end of the input, or after not-found,
    or after the last prompt with the list saved; in between it only
    alters the record found, within [validated_update]. *)
Lemma update_run_cases (w : World) :
  match stdin w with
  | [] =>
      exists out, update_student w = (Raise EOFError, console [] out w)
  | id_line :: rest0 =>
      match find_student_in (students w) (str_strip id_line) with
      | None =>
          update_student w =
            (Ok tt,
             console rest0
               [MsgUpdateHeader; PromptUpdateId; MsgNotFound (str_strip id_line)] w)
      | Some (ref, s) =>
          exists f used rest out,
            (forall x, validated_update x (f x)) /\
            rest0 = used ++ rest /\
            (update_student w =
               (Raise EOFError,
                with_students (alter f ref (students w)) (console rest out w)) \/
             update_student w =
               (Ok tt, committed (alter f ref (students w)) rest out w))
      end
  end.
Proof.
  rewrite update_student_run. unfold update_outcome.
  destruct (stdin w) as [|id_line rest0]; [by eauto|].
  destruct (find_student_in (students w) (str_strip id_line)) as [[ref student]|];
    [|done].
  set (out0 := [MsgUpdateHeader; PromptUpdateId; MsgFound student;
                MsgEnterNewDetails; PromptNewName (Student.name student)]).
  destruct rest0 as [|name_line rest1].
  { exists id, [], [], out0. split; [apply validated_update_refl|].
    split; [done|]. left. rewrite list_alter_id by done. by destruct w. }
  rewrite assign_text_alter.
  set (f1 := fun s => if str_truthy (str_strip name_line)
                      then Student.set_name (PyStr (str_strip name_line)) s
                      else s).
  assert (forall s, validated_update s (f1 s)) as V1
    by (intros s; apply validated_text_name).
  destruct rest1 as [|branch_line rest2].
  { exists f1, [name_line], [], (out0 ++ [PromptNewBranch (Student.branch student)]).
    split; [done|]. split; [done|]. by left. }
  rewrite assign_text_alter, list_alter_alter_eq.
  set (f2 := fun s => if str_truthy (str_strip branch_line)
                      then Student.set_branch (PyStr (str_strip branch_line)) s
                      else s).
  assert (forall s, validated_update s ((f2 ∘ f1) s)) as V2.
  { intros s. eapply validated_update_trans; [apply V1|].
    apply validated_text_branch. }
  destruct (scan _ (keep_or year_choice) _ rest2) as [[r2 rest3] out2] eqn:S2.
  destruct (scan_leaves_suffix _ _ _ _ _ _ _ S2) as [u2 ->].
  destruct r2 as [oy|].
  2:{ exists (f2 ∘ f1), (name_line :: branch_line :: u2), rest3. eexists.
      split; [done|]. split; [done|]. by left. }
  rewrite assign_opt_alter, list_alter_alter_eq.
  set (f3 := fun s => match oy with
                      | Some y => Student.set_year (PyInt y) s
                      | None => s
                      end).
  assert (forall s, validated_update s ((f3 ∘ (f2 ∘ f1)) s)) as V3.
  { intros s. eapply validated_update_trans; [apply V2|].
    apply validated_year. eapply scan_year_accepted, S2. }
  destruct (scan _ (keep_or marks_choice) _ rest3) as [[r3 rest4] out3] eqn:S3.
  destruct (scan_leaves_suffix _ _ _ _ _ _ _ S3) as [u3 ->].
  destruct r3 as [om|].
  2:{ exists (f3 ∘ (f2 ∘ f1)), ((name_line :: branch_line :: u2) ++ u3), rest4.
      eexists. split; [done|]. split; [by rewrite <- app_assoc|]. by left. }
  rewrite assign_opt_alter, list_alter_alter_eq.
  set (f4 := fun s => match om with
                      | Some m => Student.set_marks (PyFloat m) s
                      | None => s
                      end).
  exists (f4 ∘ (f3 ∘ (f2 ∘ f1))), ((name_line :: branch_line :: u2) ++ u3), rest4.
  eexists. split; [|split; [by rewrite <- app_assoc|]].
  - intros s. eapply validated_update_trans; [apply V3|].
    apply validated_marks. eapply scan_marks_accepted, S3.
  - right. cbv zeta. rewrite saved_committed. reflexivity.
Qed.

(** [delete_student] ends at the end of the input with nothing but the
    console changed, or after not-found with the same store, or with the
    filtered list saved. *)
Lemma delete_run_cases (w : World) :
  match stdin w with
  | [] =>
      delete_student w =
        (Raise EOFError, console [] [MsgDeleteHeader; PromptDeleteId] w)
  | line :: rest =>
      let id := str_strip line in
      match find_student_in (students w) id with
      | None =>
          delete_student w =
            (Ok tt,
             console rest [MsgDeleteHeader; PromptDeleteId; MsgNotFound id] w)
      | Some _ =>
          exists out,
            delete_student w =
              (Ok tt,
               committed (List.filter (other_id id) (students w)) rest out w)
      end
  end.
Proof.
  destruct (stdin w) as [|line rest] eqn:Hin.
  - unfold delete_student, bind, print, input.
    destruct w as [fn ss i o f r wr]; simpl in *. subst i. simpl.
    unfold console, with_stdin, with_stdout; simpl. by rewrite <- app_assoc.
  - cbv zeta. rewrite (delete_student_run w line rest Hin).
    destruct (find_student_in (students w) (str_strip line)) as [[i s]|] eqn:F.
    + apply find_student_in_Some in F as (Hi & Hs & _).
      assert (length (List.filter (other_id (str_strip line)) (students w))
              < length (students w))%nat as Hlt.
      { apply (filter_drops_one _ _ s); [by eapply list_elem_of_lookup_2|].
        unfold other_id. apply negb_false_iff. by apply py_eq_str_true. }
      apply Nat.ltb_lt in Hlt. rewrite Hlt.
      eexists.
      change (with_students ?l (with_stdin ?r (with_stdout (stdout w ++ ?o) w)))
        with (with_students l (console r o w)).
      rewrite saved_committed. reflexivity.
    + assert (List.filter (other_id (str_strip line)) (students w) = students w)
        as ->.
      { apply filter_keeps_all. intros y Hy. apply other_id_true.
        revert y Hy. by apply find_student_in_None. }
      rewrite Nat.ltb_irrefl.
      destruct w as [fn ss i o f r wr].
      unfold console, with_students, with_stdin, with_stdout; simpl.
      by rewrite <- app_assoc.
Qed.

(** ** Saving *)

(** X2. [_save_data] never raises and never touches the store or the
    console input. When the file can be written it is replaced by the
    encoding of the whole store and success is reported; when it cannot,
    the error is caught and reported. *)
Theorem save_data_never_raises (w : World) :
  let w' := exec _save_data w in
  outcome _save_data w = Ok tt /\
  students w' = students w /\
  stdin w' = stdin w /\
  (writable w = true ->
     file w' = Some (json_dump (PyList (map Student.to_dict (students w)))) /\
     stdout w' = stdout w ++ [MsgSaved (file_name w)]) /\
  (writable w = false ->
     stdout w' = stdout w ++ [MsgSaveError (file_name w) OSError]).
Proof.
  unfold outcome, exec. rewrite save_data_run. simpl.
  split; [done|]. split; [apply saved_students|]. split; [apply saved_stdin|].
  unfold saved. split; intros ->; done.
Qed.

(** ** Adding, finding and deleting together *)

Lemma find_student_in_last (l : list Student.t) (new : Student.t) (id : string) :
  (forall s, s ∈ l -> Student.student_id s <> PyStr id) ->
  Student.student_id new = PyStr id ->
  find_student_in (l ++ [new]) id = Some (length l, new).
Proof.
  intros Hfresh Hnew. induction l as [|x l IH]; simpl.
  - apply py_eq_str_true in Hnew. by rewrite Hnew.
  - assert (py_eq_str (Student.student_id x) id = false) as ->.
    { apply py_eq_str_false. apply Hfresh. left. }
    rewrite IH; [done|]. intros s Hs. apply Hfresh. by right.
Qed.

Lemma filter_drops_last (l : list Student.t) (new : Student.t) (id : string) :
  (forall s, s ∈ l -> Student.student_id s <> PyStr id) ->
  Student.student_id new = PyStr id ->
  List.filter (other_id id) (l ++ [new]) = l.
Proof.
  intros Hfresh Hnew. rewrite List.filter_app. simpl.
  assert (other_id id new = false) as ->.
  { unfold other_id. apply negb_false_iff. by apply py_eq_str_true. }
  rewrite app_nil_r. apply filter_keeps_all. intros x Hx.
  apply other_id_true. by apply Hfresh.
Qed.

Lemma delete_students_filter (w : World) (line : string) (rest : list string) :
  stdin w = line :: rest ->
  students (exec delete_student w) =
    List.filter (other_id (str_strip line)) (students w).
Proof.
  intros Hin. unfold exec. rewrite (delete_student_run w line rest Hin).
  destruct (_ <? _)%nat; simpl; [by rewrite saved_students | done].
Qed.

(** X3. Whatever was typed, including lines that were turned down on
    the way: when [add_student] returns normally it has appended exactly
    one record, well-formed, with an id that no record of the store had;
    [_find_student] on that id now returns the new record, at the last
    position; and the updated list was handed to [_save_data]. *)
Theorem add_success_appends_one (w : World) :
  outcome add_student w = Ok tt ->
  let w' := exec add_student w in
  exists new id,
    students w' = students w ++ [new] /\
    Student.student_id new = PyStr id /\
    well_formed new = true /\
    find_student_in (students w) id = None /\
    find_student_in (students w') id = Some (length (students w), new) /\
    file w' =
      (if writable w
       then Some (json_dump (PyList (map Student.to_dict (students w'))))
       else file w).
Proof.
  intros Hok w'. unfold w', outcome, exec in *.
  destruct (add_run_cases w)
    as [(used & rest & out & _ & Hrun)
       |(used & rest & out & id & n & b & y & m & _ & Hne & Hfresh & Hy & Hm & Hrun)];
    rewrite Hrun in *; [discriminate Hok|].
  eexists _, id. simpl. split; [reflexivity|]. split; [reflexivity|].
  split; [|split; [|split]].
  - unfold well_formed; simpl. apply str_truthy_true in Hne.
    apply Z.ltb_lt in Hy. by rewrite Hne, Hy, Hm.
  - by apply find_student_in_None.
  - by apply find_student_in_last.
  - reflexivity.
Qed.

(** X4. Deleting the id of the record that a successful [add_student]
    just appended gives back the store as it was before the addition. *)
Theorem add_then_delete_restores (w : World) (line : string) (rest : list string)
    (new : Student.t) :
  outcome add_student w = Ok tt ->
  last (students (exec add_student w)) = Some new ->
  Student.student_id new = PyStr (str_strip line) ->
  students (exec delete_student (with_stdin (line :: rest) (exec add_student w)))
    = students w.
Proof.
  intros Hok Hlast Hid. unfold outcome, exec in *.
  destruct (add_run_cases w)
    as [(used & rest' & out & _ & Hrun)
       |(used & rest' & out & id & n & b & y & m & _ & Hne & Hfresh & Hy & Hm & Hrun)];
    rewrite Hrun in *; [discriminate Hok|].
  simpl in Hlast. rewrite last_snoc in Hlast. injection Hlast as <-.
  simpl in Hid. injection Hid as ->.
  change (students (exec delete_student (with_stdin (line :: rest)
            (committed (students w ++
               [Student.mk (PyStr (str_strip line)) (PyStr n) (PyStr b)
                  (PyInt y) (PyFloat m)]) rest' out w))) = students w).
  rewrite (delete_students_filter _ line rest) by reflexivity.
  by apply filter_drops_last.
Qed.

(** X5. Deleting the same id a second time finds nothing: not-found is
    reported and neither the store nor the file change. *)
Theorem delete_twice (w : World) (line1 line2 : string) (rest : list string) :
  stdin w = line1 :: line2 :: rest ->
  str_strip line2 = str_strip line1 ->
  let w1 := exec delete_student w in
  let w2 := exec delete_student w1 in
  outcome delete_student w1 = Ok tt /\
  students w2 = students w1 /\
  file w2 = file w1 /\
  stdin w2 = rest /\
  last (stdout w2) = Some (MsgNotFound (str_strip line1)).
Proof.
  intros Hin Hsame w1 w2.
  assert (stdin w1 = line2 :: rest /\
          students w1 = List.filter (other_id (str_strip line1)) (students w))
    as [Hin1 Hs1].
  { unfold w1, exec. pose proof (delete_run_cases w) as H. rewrite Hin in H.
    cbv zeta in H.
    destruct (find_student_in (students w) (str_strip line1)) as [[i s]|] eqn:F.
    - destruct H as [out ->]. done.
    - rewrite H. simpl. split; [done|]. symmetry. apply filter_keeps_all.
      intros y Hy. apply other_id_true. revert y Hy.
      by apply find_student_in_None. }
  assert (find_student_in (students w1) (str_strip line2) = None) as F1.
  { apply find_student_in_None. intros s Hs. rewrite Hs1 in Hs.
    apply filter_elem_of in Hs as [_ Hs]. rewrite Hsame.
    by apply other_id_true. }
  pose proof (delete_run_cases w1) as H. rewrite Hin1 in H. cbv zeta in H.
  rewrite F1 in H. unfold w2, outcome, exec. rewrite H. simpl.
  repeat split; try done.
  rewrite Hsame.
  change [MsgDeleteHeader; PromptDeleteId; MsgNotFound (str_strip line1)]
    with ([MsgDeleteHeader; PromptDeleteId] ++ [MsgNotFound (str_strip line1)]).
  rewrite app_assoc. apply last_snoc.
Qed.

(** ** Memory and file *)

Lemma load_data_flags (w : World) :
  file (exec _load_data w) = file w /\
  readable (exec _load_data w) = readable w /\
  writable (exec _load_data w) = writable w.
Proof.
  unfold exec, _load_data, bind, get_file_name, os_path_exists, try_except,
    open_and_load, lift, set_students, print.
  destruct w as [fn ss i o f r wr]; simpl.
  destruct f as [data|]; simpl; [|done].
  destruct r; simpl; [|done].
  destruct (json_load data) as [v|e]; simpl; [|by destruct e].
  destruct (py_iter v) as [items|e]; simpl; [|by destruct e].
  destruct (from_dict_all items) as [l|e]; simpl; [done | by destruct e].
Qed.

Lemma records_on_file_ext (w w' : World) :
  file w' = file w -> readable w' = readable w ->
  records_on_file w' = records_on_file w.
Proof. unfold records_on_file. by intros -> ->. Qed.

Lemma in_sync_iff (w : World) :
  in_sync w <->
  students w = match records_on_file w with
               | Some (Ok l) => l
               | _ => []
               end.
Proof.
  unfold in_sync. split.
  - intros H. by rewrite <- (H ""), init_students.
  - intros H fname. by rewrite init_students.
Qed.

Lemma in_sync_console (rest : list string) (out : list Msg) (w : World) :
  in_sync w -> in_sync (console rest out w).
Proof. rewrite !in_sync_iff. done. Qed.

Lemma in_sync_committed (l : list Student.t) (rest : list string) (out : list Msg)
    (w : World) :
  json_round_trip RT -> readable w = true -> writable w = true ->
  in_sync (committed l rest out w).
Proof.
  intros Hrt Hr Hw. apply in_sync_iff. unfold records_on_file, committed. simpl.
  rewrite Hw, Hr, Hrt. simpl. by rewrite from_dict_all_to_dict.
Qed.

(** X6. Restarting loses nothing. Right after the manager is
    constructed, memory and file agree: constructing it again would give
    the same store. With a JSON library that reads back what it writes
    and a file that can be read and written, [add_student] and
    [delete_student] keep that agreement however they end, and
    [update_student] keeps it whenever it returns normally. *)
Theorem restart_gives_same_store :
  (forall w0 fname, in_sync (exec (__init__ fname) w0)) /\
  (json_round_trip RT ->
   forall w, readable w = true -> writable w = true -> in_sync w ->
     in_sync (exec add_student w) /\
     in_sync (exec delete_student w) /\
     (outcome update_student w = Ok tt -> in_sync (exec update_student w))).
Proof.
  split.
  - intros w0 fname. apply in_sync_iff.
    pose (w1 := mkWorld fname [] (stdin w0) (stdout w0) (file w0)
                  (readable w0) (writable w0)).
    destruct (load_data_flags w1) as (Hf & Hr & _).
    change (exec (__init__ fname) w0) with (exec _load_data w1) at 2.
    rewrite (records_on_file_ext w1 _ Hf Hr).
    change (records_on_file w1) with (records_on_file w0).
    apply init_students.
  - intros Hrt w Hr Hw Hsync. split; [|split].
    + unfold exec.
      destruct (add_run_cases w)
        as [(used & rest & out & _ & ->)
           |(used & rest & out & id & n & b & y & m & _ & _ & _ & _ & _ & ->)]; simpl.
      * by apply in_sync_console.
      * by apply in_sync_committed.
    + unfold exec. pose proof (delete_run_cases w) as H.
      destruct (stdin w) as [|line rest].
      * rewrite H. simpl. by apply in_sync_console.
      * cbv zeta in H.
        destruct (find_student_in (students w) (str_strip line)) as [[i s]|].
        -- destruct H as [out ->]. simpl. by apply in_sync_committed.
        -- rewrite H. simpl. by apply in_sync_console.
    + unfold outcome, exec. pose proof (update_run_cases w) as H.
      destruct (stdin w) as [|id_line rest0].
      * destruct H as [out ->]. discriminate.
      * destruct (find_student_in (students w) (str_strip id_line)) as [[ref s]|].
        -- destruct H as (f & used & rest & out & _ & _ & [->| ->]);
             [discriminate|]. intros _. simpl. by apply in_sync_committed.
        -- rewrite H. intros _. simpl. by apply in_sync_console.
Qed.

(** X7. When the console input ends before the operation does
    ([EOFError]), nothing is written: the file is left as it was, and
    [add_student] and [delete_student] leave the store as it was too.
    [delete_student] meets the end of the input only at its one prompt,
    on an empty console. *)
Theorem end_of_input_writes_nothing (w : World) :
  (outcome add_student w = Raise EOFError ->
     students (exec add_student w) = students w /\
     file (exec add_student w) = file w) /\
  (outcome delete_student w = Raise EOFError ->
     stdin w = [] /\
     students (exec delete_student w) = students w /\
     file (exec delete_student w) = file w) /\
  (outcome update_student w = Raise EOFError ->
     file (exec update_student w) = file w).
Proof.
  unfold outcome, exec. split; [|split].
  - destruct (add_run_cases w)
      as [(used & rest & out & _ & ->)
         |(used & rest & out & id & n & b & y & m & _ & _ & _ & _ & _ & ->)]; simpl.
    + done.
    + discriminate.
  - pose proof (delete_run_cases w) as H.
    destruct (stdin w) as [|line rest].
    + rewrite H. simpl. done.
    + cbv zeta in H.
      destruct (find_student_in (students w) (str_strip line)) as [[i s]|].
      * destruct H as [out ->]. discriminate.
      * rewrite H. discriminate.
  - pose proof (update_run_cases w) as H.
    destruct (stdin w) as [|id_line rest0].
    + destruct H as [out ->]. simpl. done.
    + destruct (find_student_in (students w) (str_strip id_line)) as [[ref s]|].
      * destruct H as (f & used & rest & out & _ & _ & [->| ->]); simpl.
        -- done.
        -- discriminate.
      * rewrite H. discriminate.
Qed.

(** X8. An update cut short keeps what it already assigned, unsaved.
    When the console holds the id of a record and a new name and then
    ends, [update_student] raises [EOFError] at the branch prompt: the
    name is changed in memory, the file is not written, and if memory
    and file agreed before and the name is a new one they no longer
    agree. *)
Theorem update_interrupted_is_not_saved (w : World) (id_line name_line : string)
    (ref : nat) (s : Student.t) :
  stdin w = [id_line; name_line] ->
  find_student_in (students w) (str_strip id_line) = Some (ref, s) ->
  str_strip name_line <> "" ->
  let w' := exec update_student w in
  outcome update_student w = Raise EOFError /\
  students w' =
    <[ref := Student.set_name (PyStr (str_strip name_line)) s]> (students w) /\
  file w' = file w /\
  (in_sync w -> Student.name s <> PyStr (str_strip name_line) -> ~ in_sync w').
Proof.
  intros Hin F Hname w'.
  pose proof (find_student_in_lookup _ _ _ _ F) as Hlook.
  assert (update_student w =
          (Raise EOFError,
           with_students
             (<[ref := Student.set_name (PyStr (str_strip name_line)) s]>
                (students w))
             (console []
                [MsgUpdateHeader; PromptUpdateId; MsgFound s; MsgEnterNewDetails;
                 PromptNewName (Student.name s);
                 PromptNewBranch (Student.branch s)] w))) as Hrun.
  { rewrite update_student_run. unfold update_outcome. rewrite Hin, F.
    unfold assign_text. apply str_truthy_true in Hname. rewrite Hname.
    by rewrite (alter_is_insert _ _ _ s). }
  unfold w', outcome, exec. rewrite Hrun. simpl.
  split; [done|]. split; [done|]. split; [done|].
  intros Hsync Hnew Hsync'. apply in_sync_iff in Hsync, Hsync'.
  simpl in Hsync'. unfold records_on_file in Hsync, Hsync'. simpl in Hsync'.
  rewrite <- Hsync in Hsync'.
  assert (<[ref := Student.set_name (PyStr (str_strip name_line)) s]> (students w)
            !! ref = students w !! ref) as Heq by (by rewrite Hsync').
  rewrite list_lookup_insert_eq in Heq by (by eapply lookup_lt_Some).
  rewrite Hlook in Heq. injection Heq as Heq.
  apply Hnew. rewrite <- Heq. reflexivity.
Qed.

(** X9. The three operations read the console from the front and write
    at its end: the lines left are a suffix of the lines there were, the
    output is the old output followed by new messages, and the name of
    the file and what can be done with it never change. *)
Theorem operations_console_frame (w : World) :
  let frame (w' : World) :=
    (exists used, stdin w = used ++ stdin w') /\
    (exists out, stdout w' = stdout w ++ out) /\
    file_name w' = file_name w /\
    readable w' = readable w /\
    writable w' = writable w in
  frame (exec add_student w) /\
  frame (exec update_student w) /\
  frame (exec delete_student w).
Proof.
  intros frame. unfold exec. split; [|split].
  - destruct (add_run_cases w)
      as [(used & rest & out & Hin & ->)
         |(used & rest & out & id & n & b & y & m & Hin & _ & _ & _ & _ & ->)];
      unfold frame; simpl; eauto 10.
  - pose proof (update_run_cases w) as H.
    destruct (stdin w) as [|id_line rest0] eqn:Hin.
    + destruct H as [out ->]. unfold frame; simpl.
      split; [by exists []|]. eauto.
    + destruct (find_student_in (students w) (str_strip id_line)) as [[ref s]|].
      * destruct H as (f & used & rest & out & _ & -> & [->| ->]);
          unfold frame; simpl;
          (split; [by exists (id_line :: used)|]); eauto.
      * rewrite H. unfold frame; simpl.
        split; [by exists [id_line]|]. eauto.
  - pose proof (delete_run_cases w) as H.
    destruct (stdin w) as [|line rest] eqn:Hin.
    + rewrite H. unfold frame; simpl.
      split; [by exists []|]. eauto.
    + cbv zeta in H.
      destruct (find_student_in (students w) (str_strip line)) as [[i s]|].
      * destruct H as [out ->]. unfold frame; simpl.
        split; [by exists [line]|]. eauto.
      * rewrite H. unfold frame; simpl.
        split; [by exists [line]|]. eauto.
Qed.

(** ** Ids *)

Lemma update_keeps_ids (w : World) :
  map Student.student_id (students (exec update_student w)) =
  map Student.student_id (students w).
Proof.
  destruct (update_store_shape w) as (f & Vf & ->).
  destruct (stdin w) as [|id_line rest]; [done|].
  destruct (find_student_in _ _) as [[ref s]|]; [|done].
  change (Student.student_id <$> alter f ref (students w) =
          Student.student_id <$> students w).
  rewrite (list_fmap_alter _ f id).
  - by apply list_alter_id.
  - apply Forall_forall. intros x _. apply Vf.
Qed.

Lemma find_position_by_ids (l l' : list Student.t) (id : string) :
  map Student.student_id l = map Student.student_id l' ->
  fst <$> find_student_in l id = fst <$> find_student_in l' id.
Proof.
  revert l'. induction l as [|x l IH]; intros [|x' l'] H; try discriminate H.
  - done.
  - simpl in H. injection H as Hx Hl. simpl. rewrite Hx.
    destruct (py_eq_str (Student.student_id x') id); [done|].
    specialize (IH l' Hl).
    destruct (find_student_in l id) as [[i s]|],
             (find_student_in l' id) as [[i' s']|]; simpl in *; congruence.
Qed.

(** X10. An update moves no record: whatever id is looked up afterwards,
    [_find_student] finds it at the position where it found it before
    the update, or finds none as before. *)
Theorem update_keeps_positions (w : World) (id : string) :
  fst <$> find_student_in (students (exec update_student w)) id =
  fst <$> find_student_in (students w) id.
Proof. apply find_position_by_ids, update_keeps_ids. Qed.

(** X11. A record whose id is not a string, as a file can hold, is out
    of reach of the console: ids typed are strings, so [_find_student]
    never returns the record, and it is still in the store after
    [add_student], [update_student] and [delete_student], whatever is
    typed. *)
Theorem non_string_id_is_out_of_reach (w : World) (s : Student.t) :
  s ∈ students w ->
  not_a_string (Student.student_id s) ->
  (forall id i, find_student_in (students w) id <> Some (i, s)) /\
  s ∈ students (exec add_student w) /\
  s ∈ students (exec update_student w) /\
  s ∈ students (exec delete_student w).
Proof.
  intros Hs Hns. split; [|split; [|split]].
  - intros id i F. apply find_student_in_Some in F as (_ & Hid & _).
    by apply (Hns id).
  - destruct (add_store_shape w) as [->|(id & n & b & y & m & _ & _ & _ & _ & ->)];
      [done|]. apply elem_of_app. by left.
  - destruct (update_store_shape w) as (f & Vf & ->).
    destruct (stdin w) as [|id_line rest]; [done|].
    destruct (find_student_in _ _) as [[ref x]|] eqn:F; [|done].
    apply find_student_in_Some in F as (Hx & Hid & _).
    apply list_elem_of_lookup in Hs as [j Hj].
    apply list_elem_of_lookup. exists j.
    rewrite list_lookup_alter_ne; [done|].
    intros ->. rewrite Hx in Hj. injection Hj as ->. by apply (Hns (str_strip id_line)).
  - destruct (delete_store_shape w) as [->|[id ->]]; [done|].
    apply filter_elem_of. split; [done|]. apply other_id_true. apply Hns.
Qed.

(** ** Adding after refused lines *)

(** X12. [add_student] with lines refused on the way: after any number
    of ids that are empty or taken, of years that are not positive
    integers and of marks that are not numbers within 0 and 100, each
    followed at last by a line that passes, the record appended is made
    of the lines that passed, the refused lines leave no trace in the
    store, and the lines after the marks are left unread. *)
Theorem add_student_skips_refused (w : World)
    (bad_ids : list string) (id_line name_line branch_line : string)
    (bad_years : list string) (year_line : string)
    (bad_marks : list string) (marks_line : string) (rest : list string)
    (y : Z) (m : spec_float) :
  stdin w = bad_ids ++ id_line :: name_line :: branch_line ::
            bad_years ++ year_line :: bad_marks ++ marks_line :: rest ->
  Forall (fun l => str_strip l = "" \/
                   exists s, s ∈ students w /\
                             Student.student_id s = PyStr (str_strip l)) bad_ids ->
  str_strip id_line <> "" ->
  (forall s, s ∈ students w -> Student.student_id s <> PyStr (str_strip id_line)) ->
  Forall (fun l => forall y', py_int l = Some y' -> y' <= 0) bad_years ->
  py_int year_line = Some y -> 0 < y ->
  Forall (fun l => forall m', py_float l = Some m' -> marks_in_range m' = false)
    bad_marks ->
  py_float marks_line = Some m -> marks_in_range m = true ->
  let new_student :=
    Student.mk (PyStr (str_strip id_line)) (PyStr (str_strip name_line))
      (PyStr (str_strip branch_line)) (PyInt y) (PyFloat m) in
  let w' := exec add_student w in
  outcome add_student w = Ok tt /\
  students w' = students w ++ [new_student] /\
  stdin w' = rest /\
  file w' =
    (if writable w
     then Some (json_dump (PyList (map Student.to_dict (students w ++ [new_student]))))
     else file w).
Proof.
  intros Hin Hbi Hne Hfresh Hby Hy Hypos Hbm Hm Hmr new_student w'.
  assert (Forall (fun l => id_choice (students w) l = None) bad_ids) as Hbi'.
  { eapply Forall_impl; [exact Hbi|]. intros l H.
    destruct (id_choice (students w) l) as [id|] eqn:E; [|done].
    apply id_choice_Some in E as (-> & E1 & E2).
    destruct H as [H|(s & Hs & Hid)]; [done | by destruct (E2 s Hs)]. }
  assert (id_choice (students w) id_line = Some (str_strip id_line)) as Hid
    by (by apply id_choice_Some).
  assert (Forall (fun l => year_choice l = None) bad_years) as Hby'.
  { eapply Forall_impl; [exact Hby|]. intros l H.
    destruct (year_choice l) as [y'|] eqn:E; [|done].
    apply year_choice_Some in E as [E ?]. specialize (H _ E). lia. }
  assert (year_choice year_line = Some y) as Hyc by (by apply year_choice_Some).
  assert (Forall (fun l => marks_choice l = None) bad_marks) as Hbm'.
  { eapply Forall_impl; [exact Hbm|]. intros l H.
    destruct (marks_choice l) as [m'|] eqn:E; [|done].
    apply marks_choice_Some in E as [E ?]. specialize (H _ E). congruence. }
  assert (marks_choice marks_line = Some m) as Hmc by (by apply marks_choice_Some).
  destruct (scan_skips PromptStudentId (id_choice (students w))
              (id_msgs (students w)) bad_ids id_line
              (name_line :: branch_line ::
               bad_years ++ year_line :: bad_marks ++ marks_line :: rest)
              _ Hbi' Hid) as [out1 S1].
  destruct (scan_skips PromptYear year_choice year_msgs bad_years year_line
              (bad_marks ++ marks_line :: rest) _ Hby' Hyc) as [out2 S2].
  destruct (scan_skips PromptMarks marks_choice marks_msgs bad_marks marks_line
              rest _ Hbm' Hmc) as [out3 S3].
  unfold w', outcome, exec. rewrite add_student_run. unfold add_outcome.
  rewrite Hin, S1, S2, S3. simpl.
  rewrite saved_students, saved_stdin, saved_file. done.
Qed.

End Verification.

(** * The table, the menu and the main loop *)

Section AppVerification.
Context `{RT : Runtime} `{DS : Display}.
Import StudentManager.

(** ** Strings *)

Lemma string_length_app (s1 s2 : string) :
  String.length (s1 ++ s2)%string = (String.length s1 + String.length s2)%nat.
Proof. induction s1 as [|c s1 IH]; simpl; [done | by rewrite IH]. Qed.


Lemma length_repeat_char (c : ascii) (n : nat) :
  String.length (repeat_char c n) = n.
Proof. induction n as [|n IH]; simpl; [done | by rewrite IH]. Qed.

Lemma length_ljust (s : string) (width : nat) :
  String.length (ljust s width) = Nat.max (String.length s) width.
Proof. unfold ljust. rewrite string_length_app, length_repeat_char. lia. Qed.

Lemma length_ljust_fits (s : string) (width : nat) :
  (String.length s <= width)%nat -> String.length (ljust s width) = width.
Proof. intros H. rewrite length_ljust. lia. Qed.

(** ** Column widths *)

Lemma lengths_total (g : Student.t -> nat) (l : list Student.t) :
  App.lengths (fun s => Ok (g s)) l = Ok (map g l).
Proof. induction l as [|s l IH]; simpl; [done | by rewrite IH]. Qed.

Lemma lengths_app_Ok (f : Student.t -> Result nat) (l1 l2 : list Student.t) ns1 ns2 :
  App.lengths f l1 = Ok ns1 -> App.lengths f l2 = Ok ns2 ->
  App.lengths f (l1 ++ l2) = Ok (ns1 ++ ns2).
Proof.
  revert ns1. induction l1 as [|s l1 IH]; intros ns1; simpl.
  - by intros [= <-].
  - destruct (f s) as [n|e]; [|discriminate].
    destruct (App.lengths f l1) as [ns|e]; [|discriminate].
    intros [= <-] H2. by rewrite (IH ns eq_refl H2).
Qed.

Lemma lengths_Ok_Forall2 (f : Student.t -> Result nat) (l : list Student.t) ns :
  App.lengths f l = Ok ns <-> Forall2 (fun s n => f s = Ok n) l ns.
Proof.
  revert ns. induction l as [|s l IH]; intros ns; simpl.
  - split; [intros [= <-]; constructor | by inversion 1].
  - split.
    + destruct (f s) as [n|e] eqn:E; [|discriminate].
      destruct (App.lengths f l) as [ns'|e]; [|discriminate].
      intros [= <-]. constructor; [done|]. by apply IH.
    + inversion 1 as [|? n ? ns' Hs Hl]; subst. rewrite Hs.
      apply IH in Hl. by rewrite Hl.
Qed.

Lemma lengths_Raise (f : Student.t -> Result nat) (l : list Student.t) e :
  App.lengths f l = Raise e -> exists s, s ∈ l /\ f s = Raise e.
Proof.
  induction l as [|s l IH]; simpl; [discriminate|].
  destruct (f s) as [n|e'] eqn:E.
  - destruct (App.lengths f l) as [ns|e']; [discriminate|].
    intros [= ->]. destruct (IH eq_refl) as (x & Hx & Hf).
    exists x. split; [by right | done].
  - intros [= ->]. exists s. split; [left | done].
Qed.

Lemma py_len_Raise (v : pyval) e : py_len v = Raise e -> e = TypeError /\ ~ sized v.
Proof.
  destruct v; simpl; try discriminate; intros [= <-];
    (split; [done|]); intros [k Hk]; discriminate Hk.
Qed.

Lemma is_str_sized (v : pyval) : is_str v = true -> sized v.
Proof. destruct v; try discriminate. intros _. by eexists. Qed.

(** [widest] over the records and a sentinel: the greatest length when
    every record has one, [TypeError] otherwise. *)
Lemma widest_cases (field : Student.t -> pyval) (ss : list Student.t)
    (sentinel : Student.t) (k : nat) :
  py_len (field sentinel) = Ok k ->
  (Forall (fun s => sized (field s)) ss /\
   exists n,
     App.widest (fun s => py_len (field s)) (ss ++ [sentinel]) = Ok n /\
     (k <= n)%nat /\
     forall s m, s ∈ ss -> py_len (field s) = Ok m -> (m <= n)%nat) \/
  (~ Forall (fun s => sized (field s)) ss /\
   App.widest (fun s => py_len (field s)) (ss ++ [sentinel]) = Raise TypeError).
Proof.
  intros Hk. unfold App.widest.
  destruct (App.lengths (fun s => py_len (field s)) ss) as [ns|e] eqn:E.
  - left. pose proof E as HF. apply lengths_Ok_Forall2 in HF. split.
    { clear E. induction HF; constructor; [by eexists | done]. }
    rewrite (lengths_app_Ok _ ss [sentinel] ns [k] E) by (simpl; by rewrite Hk).
    assert (ns ++ [k] <> []) as Hne by (by destruct ns).
    unfold py_max. destruct (ns ++ [k]) as [|a rest] eqn:Ens; [done|].
    rewrite <- Ens. exists (max_list (ns ++ [k])). split; [done|]. split.
    + apply max_list_elem_of_le. apply elem_of_app. right. left.
    + intros s m Hs Hm. apply max_list_elem_of_le. apply elem_of_app. left.
      clear E Ens Hne. induction HF as [|x n0 l ns' Hx _ IH]; [inversion Hs|].
      apply list_elem_of_In in Hs. destruct Hs as [->|Hs].
      * rewrite Hx in Hm. injection Hm as ->. left.
      * right. apply IH. by apply list_elem_of_In.
  - right. apply lengths_Raise in E as (s & Hs & Hf).
    apply py_len_Raise in Hf as [-> Hns]. split.
    + intros HF. rewrite Forall_forall in HF. by apply Hns, HF.
    + assert (App.lengths (fun s => py_len (field s)) (ss ++ [sentinel]) =
              Raise TypeError) as ->; [|done].
      clear Hk. induction ss as [|x ss IH]; [inversion Hs|].
      apply list_elem_of_In in Hs. simpl.
      destruct (py_len (field x)) as [n|e] eqn:E.
      * destruct Hs as [->|Hs]; [exfalso; apply Hns; by eexists|].
        rewrite IH by (by apply list_elem_of_In). done.
      * by apply py_len_Raise in E as [-> _].
Qed.
Lemma widest_total (g : Student.t -> nat) (ss : list Student.t) (sentinel : Student.t) :
  exists n,
    App.widest (fun s => Ok (g s)) (ss ++ [sentinel]) = Ok n /\
    forall s, s ∈ ss -> (g s <= n)%nat.
Proof.
  unfold App.widest. rewrite lengths_total.
  assert (map g (ss ++ [sentinel]) <> []) as Hne by (by destruct ss).
  unfold py_max. destruct (map g (ss ++ [sentinel])) as [|a rest] eqn:E; [done|].
  rewrite <- E. eexists. split; [done|]. intros s Hs.
  apply max_list_elem_of_le. apply (list_elem_of_fmap_2 g).
  apply elem_of_app. by left.
Qed.

(** [col_widths]: when every id, name and branch has a length, widths
    that hold the headers and every field of every record; [TypeError]
    otherwise. *)
Lemma col_widths_cases (ss : list Student.t) :
  (Forall (fun s => sized (Student.student_id s) /\ sized (Student.name s) /\
                    sized (Student.branch s)) ss /\
   exists cw,
     App.col_widths ss = Ok cw /\
     (2 <= App.w_id cw /\ 4 <= App.w_name cw /\ 6 <= App.w_branch cw /\
      4 <= App.w_year cw /\ 5 <= App.w_marks cw)%nat /\
     forall s, s ∈ ss ->
       (forall m, py_len (Student.student_id s) = Ok m -> m <= App.w_id cw)%nat /\
       (forall m, py_len (Student.name s) = Ok m -> m <= App.w_name cw)%nat /\
       (forall m, py_len (Student.branch s) = Ok m -> m <= App.w_branch cw)%nat /\
       (String.length (py_str (Student.year s)) <= App.w_year cw)%nat /\
       (String.length (py_str (Student.marks s)) <= App.w_marks cw)%nat) \/
  (~ Forall (fun s => sized (Student.student_id s) /\ sized (Student.name s) /\
                      sized (Student.branch s)) ss /\
   App.col_widths ss = Raise TypeError).
Proof.
  unfold App.col_widths.
  destruct (widest_cases Student.student_id ss
              (Student.mk (PyStr "ID") (PyStr "") (PyStr "") (PyInt 0) (PyInt 0))
              2 eq_refl) as [(F1 & n1 & -> & _ & H1)|[F1 ->]].
  2:{ right. split; [|done]. intros HF. apply F1.
      eapply Forall_impl; [exact HF|]. by intros s (? & _). }
  destruct (widest_cases Student.name ss
              (Student.mk (PyStr "") (PyStr "Name") (PyStr "") (PyInt 0) (PyInt 0))
              4 eq_refl) as [(F2 & n2 & -> & _ & H2)|[F2 ->]].
  2:{ right. split; [|done]. intros HF. apply F2.
      eapply Forall_impl; [exact HF|]. by intros s (_ & ? & _). }
  destruct (widest_cases Student.branch ss
              (Student.mk (PyStr "") (PyStr "") (PyStr "Branch") (PyInt 0) (PyInt 0))
              6 eq_refl) as [(F3 & n3 & -> & _ & H3)|[F3 ->]].
  2:{ right. split; [|done]. intros HF. apply F3.
      eapply Forall_impl; [exact HF|]. by intros s (_ & _ & ?). }
  destruct (widest_total (fun s => String.length (py_str (Student.year s))) ss
              (Student.mk (PyStr "") (PyStr "") (PyStr "") (PyInt 0) (PyInt 0)))
    as (n4 & -> & H4).
  destruct (widest_total (fun s => String.length (py_str (Student.marks s))) ss
              (Student.mk (PyStr "") (PyStr "") (PyStr "") (PyInt 0) (PyInt 0)))
    as (n5 & -> & H5).
  left. split.
  { rewrite Forall_forall in *. intros s Hs. by auto. }
  eexists. split; [reflexivity|]. simpl. split; [lia|].
  intros s Hs. repeat split.
  - intros m Hm. specialize (H1 s m Hs Hm). lia.
  - intros m Hm. specialize (H2 s m Hs Hm). lia.
  - intros m Hm. specialize (H3 s m Hs Hm). lia.
  - specialize (H4 s Hs). simpl in H4. lia.
  - specialize (H5 s Hs). simpl in H5. lia.
Qed.



(** A row with an id, a name or a branch that has a length but is not a
    string takes no format. *)
Lemma row_line_not_printable (cw : App.Widths) (s : Student.t) :
  sized (Student.student_id s) -> sized (Student.name s) ->
  sized (Student.branch s) ->
  printable s = false ->
  App.row_line cw s = Raise TypeError.
Proof.
  unfold printable, App.row_line, sized. destruct s as [i n b y m]; simpl.
  intros [k1 H1] [k2 H2] [k3 H3].
  destruct i; try discriminate H1; simpl; try done;
    destruct n; try discriminate H2; simpl; try done;
    destruct b; try discriminate H3; simpl; done.
Qed.

Lemma row_line_Raise (cw : App.Widths) (s : Student.t) e :
  App.row_line cw s = Raise e -> e = TypeError /\ printable s = false.
Proof.
  unfold printable, App.row_line. destruct s as [i n b y m]; simpl.
  destruct i; simpl; try (by intros [= <-]);
    destruct n; simpl; try (by intros [= <-]);
    destruct b; simpl; try (by intros [= <-]); discriminate.
Qed.

(** ** view_students *)

(** The rows go to the screen one by one, up to the first that takes no
    format. *)
Lemma print_rows_cases (cw : App.Widths) (rows : list Student.t) (s : App.Session) :
  let stamp := map (fun r : string => (length (stdout (App.core s)), r)) in
  (exists lines,
     Forall2 (fun st r => App.row_line cw st = Ok r) rows lines /\
     App.print_rows cw rows s =
       (Ok tt, App.mkSession (App.core s) (App.screen s ++ stamp lines))) \/
  (exists lines st e,
     st ∈ rows /\ App.row_line cw st = Raise e /\
     App.print_rows cw rows s =
       (Raise e, App.mkSession (App.core s) (App.screen s ++ stamp lines))).
Proof.
  intros stamp. revert s stamp. induction rows as [|st rows IH]; intros s stamp.
  - left. exists []. split; [constructor|]. simpl. unfold App.ret.
    destruct s. by rewrite app_nil_r.
  - change (App.print_rows cw (st :: rows) s)
      with (App.bind (App.lift (App.row_line cw st))
              (fun line => App.bind (App.say line)
                             (fun _ => App.print_rows cw rows)) s).
    unfold App.bind, App.lift, App.say.
    destruct (App.row_line cw st) as [r|e] eqn:E.
    + destruct (IH (App.mkSession (App.core s)
                      (App.screen s ++ [(length (stdout (App.core s)), r)])))
        as [(lines & HF & Hrun)|(lines & x & e & Hx & Hr & Hrun)];
        rewrite Hrun; cbn [App.core App.screen].
      * left. exists (r :: lines). split; [by constructor|].
        unfold stamp. by rewrite <- List.app_assoc.
      * right. exists (r :: lines), x, e. split; [by right|]. split; [done|].
        unfold stamp. by rewrite <- List.app_assoc.
    + right. exists [], st, e. split; [left|]. split; [done|].
      destruct s. simpl. by rewrite app_nil_r.
Qed.

(** The runs of [view_students]. *)
Lemma view_students_cases (s : App.Session) :
  let t := length (stdout (App.core s)) in
  let shown lines :=
    App.mkSession (App.core s) (App.screen s ++ map (fun r => (t, r)) lines) in
  match students (App.core s) with
  | [] =>
      App.view_students s = (Ok tt, shown [view_title; "No student records found."])
  | ss =>
      match App.col_widths ss with
      | Raise e => App.view_students s = (Raise e, shown [view_title])
      | Ok cw =>
          let rule := repeat_char "-"%char (String.length (App.header_line cw)) in
          (exists lines,
             Forall2 (fun st r => App.row_line cw st = Ok r) ss lines /\
             App.view_students s =
               (Ok tt,
                shown ([view_title; App.header_line cw; rule] ++ lines ++ [rule]))) \/
          (exists lines st e,
             st ∈ ss /\ App.row_line cw st = Raise e /\
             App.view_students s =
               (Raise e,
                shown ([view_title; App.header_line cw; rule] ++ lines)))
      end
  end.
Proof.
  intros t shown. unfold App.view_students.
  unfold App.bind, App.say, App.call, App.lift, get_students.
  cbn [App.core App.screen].
  destruct (students (App.core s)) as [|x ss] eqn:Hss.
  { unfold shown. cbn [map App.core App.screen]. by rewrite <- app_assoc. }
  destruct (App.col_widths (x :: ss)) as [cw|e]; [|done].
  cbn [App.core App.screen].
  match goal with
  | |- context [App.print_rows cw (x :: ss) ?s1] =>
      destruct (print_rows_cases cw (x :: ss) s1)
        as [(lines & HF & Hrun)|(lines & st & e & Hst & Hr & Hrun)];
      rewrite Hrun
  end; cbn [App.core App.screen].
  - left. exists lines. split; [done|]. unfold shown.
    rewrite !map_app. cbn [map app]. rewrite <- !app_assoc. reflexivity.
  - right. exists lines, st, e. split; [done|]. split; [done|]. unfold shown.
    rewrite !map_app. cbn [map app]. rewrite <- !app_assoc. reflexivity.
Qed.
Lemma texts_shown (c : World) (sc : list (nat * string)) (t : nat)
    (lines : list string) :
  App.texts (App.mkSession c (sc ++ map (fun r => (t, r)) lines)) =
  map snd sc ++ lines.
Proof.
  unfold App.texts. cbn [App.screen]. rewrite map_app, map_map. simpl.
  by rewrite map_id.
Qed.


(** X13. [view_students] only writes on the screen: the manager (store,
    file, console input, messages) is as before, however the listing
    ends, and what was on the screen stays, followed by the title. On an
    empty store the listing is the title and the line that says there
    are no records, and it returns normally. *)
Theorem view_students_only_prints (s : App.Session) :
  let s' := App.exec App.view_students s in
  App.core s' = App.core s /\
  (exists more, App.texts s' = App.texts s ++ view_title :: more) /\
  (students (App.core s) = [] ->
     App.outcome App.view_students s = Ok tt /\
     App.texts s' = App.texts s ++ [view_title; "No student records found."]).
Proof.
  intros s'. unfold s', App.exec, App.outcome.
  pose proof (view_students_cases s) as H. cbv zeta in H.
  destruct (students (App.core s)) as [|x ss].
  - rewrite H. cbn [fst snd App.core]. rewrite texts_shown.
    split; [done|]. split; [by eexists|]. done.
  - destruct (App.col_widths (x :: ss)) as [cw|e].
    + destruct H as [(lines & _ & ->)|(lines & st & e & _ & _ & ->)];
        cbn [fst snd App.core]; rewrite texts_shown;
        (split; [done|]); (split; [by eexists|]); discriminate.
    + rewrite H. cbn [fst snd App.core]. rewrite texts_shown.
      split; [done|]. split; [by eexists|]. discriminate.
Qed.


Lemma view_students_returns_iff (s : App.Session) :
  App.outcome App.view_students s = Ok tt <->
  Forall (fun st => printable st = true) (students (App.core s)).
Proof.
  unfold App.outcome.
  pose proof (view_students_cases s) as H. cbv zeta in H.
  destruct (students (App.core s)) as [|x ss] eqn:Hss.
  { rewrite H. cbn [fst]. split; [constructor | done]. }
  destruct (col_widths_cases (x :: ss))
    as [(Hs & cw & Hcw & Hmin & Hfit)|(Hns & Hcw)]; rewrite Hcw in H.
  - destruct H as [(lines & HF & ->)|(lines & st & e & Hst & Hr & ->)]; cbn [fst].
    + split; [intros _|done].
      rewrite Forall_forall in *. intros st Hst.
      destruct (printable st) eqn:P; [done|]. exfalso.
      destruct (Hs st Hst) as (S1 & S2 & S3).
      pose proof (row_line_not_printable cw st S1 S2 S3 P) as Hr.
      apply list_elem_of_lookup in Hst as [k Hk].
      destruct (Forall2_lookup_l _ _ _ _ _ HF Hk) as (r & _ & Hr').
      congruence.
    + apply row_line_Raise in Hr as [-> P].
      split; [discriminate|]. intros HF. rewrite Forall_forall in HF.
      rewrite (HF st Hst) in P. discriminate.
  - rewrite H. cbn [fst]. split; [discriminate|]. intros HF. exfalso. apply Hns.
    eapply Forall_impl; [exact HF|]. intros st Hst. unfold printable in Hst.
    apply andb_true_iff in Hst as [Hst H3]. apply andb_true_iff in Hst as [H1 H2].
    auto using is_str_sized.
Qed.

(** X15. [view_students] returns normally only when the id, the name
    and the branch of every record are strings. A record that has a
    number, a boolean or null in one of these fields (a value without a
    length) ends the listing with [TypeError], which nothing catches,
    before the table starts: the title is all that is printed. *)
Theorem view_students_type_error (s : App.Session) :
  (App.outcome App.view_students s = Ok tt ->
   Forall (fun st => printable st = true) (students (App.core s))) /\
  (~ Forall (fun st => sized (Student.student_id st) /\ sized (Student.name st) /\
                       sized (Student.branch st)) (students (App.core s)) ->
   App.outcome App.view_students s = Raise TypeError /\
   App.texts (App.exec App.view_students s) = App.texts s ++ [view_title]).
Proof.
  split; [apply view_students_returns_iff|].
  intros Hns. unfold App.outcome, App.exec.
  pose proof (view_students_cases s) as H. cbv zeta in H.
  destruct (students (App.core s)) as [|x ss].
  { exfalso. apply Hns. constructor. }
  destruct (col_widths_cases (x :: ss)) as [(Hs & _)|(_ & Hcw)]; [done|].
  rewrite Hcw in H. rewrite H. cbn [fst snd]. by rewrite texts_shown.
Qed.

(** ** The main loop *)

Lemma add_student_tame : tame add_student.
Proof.
  intros w. unfold outcome, exec.
  destruct (add_run_cases w)
    as [(used & rest & out & Hin & ->)
       |(used & rest & out & id & n & b & y & m & Hin & _ & _ & _ & _ & ->)];
    simpl; eauto 10.
Qed.

Lemma update_student_tame : tame update_student.
Proof.
  intros w. unfold outcome, exec. pose proof (update_run_cases w) as H.
  destruct (stdin w) as [|id_line rest0] eqn:Hin.
  - destruct H as [out ->]. simpl. split; [by right|]. split; [by exists []|done].
  - destruct (find_student_in (students w) (str_strip id_line)) as [[ref s]|].
    + destruct H as (f & used & rest & out & _ & -> & [->| ->]); simpl;
        (split; [by auto|]); (split; [by exists (id_line :: used)|done]).
    + rewrite H. simpl. split; [by left|]. split; [by exists [id_line]|done].
Qed.

Lemma delete_student_tame : tame delete_student.
Proof.
  intros w. unfold outcome, exec. pose proof (delete_run_cases w) as H.
  destruct (stdin w) as [|line rest] eqn:Hin.
  - rewrite H. simpl. split; [by right|]. split; [by exists []|done].
  - cbv zeta in H.
    destruct (find_student_in (students w) (str_strip line)) as [[i s]|].
    + destruct H as [out ->]. simpl. split; [by left|].
      split; [by exists [line]|done].
    + rewrite H. simpl. split; [by left|]. split; [by exists [line]|done].
Qed.

(** A round of the main loop, up to the dispatch. *)
Lemma main_loop_round (fuel : nat) (s : App.Session) :
  let sc := App.screen s ++
            map (fun r => (length (stdout (App.core s)), r)) menu_texts in
  App.main_loop (S fuel) s =
    match stdin (App.core s) with
    | [] => (Raise EOFError, App.mkSession (App.core s) sc)
    | line :: rest =>
        let s1 := App.mkSession (with_stdin rest (App.core s)) sc in
        let choice := str_strip line in
        if String.eqb choice "1" then
          App.bind (App.call add_student) (fun _ => App.main_loop fuel) s1
        else if String.eqb choice "2" then
          App.bind App.view_students (fun _ => App.main_loop fuel) s1
        else if String.eqb choice "3" then
          App.bind (App.call update_student) (fun _ => App.main_loop fuel) s1
        else if String.eqb choice "4" then
          App.bind (App.call delete_student) (fun _ => App.main_loop fuel) s1
        else if String.eqb choice "5" then
          (Ok (Some tt),
           App.mkSession (with_stdin rest (App.core s))
             (sc ++ [(length (stdout (App.core s)),
                      "Exiting Student Record Management System. Goodbye!")]))
        else
          App.main_loop fuel
            (App.mkSession (with_stdin rest (App.core s))
               (sc ++ [(length (stdout (App.core s)),
                        "Invalid choice. Please enter a number between 1 and 5.")]))
    end.
Proof.
  intros sc.
  assert (forall A (k : unit -> App.AppM A),
            App.bind App.display_menu k s =
            k tt (App.mkSession (App.core s)
                    (App.screen s ++
                     map (fun r => (length (stdout (App.core s)), r))
                       (removelast menu_texts)))) as Hmenu.
  { intros A k. unfold App.display_menu, App.bind, App.say.
    cbn [App.core App.screen map removelast menu_texts].
    repeat (rewrite <- app_assoc; cbn [app]). reflexivity. }
  change (App.main_loop (S fuel) s) with
    (App.bind App.display_menu (fun _ =>
       App.bind (App.ask "Enter your choice (1-5): ") (fun line =>
         let choice := str_strip line in
         if String.eqb choice "1" then
           App.bind (App.call add_student) (fun _ => App.main_loop fuel)
         else if String.eqb choice "2" then
           App.bind App.view_students (fun _ => App.main_loop fuel)
         else if String.eqb choice "3" then
           App.bind (App.call update_student) (fun _ => App.main_loop fuel)
         else if String.eqb choice "4" then
           App.bind (App.call delete_student) (fun _ => App.main_loop fuel)
         else if String.eqb choice "5" then
           App.bind (App.say "Exiting Student Record Management System. Goodbye!")
             (fun _ => App.ret (Some tt))
         else
           App.bind
             (App.say "Invalid choice. Please enter a number between 1 and 5.")
             (fun _ => App.main_loop fuel))) s).
  rewrite Hmenu. unfold App.bind at 1, App.ask. cbn [App.core App.screen].
  assert (forall l, (App.screen s ++
            map (fun r => (length (stdout (App.core s)), r)) (removelast menu_texts))
            ++ [(length (stdout (App.core s)), "Enter your choice (1-5): ")] ++ l
          = sc ++ l) as Hsc.
  { intros l. unfold sc. cbn [removelast menu_texts map].
    repeat (rewrite <- app_assoc; cbn [app]). reflexivity. }
  destruct (stdin (App.core s)) as [|line rest].
  { f_equal. f_equal. specialize (Hsc []). by rewrite !app_nil_r in Hsc. }
  assert ((App.screen s ++
            map (fun r => (length (stdout (App.core s)), r)) (removelast menu_texts))
            ++ [(length (stdout (App.core s)), "Enter your choice (1-5): ")]
          = sc) as ->.
  { specialize (Hsc []). by rewrite !app_nil_r in Hsc. }
  cbv zeta.
  destruct (String.eqb (str_strip line) "1"); [done|].
  destruct (String.eqb (str_strip line) "2"); [done|].
  destruct (String.eqb (str_strip line) "3"); [done|].
  destruct (String.eqb (str_strip line) "4"); [done|].
  destruct (String.eqb (str_strip line) "5"); done.
Qed.

Lemma call_run {A} (op : M A) (s : App.Session) :
  App.call op s =
    (outcome op (App.core s), App.mkSession (exec op (App.core s)) (App.screen s)).
Proof. unfold App.call, outcome, exec. by destruct (op (App.core s)). Qed.

Lemma view_students_summary (s : App.Session) :
  App.core (App.exec App.view_students s) = App.core s /\
  (App.outcome App.view_students s = Ok tt \/
   App.outcome App.view_students s = Raise TypeError).
Proof.
  unfold App.exec, App.outcome.
  pose proof (view_students_cases s) as H. cbv zeta in H.
  destruct (students (App.core s)) as [|x ss].
  - rewrite H. by auto.
  - destruct (col_widths_cases (x :: ss))
      as [(_ & cw & Hcw & _)|(_ & Hcw)]; rewrite Hcw in H.
    + destruct H as [(lines & _ & ->)|(lines & st & e & _ & Hr & ->)]; [by auto|].
      apply row_line_Raise in Hr as [-> _]. by auto.
    + rewrite H. by auto.
Qed.

Lemma app_bind_run {A B} (m : App.AppM A) (k : A -> App.AppM B) (s : App.Session) :
  App.bind m k s =
    match App.outcome m s with
    | Ok a => k a (App.exec m s)
    | Raise e => (Raise e, App.exec m s)
    end.
Proof. unfold App.bind, App.outcome, App.exec. by destruct (m s) as [[a|e] s']. Qed.

(** The main loop with more fuel than lines: how it ends. *)
Lemma main_loop_ends (fuel : nat) (s : App.Session) :
  (length (stdin (App.core s)) < fuel)%nat ->
  App.outcome (App.main_loop fuel) s <> Ok None /\
  (forall e, App.outcome (App.main_loop fuel) s = Raise e ->
             e = EOFError \/ e = TypeError) /\
  (App.outcome (App.main_loop fuel) s = Ok (Some tt) ->
   exists line, line ∈ stdin (App.core s) /\ str_strip line = "5").
Proof.
  revert s. induction fuel as [|fuel IH]; intros s Hfuel; [lia|].
  unfold App.outcome. rewrite main_loop_round. cbv zeta.
  destruct (stdin (App.core s)) as [|line rest] eqn:Hin.
  { simpl. split; [discriminate|]. split; [|discriminate].
    intros e [= <-]. by left. }
  simpl in Hfuel.
  assert (forall (op : M unit) s1,
            tame op -> stdin (App.core s1) = rest ->
            let r := fst (App.bind (App.call op) (fun _ => App.main_loop fuel) s1) in
            r <> Ok None /\
            (forall e, r = Raise e -> e = EOFError \/ e = TypeError) /\
            (r = Ok (Some tt) ->
             exists l, l ∈ line :: rest /\ str_strip l = "5")) as Hop.
  { intros op s1 Htame Hs1 r.
    assert (r = match outcome op (App.core s1) with
                | Ok _ =>
                    fst (App.main_loop fuel
                           (App.mkSession (exec op (App.core s1)) (App.screen s1)))
                | Raise e => Raise e
                end) as ->.
    { unfold r. rewrite app_bind_run. unfold App.outcome, App.exec.
      rewrite call_run. cbn [fst snd]. by destruct (outcome op (App.core s1)). }
    destruct (Htame (App.core s1)) as ([Ho|Ho] & [used Hused] & _); rewrite Ho.
    - specialize (IH (App.mkSession (exec op (App.core s1)) (App.screen s1))).
      cbn [App.core] in IH.
      assert (length (stdin (exec op (App.core s1))) <= length rest)%nat as Hlen.
      { rewrite <- Hs1, Hused, length_app. lia. }
      destruct IH as (I1 & I2 & I3); [lia|]. unfold App.outcome in *.
      split; [done|]. split; [done|]. intros H. destruct (I3 H) as (l & Hl & H5).
      exists l. split; [|done]. right. rewrite <- Hs1, Hused.
      apply elem_of_app. by right.
    - split; [discriminate|]. split; [|discriminate].
      intros e [= <-]. by left. }
  destruct (String.eqb (str_strip line) "1").
  { apply Hop; [apply add_student_tame | done]. }
  destruct (String.eqb (str_strip line) "2").
  { rewrite app_bind_run.
    match goal with
    | |- context [App.outcome App.view_students ?s1] =>
        destruct (view_students_summary s1) as [Hc [Ho|Ho]]; rewrite Ho;
        [specialize (IH (App.exec App.view_students s1))|]
    end.
    - rewrite Hc in IH. cbn [App.core stdin with_stdin] in IH.
      destruct IH as (I1 & I2 & I3); [lia|]. unfold App.outcome in *.
      split; [done|]. split; [done|]. intros H. destruct (I3 H) as (l & Hl & H5).
      exists l. split; [by right | done].
    - cbn [fst]. split; [discriminate|]. split; [|discriminate].
      intros e [= <-]. by right. }
  destruct (String.eqb (str_strip line) "3").
  { apply Hop; [apply update_student_tame | done]. }
  destruct (String.eqb (str_strip line) "4").
  { apply Hop; [apply delete_student_tame | done]. }
  destruct (String.eqb (str_strip line) "5") eqn:E5.
  { cbn [fst]. split; [discriminate|]. split; [discriminate|]. intros _.
    exists line. split; [left|]. by apply String.eqb_eq. }
  match goal with
  | |- context [App.main_loop fuel ?s1] => specialize (IH s1)
  end.
  cbn [App.core stdin with_stdin] in IH.
  destruct IH as (I1 & I2 & I3); [lia|]. unfold App.outcome in *.
  split; [done|]. split; [done|]. intros H. destruct (I3 H) as (l & Hl & H5).
  exists l. split; [by right | done].
Qed.

Lemma init_summary (fname : string) (w : World) :
  outcome (__init__ fname) w = Ok tt /\
  stdin (exec (__init__ fname) w) = stdin w /\
  readable (exec (__init__ fname) w) = readable w /\
  writable (exec (__init__ fname) w) = writable w.
Proof.
  pose (w1 := mkWorld fname [] (stdin w) (stdout w) (file w)
                (readable w) (writable w)).
  change (outcome (__init__ fname) w) with (outcome _load_data w1).
  change (exec (__init__ fname) w) with (exec _load_data w1).
  destruct (load_data_outcome w1) as (Ho & _ & Hi & _).
  destruct (load_data_flags w1) as (_ & Hr & Hw). done.
Qed.

(** X16. The program ends on every finite console input. With more
    rounds allowed than there are lines to read, the loop of [main] is
    never cut short: it returns or it dies of an exception; and it
    returns only when a line read was the choice 5. *)
Theorem main_ends (fuel : nat) (w0 : World) :
  (length (stdin w0) < fuel)%nat ->
  let r := App.outcome (App.main fuel) (App.start w0) in
  r <> Ok None /\
  (r = Ok (Some tt) -> exists line, line ∈ stdin w0 /\ str_strip line = "5").
Proof.
  intros Hfuel r.
  destruct (init_summary "students.json" w0) as (Ho & Hin & _).
  assert (r = App.outcome (App.main_loop fuel)
                (App.mkSession (exec (__init__ "students.json") w0) [])) as ->.
  { unfold r, App.main, App.outcome. rewrite app_bind_run.
    unfold App.outcome, App.exec. rewrite call_run.
    cbn [fst snd App.start App.core App.screen]. by rewrite Ho. }
  pose proof (main_loop_ends fuel
                (App.mkSession (exec (__init__ "students.json") w0) [])) as H.
  cbn [App.core] in H. rewrite Hin in H.
  destruct (H Hfuel) as (Hcut & _ & Hexit). by split.
Qed.

Lemma app_bind_exec {A B} (m : App.AppM A) (k : A -> App.AppM B) (s : App.Session) :
  App.exec (App.bind m k) s =
    match App.outcome m s with
    | Ok a => App.exec (k a) (App.exec m s)
    | Raise e => App.exec m s
    end.
Proof.
  unfold App.exec at 1. rewrite app_bind_run. by destruct (App.outcome m s).
Qed.

Lemma with_stdin_same (w : World) : with_stdin (stdin w) w = w.
Proof. by destruct w. Qed.

(** The manager of a session is, up to the lines left on the console, a
    world reached by constructing it and running its operations. *)
Lemma main_loop_reaches (fuel : nat) (s : App.Session) (w0 w : World) :
  reachable w0 w ->
  App.core s = with_stdin (stdin (App.core s)) w ->
  exists w',
    reachable w0 w' /\
    App.core (App.exec (App.main_loop fuel) s) =
      with_stdin (stdin (App.core (App.exec (App.main_loop fuel) s))) w'.
Proof.
  pose (P := fun x : App.Session =>
               exists w', reachable w0 w' /\
                          App.core x = with_stdin (stdin (App.core x)) w').
  change (reachable w0 w ->
          App.core s = with_stdin (stdin (App.core s)) w ->
          P (App.exec (App.main_loop fuel) s)).
  revert s w. induction fuel as [|fuel IH]; intros s w Hreach Hcore.
  { exists w. by split. }
  unfold App.exec. rewrite main_loop_round. cbv zeta.
  destruct (stdin (App.core s)) as [|line rest] eqn:Hin.
  { exists w. split; [done|]. cbn [snd App.core]. by rewrite Hin. }
  assert (with_stdin rest (App.core s) = with_stdin rest w) as Hrest
    by (by rewrite Hcore).
  rewrite Hrest.
  assert (forall sc, P (App.mkSession (with_stdin rest w) sc)) as Hsame.
  { intros sc. exists w. by split. }
  assert (forall (op : M unit) sc,
            reachable w0 (exec op (with_stdin rest w)) ->
            P (App.bind (App.call op) (fun _ => App.main_loop fuel)
                 (App.mkSession (with_stdin rest w) sc)).2) as Hop.
  { intros op sc Hr.
    change ((App.bind (App.call op) (fun _ => App.main_loop fuel)
               (App.mkSession (with_stdin rest w) sc)).2)
      with (App.exec (App.bind (App.call op) (fun _ => App.main_loop fuel))
              (App.mkSession (with_stdin rest w) sc)).
    rewrite app_bind_exec. unfold App.outcome at 1, App.exec at 2 3.
    rewrite call_run. cbn [fst snd App.core App.screen].
    destruct (outcome op (with_stdin rest w)).
    - apply (IH _ (exec op (with_stdin rest w))); [done|].
      cbn [App.core]. by rewrite with_stdin_same.
    - exists (exec op (with_stdin rest w)). split; [done|].
      cbn [App.core]. by rewrite with_stdin_same. }
  destruct (String.eqb (str_strip line) "1"); [apply Hop, reach_add, Hreach|].
  destruct (String.eqb (str_strip line) "2").
  { match goal with
    | |- context [App.bind App.view_students ?k ?s1] =>
        change ((App.bind App.view_students k s1).2)
          with (App.exec (App.bind App.view_students k) s1);
        rewrite app_bind_exec;
        destruct (view_students_summary s1) as [Hc _];
        destruct (App.outcome App.view_students s1)
    end.
    - apply (IH _ w); [done|]. by rewrite Hc.
    - exists w. split; [done|]. by rewrite Hc. }
  destruct (String.eqb (str_strip line) "3"); [apply Hop, reach_update, Hreach|].
  destruct (String.eqb (str_strip line) "4"); [apply Hop, reach_delete, Hreach|].
  destruct (String.eqb (str_strip line) "5"); [apply Hsame|].
  by apply (IH _ w).
Qed.

(** X17. Whatever is typed at the menu, and wherever the session ends,
    the manager that [main] leaves is, up to the lines left on the
    console, a world reached from the start by constructing the manager
    and then adding, updating and deleting: the menu offers no other way
    to change the store or the file. *)
Theorem session_store_is_reachable (fuel : nat) (w0 : World) :
  let final := App.core (App.exec (App.main fuel) (App.start w0)) in
  exists w,
    reachable w0 w /\
    final = with_stdin (stdin final) w.
Proof.
  intros final.
  assert (App.exec (App.main fuel) (App.start w0) =
          App.exec (App.main_loop fuel)
            (App.mkSession (exec (__init__ "students.json") w0) [])) as Hmain.
  { unfold App.main. rewrite app_bind_exec. unfold App.outcome, App.exec at 2.
    rewrite call_run. cbn [fst snd App.start App.core App.screen].
    by destruct (init_summary "students.json" w0) as (-> & _). }
  unfold final. rewrite Hmain.
  apply (main_loop_reaches fuel _ w0 (exec (__init__ "students.json") w0)).
  - apply reach_start.
  - cbn [App.core]. by rewrite with_stdin_same.
Qed.

(** ** What a session keeps *)

Lemma main_exec_loop (fuel : nat) (w0 : World) :
  App.main fuel (App.start w0) =
    App.main_loop fuel (App.mkSession (exec (__init__ "students.json") w0) []).
Proof.
  unfold App.main. rewrite app_bind_run. unfold App.outcome, App.exec.
  rewrite call_run. cbn [fst snd App.start App.core App.screen].
  by destruct (init_summary "students.json" w0) as (-> & _).
Qed.

(** An invariant of the manager that the three operations keep when they
    return, and that does not look at the console input, holds when the
    loop leaves by choice 5; and if it makes the listing safe, the loop
    never dies of [TypeError]. *)
Lemma main_loop_rule (I : World -> Prop) :
  (forall w lines, I w -> I (with_stdin lines w)) ->
  (forall op, op = add_student \/ op = update_student \/ op = delete_student ->
     forall w, I w -> outcome op w = Ok tt -> I (exec op w)) ->
  forall fuel s, I (App.core s) ->
    (App.outcome (App.main_loop fuel) s = Ok (Some tt) ->
       I (App.core (App.exec (App.main_loop fuel) s))) /\
    ((forall s', I (App.core s') ->
        App.outcome App.view_students s' <> Raise TypeError) ->
     App.outcome (App.main_loop fuel) s <> Raise TypeError).
Proof.
  intros Hstdin Hkeep.
  pose (P := fun x : Result (option unit) * App.Session =>
               (x.1 = Ok (Some tt) -> I (App.core x.2)) /\
               ((forall s', I (App.core s') ->
                   App.outcome App.view_students s' <> Raise TypeError) ->
                x.1 <> Raise TypeError)).
  intros fuel s. change (I (App.core s) -> P (App.main_loop fuel s)).
  revert s. induction fuel as [|fuel IH]; intros s HI.
  { split; [discriminate|]. intros _. discriminate. }
  rewrite main_loop_round. cbv zeta.
  destruct (stdin (App.core s)) as [|line rest] eqn:Hin.
  { split; [discriminate|]. intros _. discriminate. }
  assert (forall (op : M unit) sc,
            tame op ->
            op = add_student \/ op = update_student \/ op = delete_student ->
            P (App.bind (App.call op) (fun _ => App.main_loop fuel)
                 (App.mkSession (with_stdin rest (App.core s)) sc))) as Hop.
  { intros op sc Htame Hmenu. rewrite app_bind_run. unfold App.outcome, App.exec.
    rewrite call_run. cbn [fst snd App.core App.screen].
    destruct (Htame (with_stdin rest (App.core s))) as ([Ho|Ho] & _); rewrite Ho.
    - apply IH. cbn [App.core]. apply Hkeep; [done| |done]. by apply Hstdin.
    - split; [discriminate|]. intros _. discriminate. }
  destruct (String.eqb (str_strip line) "1").
  { apply Hop; [apply add_student_tame | by left]. }
  destruct (String.eqb (str_strip line) "2").
  { rewrite app_bind_run.
    match goal with
    | |- context [App.outcome App.view_students ?s1] =>
        destruct (view_students_summary s1) as [Hc [Ho|Ho]]; rewrite Ho
    end.
    - apply IH. rewrite Hc. cbn [App.core]. by apply Hstdin.
    - split; [discriminate|]. intros Hview _. revert Ho. apply Hview.
      cbn [App.core]. by apply Hstdin. }
  destruct (String.eqb (str_strip line) "3").
  { apply Hop; [apply update_student_tame | right; by left]. }
  destruct (String.eqb (str_strip line) "4").
  { apply Hop; [apply delete_student_tame | right; by right]. }
  destruct (String.eqb (str_strip line) "5").
  { split; [|intros _; discriminate]. intros _. cbn [snd App.core]. by apply Hstdin. }
  apply IH. cbn [App.core]. by apply Hstdin.
Qed.

Lemma reachable_store (I : list Student.t -> Prop) (w0 w : World) :
  (forall fname, I (students (exec (__init__ fname) w0))) ->
  (forall op, op = add_student \/ op = update_student \/ op = delete_student ->
     forall w, I (students w) -> I (students (exec op w))) ->
  reachable w0 w -> I (students w).
Proof.
  intros Hstart Hkeep Hreach.
  induction Hreach as [fname|w lines _ IH|w lines _ IH|w lines _ IH].
  - apply Hstart.
  - apply Hkeep; [by left | done].
  - apply Hkeep; [right; by left | done].
  - apply Hkeep; [right; by right | done].
Qed.

Lemma printable_store_keeps (op : M unit) (w : World) :
  op = add_student \/ op = update_student \/ op = delete_student ->
  Forall (fun st => printable st = true) (students w) ->
  Forall (fun st => printable st = true) (students (exec op w)).
Proof.
  intros [->|[->| ->]] Hp.
  - destruct (add_store_shape w) as [->|(id & n & b & y & m & _ & _ & _ & _ & ->)];
      [done|].
    apply Forall_app. split; [done|]. by constructor.
  - destruct (update_store_shape w) as (f & Vf & ->).
    destruct (stdin w) as [|id_line rest]; [done|].
    destruct (find_student_in _ _) as [[ref s]|]; [|done].
    apply Forall_alter; [done|]. intros x _ Hx.
    destruct (Vf x) as (Hi & Hn & Hb & _). unfold printable in *.
    apply andb_true_iff in Hx as [Hx H3]. apply andb_true_iff in Hx as [H1 H2].
    rewrite Hi, H1.
    destruct Hn as [->|(n & _ & ->)]; destruct Hb as [->|(b & _ & ->)];
      by rewrite ?H2, ?H3.
  - destruct (delete_store_shape w) as [->|[id ->]]; [done|].
    rewrite Forall_forall in *. intros x Hx. apply Hp.
    by apply filter_elem_of in Hx as [? _].
Qed.

(** X18. What the file promises, the session keeps. If the records on
    file, when they can be read, have unique ids, then so has the store
    that [main] leaves, whatever was typed and however the session
    ended; the same holds of well-formed records, and of records whose
    id, name and branch are strings. *)
Theorem session_keeps_store_invariants (fuel : nat) (w0 : World) :
  let final := App.core (App.exec (App.main fuel) (App.start w0)) in
  ((forall l, records_on_file w0 = Some (Ok l) -> unique_ids l) ->
   unique_ids (students final)) /\
  ((forall l, records_on_file w0 = Some (Ok l) -> well_formed_store l = true) ->
   well_formed_store (students final) = true) /\
  ((forall l, records_on_file w0 = Some (Ok l) ->
      Forall (fun st => printable st = true) l) ->
   Forall (fun st => printable st = true) (students final)).
Proof.
  intros final.
  assert (exists w, reachable w0 w /\ students final = students w) as (w & Hreach & ->).
  { unfold final, App.exec. rewrite main_exec_loop.
    destruct (main_loop_reaches fuel
                (App.mkSession (exec (__init__ "students.json") w0) [])
                w0 (exec (__init__ "students.json") w0)) as (w & Hreach & Hw).
    - apply reach_start.
    - cbn [App.core]. by rewrite with_stdin_same.
    - exists w. split; [done|]. unfold App.exec in Hw. by rewrite Hw. }
  split; [|split]; intros Hfile.
  - apply (reachable_store unique_ids w0 w); [| |done].
    + intros fname. by apply init_keeps_unique.
    + intros op [->|[->| ->]] w1 H1.
      * by apply add_keeps_unique.
      * by apply update_keeps_unique.
      * by apply delete_keeps_unique.
  - apply (reachable_store (fun l => well_formed_store l = true) w0 w); [| |done].
    + intros fname. rewrite init_students.
      destruct (records_on_file w0) as [[l|e]|]; [by apply Hfile | done..].
    + intros op [->|[->| ->]] w1 H1.
      * by apply add_keeps_well_formed.
      * by apply update_keeps_well_formed.
      * by apply delete_keeps_well_formed.
  - apply (reachable_store (Forall (fun st => printable st = true)) w0 w); [| |done].
    + intros fname. rewrite init_students.
      destruct (records_on_file w0) as [[l|e]|]; [by apply Hfile | constructor..].
    + intros op Hop w1 H1. by apply printable_store_keeps.
Qed.

Lemma in_sync_with_stdin (lines : list string) (w : World) :
  in_sync w -> in_sync (with_stdin lines w).
Proof. rewrite !in_sync_iff. done. Qed.

Lemma operation_keeps_sync (op : M unit) (w : World) :
  json_round_trip RT ->
  op = add_student \/ op = update_student \/ op = delete_student ->
  readable w = true -> writable w = true -> in_sync w ->
  outcome op w = Ok tt -> in_sync (exec op w).
Proof.
  intros Hrt [->|[->| ->]] Hr Hw Hsync; unfold outcome, exec.
  - destruct (add_run_cases w)
      as [(used & rest & out & _ & ->)
         |(used & rest & out & id & n & b & y & m & _ & _ & _ & _ & _ & ->)]; simpl.
    + discriminate.
    + intros _. by apply in_sync_committed.
  - pose proof (update_run_cases w) as H.
    destruct (stdin w) as [|id_line rest0].
    + destruct H as [out ->]. discriminate.
    + destruct (find_student_in (students w) (str_strip id_line)) as [[ref s]|].
      * destruct H as (f & used & rest & out & _ & _ & [->| ->]);
          [discriminate|]. intros _. simpl. by apply in_sync_committed.
      * rewrite H. intros _. simpl. by apply in_sync_console.
  - pose proof (delete_run_cases w) as H.
    destruct (stdin w) as [|line rest].
    + rewrite H. discriminate.
    + cbv zeta in H.
      destruct (find_student_in (students w) (str_strip line)) as [[i s]|].
      * destruct H as [out ->]. intros _. simpl. by apply in_sync_committed.
      * rewrite H. intros _. simpl. by apply in_sync_console.
Qed.

(** X19. Leaving by choice 5 loses nothing. With a JSON library that
    reads back what it writes and a file that can be read and written,
    when [main] returns the store in memory is the store a new start
    would load: every change made in the session is on file. *)
Theorem exit_leaves_nothing_unsaved (fuel : nat) (w0 : World) :
  json_round_trip RT ->
  readable w0 = true -> writable w0 = true ->
  App.outcome (App.main fuel) (App.start w0) = Ok (Some tt) ->
  in_sync (App.core (App.exec (App.main fuel) (App.start w0))).
Proof.
  intros Hrt Hr Hw. unfold App.outcome, App.exec. rewrite main_exec_loop.
  pose (I := fun w : World => in_sync w /\ readable w = true /\ writable w = true).
  destruct (init_summary "students.json" w0) as (_ & _ & Hr0 & Hw0).
  destruct (main_loop_rule I) with (fuel := fuel)
    (s := App.mkSession (exec (__init__ "students.json") w0) []) as [Hexit _].
  - intros w lines (Hs & Hr1 & Hw1). split; [by apply in_sync_with_stdin | done].
  - intros op Hop w (Hs & Hr1 & Hw1) Ho. split; [by apply operation_keeps_sync|].
    assert (tame op) as Htame
      by (destruct Hop as [->|[->| ->]];
          [apply add_student_tame | apply update_student_tame
          | apply delete_student_tame]).
    destruct (Htame w) as (_ & _ & -> & ->). done.
  - cbn [App.core]. split; [|by rewrite Hr0, Hw0].
    apply in_sync_iff.
    pose (w1 := mkWorld "students.json" [] (stdin w0) (stdout w0) (file w0)
                  (readable w0) (writable w0)).
    destruct (load_data_flags w1) as (Hf & Hr1 & _).
    change (exec (__init__ "students.json") w0) with (exec _load_data w1) at 2.
    rewrite (records_on_file_ext w1 _ Hf Hr1).
    change (records_on_file w1) with (records_on_file w0).
    apply init_students.
  - intros Ho. by apply Hexit.
Qed.

(** X20. A session whose file holds only records with strings for id,
    name and branch (or no records that can be read) never dies of
    [TypeError], whatever is typed: every record the session adds or
    updates has strings in these fields too, so every listing finds
    fields it can measure and lay out. *)
Theorem session_on_printable_file (fuel : nat) (w0 : World) :
  (forall l, records_on_file w0 = Some (Ok l) ->
     Forall (fun st => printable st = true) l) ->
  App.outcome (App.main fuel) (App.start w0) <> Raise TypeError.
Proof.
  intros Hfile. unfold App.outcome. rewrite main_exec_loop.
  destruct (main_loop_rule
              (fun w => Forall (fun st => printable st = true) (students w)))
    with (fuel := fuel)
         (s := App.mkSession (exec (__init__ "students.json") w0) [])
    as [_ Hsafe].
  - done.
  - intros op Hop w Hp _. by apply printable_store_keeps.
  - cbn [App.core]. rewrite init_students.
    destruct (records_on_file w0) as [[l|e]|]; [by apply Hfile | constructor..].
  - apply Hsafe. intros s' Hs'.
    apply view_students_returns_iff in Hs'. rewrite Hs'. discriminate.
Qed.

Lemma texts_app (s : App.Session) (more : list (nat * string)) :
  map snd (App.screen s ++ more) = App.texts s ++ map snd more.
Proof. unfold App.texts. by rewrite map_app. Qed.

(** X21. Lines that are none of the five choices are skipped one round
    each: the loop goes on as if they had not been typed, with the
    manager untouched, and the screen shows for each of them the menu,
    the prompt and the complaint. *)
Theorem invalid_choices_are_skipped (junk rest : list string) (fuel : nat)
    (s : App.Session) :
  Forall (fun l => is_choice (str_strip l) = false) junk ->
  stdin (App.core s) = junk ++ rest ->
  exists s',
    App.main_loop (length junk + fuel) s = App.main_loop fuel s' /\
    App.core s' = with_stdin rest (App.core s) /\
    App.texts s' =
      App.texts s ++
      concat (map (fun _ => menu_texts ++
                     ["Invalid choice. Please enter a number between 1 and 5."])
                junk).
Proof.
  intros Hjunk. revert s. induction Hjunk as [|l junk Hl _ IH]; intros s Hin.
  { exists s. split; [done|]. split.
    - simpl in Hin. rewrite <- Hin. by rewrite with_stdin_same.
    - simpl. by rewrite app_nil_r. }
  cbn [length Nat.add]. rewrite main_loop_round. cbv zeta. rewrite Hin.
  cbn [app]. unfold is_choice in Hl.
  repeat (apply orb_false_iff in Hl as [Hl ?]).
  repeat match goal with H : String.eqb _ _ = false |- _ => rewrite H; clear H end.
  match goal with
  | |- context [App.main_loop (length junk + fuel) ?s1] =>
      destruct (IH s1) as (s' & Hrun & Hcore & Htexts); [done|]
  end.
  exists s'. split; [done|]. split.
  - rewrite Hcore. cbn [App.core]. by destruct (App.core s).
  - rewrite Htexts. unfold App.texts at 1. cbn [App.screen].
    rewrite !map_app, !map_map. cbn [map snd concat].
    rewrite map_id. unfold App.texts. by rewrite <- !app_assoc.
Qed.


End AppVerification.


(** * The theorems at work on the reference runtime *)

Section Instances.
Import StudentManager.
Local Existing Instance RefRuntime.runtime.

Lemma ref_round_trip : json_round_trip RefRuntime.runtime.
Proof. intros v. reflexivity. Defined.

(** C1, as stated, fails: a file with two records of one id loads into a
    store with two records of one id. *)
Lemma load_duplicate_ids_counterexample :
  let w0 := Sample.start_on [Sample.alice; Sample.twin] [] in
  let w := exec (__init__ "students.json") w0 in
  reachable w0 w /\
  students w = [Sample.alice; Sample.twin] /\
  ~ unique_ids (students w).
Proof.
  split; [constructor|]. split; [reflexivity|].
  intros H. apply NoDup_cons in H as [H _]. apply H. left.
Qed.

Lemma unique_ids_kept_witness :
  let w0 := Sample.start_on [Sample.alice] [] in
  let w1 := exec (__init__ "students.json") w0 in
  let w2 := exec add_student (with_stdin ["S2"; "Bob"; "EE"; "1"; "70"] w1) in
  (forall l, records_on_file w0 = Some (Ok l) -> unique_ids l) /\
  reachable w0 w2 /\
  students w2 = [Sample.alice; Sample.bob] /\
  unique_ids (students w2).
Proof.
  intros w0 w1 w2.
  assert (forall l, records_on_file w0 = Some (Ok l) -> unique_ids l) as Hfile.
  { intros l [= <-]. apply NoDup_singleton. }
  assert (reachable w0 w2) as Hreach by (apply reach_add, reach_start).
  split; [exact Hfile|]. split; [exact Hreach|]. split; [reflexivity|].
  exact (proj2 (proj2 (unique_ids_kept (RT := RefRuntime.runtime))) w0 w2 Hfile Hreach).
Defined.



Lemma add_student_validates_witness :
  let w := Sample.world [Sample.alice] [] in
  py_int "1" = Some 1 /\
  py_float "70" = Some (float_of_int 70) /\
  students (exec add_student (with_stdin ["S2"; "Bob"; "EE"; "1"; "70"] w)) =
    [Sample.alice; Sample.bob] /\
  outcome add_student (with_stdin ["S1"; "Bob"; "EE"; "1"; "70"] w) =
    Raise EOFError.
Proof.
  intros w.
  pose proof (add_student_validates (RT := RefRuntime.runtime) w "S2" "Bob" "EE" "1" "70" 1
                (float_of_int 70) eq_refl eq_refl) as (_ & _ & Hacc & _).
  pose proof (add_student_validates (RT := RefRuntime.runtime) w "S1" "Bob" "EE" "1" "70" 1
                (float_of_int 70) eq_refl eq_refl) as ([_ Hrej] & _).
  split; [reflexivity|]. split; [reflexivity|]. split.
  - assert (~ ("S2" = "" \/
               (exists s, s ∈ students w /\ Student.student_id s = PyStr "S2") \/
               1 <= 0 \/ marks_in_range (float_of_int 70) = false)) as Hn.
    { intros [H|[(s & Hs & Hid)|[H|H]]].
      - discriminate H.
      - apply list_elem_of_singleton in Hs. subst s. discriminate Hid.
      - lia.
      - vm_compute in H. discriminate H. }
    exact (proj1 (proj2 (Hacc Hn []))).
  - apply Hrej. right; left. exists Sample.alice. split; [left | reflexivity].
Defined.

Lemma save_load_round_trip_witness :
  let w := Sample.world [Sample.alice; Sample.bob] [] in
  json_round_trip RefRuntime.runtime /\
  writable w = true /\
  readable w = true /\
  students (exec (__init__ "students.json") (exec _save_data w)) =
    [Sample.alice; Sample.bob].
Proof.
  intros w.
  pose proof (save_load_round_trip (RT := RefRuntime.runtime) w ref_round_trip eq_refl eq_refl)
    as (_ & _ & _ & _ & _ & H).
  split; [exact ref_round_trip|]. split; [reflexivity|]. split; [reflexivity|].
  exact (H "students.json").
Defined.

Lemma update_student_fields_witness :
  let w := Sample.world [Sample.alice; Sample.bob]
             ["S2"; ""; "IT"; "0"; "abc"; "3"; "101"; " "; "next"] in
  let w' := exec update_student w in
  stdin w = "S2" :: [""; "IT"; "0"; "abc"; "3"; "101"; " "; "next"] /\
  students w' =
    [Sample.alice;
     Student.mk (PyStr "S2") (PyStr "Bob") (PyStr "IT") (PyInt 3)
       (PyFloat (float_of_int 70))] /\
  stdin w' = ["next"].
Proof.
  intros w w'.
  pose proof (update_student_fields (RT := RefRuntime.runtime) w "S2"
                [""; "IT"; "0"; "abc"; "3"; "101"; " "; "next"] eq_refl) as H.
  simpl in H. destruct H as [_ H].
  specialize (H "" "IT" ["0"; "abc"] "3" ["101"] " " ["next"] (Some 3) None eq_refl).
  assert (Forall (refused (@py_int RefRuntime.runtime) (Z.ltb 0)) ["0"; "abc"]) as Hby.
  { constructor; [|constructor; [|constructor]].
    - split; [vm_compute; discriminate|].
      intros b Hb. vm_compute in Hb. injection Hb as <-. reflexivity.
    - split; [vm_compute; discriminate|].
      intros b Hb. vm_compute in Hb. discriminate Hb. }
  assert (supplied (@py_int RefRuntime.runtime) (Z.ltb 0) "3" (Some 3)) as Hy.
  { apply supplied_value; [vm_compute; discriminate | reflexivity | reflexivity]. }
  assert (Forall (refused (@py_float RefRuntime.runtime) marks_in_range) ["101"]) as Hbm.
  { constructor; [|constructor].
    split; [vm_compute; discriminate|].
    intros b Hb. vm_compute in Hb. injection Hb as <-. reflexivity. }
  assert (supplied (@py_float RefRuntime.runtime) marks_in_range " " None) as Hm.
  { apply supplied_blank. reflexivity. }
  destruct (H Hby Hy Hbm Hm) as (_ & Hs & Hi & _).
  split; [reflexivity|]. split; [exact Hs | exact Hi].
Defined.

Lemma delete_removes_all_matches_witness :
  let w := Sample.world [Sample.alice; Sample.twin; Sample.bob] ["S1"] in
  stdin w = "S1" :: [] /\
  students (exec delete_student w) = [Sample.bob].
Proof.
  intros w.
  pose proof (delete_removes_all_matches (RT := RefRuntime.runtime) w "S1" [] eq_refl)
    as (_ & H & _).
  split; [reflexivity | exact H].
Defined.

Lemma update_frame_witness :
  let w := Sample.world [Sample.alice; Sample.bob] ["S2"; "Robert"] in
  let w' := exec update_student w in
  students w' !! 1%nat <> students w !! 1%nat /\
  length (students w') = 2%nat /\
  exists id_line rest s,
    stdin w = id_line :: rest /\
    find_student_in (students w) (str_strip id_line) = Some (1%nat, s).
Proof.
  intros w w'.
  pose proof (update_frame (RT := RefRuntime.runtime) w) as (Hl & _ & H).
  assert (students w' !! 1%nat <> students w !! 1%nat) as Hne by discriminate.
  split; [exact Hne|]. split; [exact Hl|]. exact (H 1%nat Hne).
Defined.

Lemma well_formed_kept_witness :
  let w := Sample.world [Sample.alice] ["S2"; "Bob"; "EE"; "1"; "70"] in
  well_formed_store (students w) = true /\
  students (exec add_student w) = [Sample.alice; Sample.bob] /\
  well_formed_store (students (exec add_student w)) = true /\
  json_round_trip RefRuntime.runtime /\
  exists w0 : World,
    well_formed_store (students (exec (__init__ "students.json") w0)) = false.
Proof.
  intros w.
  pose proof (well_formed_kept (RT := RefRuntime.runtime)) as (Hkeep & _ & Hload).
  split; [reflexivity|]. split; [reflexivity|].
  split; [exact (proj1 (Hkeep w eq_refl))|].
  split; [exact ref_round_trip|].
  destruct (Hload ref_round_trip w "students.json") as (w0 & _ & _ & H).
  by exists w0.
Defined.


Lemma save_data_never_raises_witness :
  let w := Sample.world [Sample.alice] [] in
  writable w = true /\
  file (exec _save_data w) =
    Some (RefRuntime.Document (PyList [Student.to_dict Sample.alice])).
Proof.
  intros w.
  pose proof (save_data_never_raises (RT := RefRuntime.runtime) w)
    as (_ & _ & _ & H & _).
  split; [reflexivity|]. exact (proj1 (H eq_refl)).
Defined.

Lemma add_success_appends_one_witness :
  let w := Sample.world [Sample.alice] [""; "S1"; "S2"; "Bob"; "EE"; "x"; "1"; "70"] in
  outcome add_student w = Ok tt /\
  exists new id,
    students (exec add_student w) = students w ++ [new] /\
    Student.student_id new = PyStr id /\
    well_formed new = true.
Proof.
  intros w.
  assert (outcome add_student w = Ok tt) as Hok by reflexivity.
  split; [exact Hok|].
  destruct (add_success_appends_one (RT := RefRuntime.runtime) w Hok)
    as (new & id & H1 & H2 & H3 & _).
  exists new, id. split; [exact H1|]. split; [exact H2 | exact H3].
Defined.

Lemma add_then_delete_restores_witness :
  let w := Sample.world [Sample.alice] ["S2"; "Bob"; "EE"; "1"; "70"] in
  outcome add_student w = Ok tt /\
  last (students (exec add_student w)) = Some Sample.bob /\
  Student.student_id Sample.bob = PyStr (str_strip " S2 ") /\
  students (exec delete_student (with_stdin [" S2 "] (exec add_student w))) =
    [Sample.alice].
Proof.
  intros w. split; [reflexivity|]. split; [reflexivity|]. split; [reflexivity|].
  exact (add_then_delete_restores (RT := RefRuntime.runtime) w " S2 " []
           Sample.bob eq_refl eq_refl eq_refl).
Defined.

Lemma delete_twice_witness :
  let w := Sample.world [Sample.alice; Sample.bob] ["S1"; " S1"; "next"] in
  let w1 := exec delete_student w in
  let w2 := exec delete_student w1 in
  stdin w = "S1" :: " S1" :: ["next"] /\
  str_strip " S1" = str_strip "S1" /\
  students w1 = [Sample.bob] /\
  students w2 = students w1 /\
  last (stdout w2) = Some (MsgNotFound "S1").
Proof.
  intros w w1 w2.
  pose proof (delete_twice (RT := RefRuntime.runtime) w "S1" " S1" ["next"]
                eq_refl eq_refl) as (_ & H1 & _ & _ & H2).
  split; [reflexivity|]. split; [reflexivity|]. split; [reflexivity|].
  split; [exact H1 | exact H2].
Defined.

Lemma restart_gives_same_store_witness :
  let w0 := Sample.start_on [Sample.alice] ["S2"; "Bob"; "EE"; "1"; "70"] in
  let w := exec (__init__ "students.json") w0 in
  json_round_trip RefRuntime.runtime /\
  readable w = true /\ writable w = true /\
  in_sync w /\
  students (exec add_student w) = [Sample.alice; Sample.bob] /\
  in_sync (exec add_student w).
Proof.
  intros w0 w.
  pose proof (restart_gives_same_store (RT := RefRuntime.runtime)) as [Hinit Hops].
  pose proof (Hinit w0 "students.json") as Hsync.
  split; [exact ref_round_trip|]. split; [reflexivity|]. split; [reflexivity|].
  split; [exact Hsync|]. split; [reflexivity|].
  exact (proj1 (Hops ref_round_trip w eq_refl eq_refl Hsync)).
Defined.

Lemma end_of_input_writes_nothing_witness :
  let w := Sample.world [Sample.alice] ["S2"; "Bob"] in
  outcome add_student w = Raise EOFError /\
  students (exec add_student w) = students w /\
  file (exec add_student w) = file w.
Proof.
  intros w.
  pose proof (end_of_input_writes_nothing (RT := RefRuntime.runtime) w) as (H & _).
  split; [reflexivity|]. exact (H eq_refl).
Defined.

Lemma update_interrupted_is_not_saved_witness :
  let w0 := Sample.start_on [Sample.alice; Sample.bob] ["S2"; "Robert"] in
  let w := exec (__init__ "students.json") w0 in
  let w' := exec update_student w in
  stdin w = ["S2"; "Robert"] /\
  find_student_in (students w) (str_strip "S2") = Some (1%nat, Sample.bob) /\
  str_strip "Robert" <> "" /\
  in_sync w /\
  outcome update_student w = Raise EOFError /\
  Student.name <$> students w' = [PyStr "Alice"; PyStr "Robert"] /\
  ~ in_sync w'.
Proof.
  intros w0 w w'.
  assert (str_strip "Robert" <> "") as Hne by (vm_compute; discriminate).
  assert (in_sync w) as Hsync.
  { intros fname. reflexivity. }
  pose proof (update_interrupted_is_not_saved (RT := RefRuntime.runtime) w
                "S2" "Robert" 1%nat Sample.bob eq_refl eq_refl Hne)
    as (Ho & _ & _ & Hbreak).
  split; [reflexivity|]. split; [reflexivity|]. split; [exact Hne|].
  split; [exact Hsync|]. split; [exact Ho|]. split; [reflexivity|].
  apply Hbreak; [exact Hsync|]. vm_compute. discriminate.
Defined.

Lemma non_string_id_is_out_of_reach_witness :
  let odd := Student.mk (PyInt 5) (PyStr "Eve") (PyStr "CS") (PyInt 1) (PyInt 50) in
  let w := Sample.world [odd; Sample.alice] ["5"] in
  odd ∈ students w /\
  not_a_string (Student.student_id odd) /\
  students (exec delete_student w) = [odd; Sample.alice] /\
  odd ∈ students (exec delete_student w).
Proof.
  intros odd w.
  assert (odd ∈ students w) as Hin by left.
  assert (not_a_string (Student.student_id odd)) as Hns
    by (intros s; discriminate).
  split; [exact Hin|]. split; [exact Hns|]. split; [reflexivity|].
  exact (proj2 (proj2 (proj2
           (non_string_id_is_out_of_reach (RT := RefRuntime.runtime) w odd Hin Hns)))).
Defined.

Lemma add_student_skips_refused_witness :
  let w := Sample.world [Sample.alice]
             [" "; "S1"; "S2"; "Bob"; "EE"; "0"; "one"; "1"; "101"; "70"; "next"] in
  let w' := exec add_student w in
  stdin w = [" "; "S1"] ++ "S2" :: "Bob" :: "EE" ::
            ["0"; "one"] ++ "1" :: ["101"] ++ "70" :: ["next"] /\
  py_int "1" = Some 1 /\
  py_float "70" = Some (float_of_int 70) /\
  students w' = [Sample.alice; Sample.bob] /\
  stdin w' = ["next"].
Proof.
  intros w w'.
  assert (Forall (fun l => str_strip l = "" \/
                   exists s, s ∈ students w /\
                             Student.student_id s = PyStr (str_strip l))
            [" "; "S1"]) as Hbi.
  { constructor; [by left|]. constructor; [|constructor].
    right. exists Sample.alice. split; [left | reflexivity]. }
  assert (str_strip "S2" <> "") as Hne by (vm_compute; discriminate).
  assert (forall s, s ∈ students w ->
            Student.student_id s <> PyStr (str_strip "S2")) as Hfresh.
  { intros s Hs. apply list_elem_of_singleton in Hs. subst s.
    vm_compute. discriminate. }
  assert (Forall (fun l => forall y', py_int l = Some y' -> y' <= 0) ["0"; "one"])
    as Hby.
  { constructor; [|constructor; [|constructor]].
    - intros y' Hy'. vm_compute in Hy'. injection Hy' as <-. lia.
    - intros y' Hy'. vm_compute in Hy'. discriminate Hy'. }
  assert (Forall (fun l => forall m', py_float l = Some m' ->
                                      marks_in_range m' = false) ["101"]) as Hbm.
  { constructor; [|constructor].
    intros m' Hm'. vm_compute in Hm'. injection Hm' as <-. reflexivity. }
  pose proof (add_student_skips_refused (RT := RefRuntime.runtime) w
                [" "; "S1"] "S2" "Bob" "EE" ["0"; "one"] "1" ["101"] "70" ["next"]
                1 (float_of_int 70) eq_refl Hbi Hne Hfresh Hby eq_refl
                ltac:(lia) Hbm eq_refl eq_refl) as (_ & Hs & Hi & _).
  split; [reflexivity|]. split; [reflexivity|]. split; [reflexivity|].
  split; [exact Hs | exact Hi].
Defined.

(** ** The table and the session at work *)

Local Existing Instance RefDisplay.display.

Lemma view_students_only_prints_witness :
  let s := App.start (Sample.world [] []) in
  students (App.core s) = [] /\
  App.outcome App.view_students s = Ok tt /\
  App.texts (App.exec App.view_students s) =
    [view_title; "No student records found."].
Proof.
  intros s.
  pose proof (view_students_only_prints
                (RT := RefRuntime.runtime) (DS := RefDisplay.display) s)
    as (_ & _ & H).
  split; [reflexivity|]. exact (H eq_refl).
Defined.


Lemma view_students_type_error_witness :
  let odd := Student.mk (PyStr "S9") (PyInt 7) (PyStr "CS") (PyInt 1) (PyInt 50) in
  let s := App.start (Sample.world [Sample.alice; odd] []) in
  ~ Forall (fun st => sized (Student.student_id st) /\ sized (Student.name st) /\
                      sized (Student.branch st)) (students (App.core s)) /\
  App.outcome App.view_students s = Raise TypeError /\
  App.texts (App.exec App.view_students s) = [view_title].
Proof.
  intros odd s.
  assert (~ Forall (fun st => sized (Student.student_id st) /\
                              sized (Student.name st) /\
                              sized (Student.branch st))
              (students (App.core s))) as Hns.
  { intros H. apply Forall_cons in H as [_ H].
    apply Forall_cons in H as [(_ & [k Hk] & _) _]. discriminate Hk. }
  split; [exact Hns|].
  exact (proj2 (view_students_type_error
                  (RT := RefRuntime.runtime) (DS := RefDisplay.display) s) Hns).
Defined.

Lemma main_ends_witness :
  let w0 := Sample.start_on [Sample.alice] ["2"; "5"; "left"] in
  let r := App.outcome (App.main 4) (App.start w0) in
  (length (stdin w0) < 4)%nat /\
  r = Ok (Some tt) /\
  exists line, line ∈ stdin w0 /\ str_strip line = "5".
Proof.
  intros w0 r.
  assert (length (stdin w0) < 4)%nat as Hfuel by (simpl; lia).
  assert (r = Ok (Some tt)) as Hr by (vm_compute; reflexivity).
  split; [exact Hfuel|]. split; [exact Hr|].
  exact (proj2 (main_ends (RT := RefRuntime.runtime)
                  (DS := RefDisplay.display) 4 w0 Hfuel) Hr).
Defined.

Lemma session_keeps_store_invariants_witness :
  let w0 := Sample.start_on [Sample.alice]
              ["1"; "S2"; "Bob"; "EE"; "1"; "70"; "5"] in
  let final := App.core (App.exec (App.main 3)
                           (App.start w0)) in
  (forall l, records_on_file w0 = Some (Ok l) -> unique_ids l) /\
  students final = [Sample.alice; Sample.bob] /\
  unique_ids (students final).
Proof.
  intros w0 final.
  assert (forall l, records_on_file w0 = Some (Ok l) -> unique_ids l) as Hfile.
  { intros l [= <-]. apply NoDup_singleton. }
  split; [exact Hfile|]. split; [vm_compute; reflexivity|].
  exact (proj1 (session_keeps_store_invariants (RT := RefRuntime.runtime)
                  (DS := RefDisplay.display) 3 w0) Hfile).
Defined.

Lemma exit_leaves_nothing_unsaved_witness :
  let w0 := Sample.start_on [Sample.alice]
              ["1"; "S2"; "Bob"; "EE"; "1"; "70"; "5"] in
  let final := App.core (App.exec (App.main 3)
                           (App.start w0)) in
  json_round_trip RefRuntime.runtime /\
  readable w0 = true /\ writable w0 = true /\
  App.outcome (App.main 3) (App.start w0) = Ok (Some tt) /\
  students final = [Sample.alice; Sample.bob] /\
  in_sync final.
Proof.
  intros w0 final.
  assert (App.outcome (App.main 3) (App.start w0)
          = Ok (Some tt)) as Hexit by (vm_compute; reflexivity).
  split; [exact ref_round_trip|]. split; [reflexivity|]. split; [reflexivity|].
  split; [exact Hexit|]. split; [vm_compute; reflexivity|].
  exact (exit_leaves_nothing_unsaved (RT := RefRuntime.runtime)
           (DS := RefDisplay.display) 3 w0 ref_round_trip eq_refl eq_refl Hexit).
Defined.

Lemma session_on_printable_file_witness :
  let w0 := Sample.start_on [Sample.alice; Sample.bob] ["2"; "4"] in
  (forall l, records_on_file w0 = Some (Ok l) ->
     Forall (fun st => printable st = true) l) /\
  App.outcome (App.main 3) (App.start w0) <> Raise TypeError.
Proof.
  intros w0.
  assert (forall l, records_on_file w0 = Some (Ok l) ->
            Forall (fun st => printable st = true) l) as Hfile.
  { intros l [= <-]. constructor; [reflexivity|].
    constructor; [reflexivity|]. constructor. }
  split; [exact Hfile|].
  exact (session_on_printable_file (RT := RefRuntime.runtime)
           (DS := RefDisplay.display) 3 w0 Hfile).
Defined.

Lemma invalid_choices_are_skipped_witness :
  let s := App.start (Sample.world [Sample.alice] ["9"; " add "; "5"]) in
  Forall (fun l => is_choice (str_strip l) = false) ["9"; " add "] /\
  stdin (App.core s) = ["9"; " add "] ++ ["5"] /\
  exists s',
    App.main_loop (2 + 1) s =
      App.main_loop 1 s' /\
    App.core s' = with_stdin ["5"] (App.core s) /\
    App.texts s' =
      App.texts s ++
      concat (map (fun _ => menu_texts ++
                     ["Invalid choice. Please enter a number between 1 and 5."])
                ["9"; " add "]).
Proof.
  intros s.
  assert (Forall (fun l => is_choice (str_strip l) = false) ["9"; " add "]) as Hjunk.
  { constructor; [reflexivity|]. constructor; [reflexivity|]. constructor. }
  split; [exact Hjunk|]. split; [reflexivity|].
  exact (invalid_choices_are_skipped (RT := RefRuntime.runtime)
           (DS := RefDisplay.display) ["9"; " add "] ["5"] 1 s Hjunk eq_refl).
Defined.


End Instances.
